(** * comm_console.py: the UART communication console

    A shallow embedding of [CommConsole] (src/comm_console.py): the widget's
    fields become a record, every handler becomes a function on that record,
    and the answers of the collaborators the handlers call (the serial
    transport, the port lister) are passed in as an explicit environment. *)

From Stdlib Require Import ZArith Lia.
From Stdlib.Strings Require Import Byte Ascii String.
From stdpp Require Import gmap list strings.

Local Open Scope Z_scope.

(** ** Python values

    A [str] is its sequence of code points, a [bytes] object a list of
    bytes.  Literals of the source are written [lit "..."]. *)

Abbreviation pystr := (list Z).
Abbreviation pybytes := (list byte).

Definition lit (s : string) : pystr :=
  (fun a => Z.of_N (N_of_ascii a)) <$> list_ascii_of_string s.

Arguments lit : simpl never.

Definition bz (b : byte) : Z := Z.of_N (Byte.to_N b).

(** Truthiness of a [str]: the empty string is falsy. *)
Definition truthy (s : pystr) : bool :=
  match s with [] => false | _ => true end.

(** [a == b] on strings. *)
Definition str_eqb (a b : pystr) : bool := bool_decide (a = b).

(** [s.startswith(p)]. *)
Fixpoint startswith (p s : pystr) : bool :=
  match p, s with
  | [], _ => true
  | _ :: _, [] => false
  | x :: p', y :: s' => (x =? y) && startswith p' s'
  end.

(** [needle in hay]. *)
Fixpoint py_in (needle hay : pystr) : bool :=
  startswith needle hay ||
  match hay with
  | [] => false
  | _ :: hay' => py_in needle hay'
  end.

(** [str.isspace] on one code point: the code points Python treats as
    white space. *)
Definition isspace (c : Z) : bool :=
  ((9 <=? c) && (c <=? 13)) || ((28 <=? c) && (c <=? 32)) ||
  (c =? 133) || (c =? 160) || (c =? 5760) ||
  ((8192 <=? c) && (c <=? 8202)) || (c =? 8232) || (c =? 8233) ||
  (c =? 8239) || (c =? 8287) || (c =? 12288).

Fixpoint lstrip_by (f : Z -> bool) (s : pystr) : pystr :=
  match s with
  | [] => []
  | c :: s' => if f c then lstrip_by f s' else s
  end.

Definition rstrip_by (f : Z -> bool) (s : pystr) : pystr :=
  rev (lstrip_by f (rev s)).

(** [s.strip()]. *)
Definition strip (s : pystr) : pystr := rstrip_by isspace (lstrip_by isspace s).

(** [s.upper()] and [s.lower()].  Device names, hardware ids and error
    messages are ASCII; code points above 127 are left as they are (their
    upper-case forms never produce [C], [O], [M], a digit or a line feed,
    which is all [_com_num] looks for). *)
Definition upper_char (c : Z) : Z :=
  if (97 <=? c) && (c <=? 122) then c - 32 else c.
Definition lower_char (c : Z) : Z :=
  if (65 <=? c) && (c <=? 90) then c + 32 else c.
Definition upper (s : pystr) : pystr := upper_char <$> s.
Definition lower (s : pystr) : pystr := lower_char <$> s.

(** The class [\d], over ASCII. *)
Definition isdigit (c : Z) : bool := (48 <=? c) && (c <=? 57).

(** [int(digits)] for a non-empty run of decimal digits, of any length
    (the interpreter's limit on the number of digits is not modelled). *)
Definition py_int (digits : pystr) : Z :=
  fold_left (fun acc c => 10 * acc + (c - 48)) digits 0.

(** The longest run of [\d] at the head of [s], and what follows it. *)
Fixpoint span_digits (s : pystr) : pystr * pystr :=
  match s with
  | [] => ([], [])
  | c :: s' =>
      if isdigit c
      then let '(ds, rest) := span_digits s' in (c :: ds, rest)
      else ([], s)
  end.

(** The pattern [COM(\d+)$] tried at the head of [s]: the group when it
    matches.  [\d+] is greedy and a shorter run is followed by a digit, so
    only the longest run can reach [$]; [$] holds at the end of the string
    and before a line feed that ends it. *)
Definition match_COM (s : pystr) : option pystr :=
  match s with
  | 67 :: 79 :: 77 :: r =>
      let '(ds, rest) := span_digits r in
      if truthy ds && (str_eqb rest [] || str_eqb rest [10])
      then Some ds else None
  | _ => None
  end.

(** [re.search(r"COM(\d+)$", s)]: the leftmost position where the pattern
    matches. *)
Fixpoint re_search_COM (s : pystr) : option pystr :=
  match match_COM s with
  | Some ds => Some ds
  | None =>
      match s with
      | [] => None
      | _ :: s' => re_search_COM s'
      end
  end.

(** [list.sort(key=...)]: a stable sort, written as insertion from the
    right so that of two entries with the same key the one listed first
    stays first. *)
Section Sort.
Context {A : Type} (key : A -> Z).

Fixpoint insert_by_key (x : A) (l : list A) : list A :=
  match l with
  | [] => [x]
  | y :: l' => if key x <=? key y then x :: l else y :: insert_by_key x l'
  end.

Fixpoint sort_by_key (l : list A) : list A :=
  match l with
  | [] => []
  | x :: l' => insert_by_key x (sort_by_key l')
  end.

End Sort.

(** [s.rstrip("\r\n")]: trailing carriage returns and line feeds go. *)
Definition is_crlf (c : Z) : bool := (c =? 13) || (c =? 10).

(** [s.split("\n")]: the pieces between line feeds, never an empty list. *)
Fixpoint split_lf (s : pystr) : list pystr :=
  match s with
  | [] => [[]]
  | c :: s' =>
      if c =? 10 then [] :: split_lf s'
      else match split_lf s' with
           | [] => [[c]]
           | piece :: pieces => (c :: piece) :: pieces
           end
  end.

(** ** The UTF-8 codec

    [bytes.decode(errors="replace")] and [str.encode()], both with
    Python's default encoding. *)

(** U+FFFD, the replacement character. *)
Definition REPLACEMENT : Z := 0xFFFD.

Definition is_continuation (b : Z) : bool := (0x80 <=? b) && (b <? 0xC0).

(** The second byte of a three-byte sequence: a continuation byte that
    neither makes the sequence overlong (after E0) nor a surrogate (after
    ED). *)
Definition second_of_3 (b0 b1 : Z) : bool :=
  is_continuation b1 &&
  negb (if b1 <? 0xA0 then b0 =? 0xE0 else b0 =? 0xED).

(** The second byte of a four-byte sequence: a continuation byte that
    neither makes the sequence overlong (after F0) nor passes U+10FFFF
    (after F4). *)
Definition second_of_4 (b0 b1 : Z) : bool :=
  is_continuation b1 &&
  negb (if b1 <? 0x90 then b0 =? 0xF0 else b0 =? 0xF4).

Definition cp2 (b0 b1 : Z) : Z :=
  Z.lor (Z.shiftl (Z.land b0 0x1F) 6) (Z.land b1 0x3F).
Definition cp3 (b0 b1 b2 : Z) : Z :=
  Z.lor (Z.shiftl (Z.land b0 0x0F) 12)
        (Z.lor (Z.shiftl (Z.land b1 0x3F) 6) (Z.land b2 0x3F)).
Definition cp4 (b0 b1 b2 b3 : Z) : Z :=
  Z.lor (Z.shiftl (Z.land b0 0x07) 18)
        (Z.lor (Z.shiftl (Z.land b1 0x3F) 12)
               (Z.lor (Z.shiftl (Z.land b2 0x3F) 6) (Z.land b3 0x3F))).

(** [data.decode(errors="replace")].  A well-formed sequence gives its
    code point.  An ill-formed one gives one U+FFFD for its longest prefix
    that could still start a well-formed sequence (a lone byte when there
    is none), and decoding goes on right after that prefix; input that ends
    inside a sequence gives one U+FFFD for the unfinished part. *)
Fixpoint decode_replace (data : pybytes) : pystr :=
  match data with
  | [] => []
  | b0 :: r0 =>
      let c0 := bz b0 in
      if c0 <? 0x80 then c0 :: decode_replace r0
      else if c0 <? 0xC2 then REPLACEMENT :: decode_replace r0
      else if c0 <? 0xE0 then
        match r0 with
        | [] => [REPLACEMENT]
        | b1 :: r1 =>
            if is_continuation (bz b1)
            then cp2 c0 (bz b1) :: decode_replace r1
            else REPLACEMENT :: decode_replace r0
        end
      else if c0 <? 0xF0 then
        match r0 with
        | [] => [REPLACEMENT]
        | b1 :: r1 =>
            if second_of_3 c0 (bz b1) then
              match r1 with
              | [] => [REPLACEMENT]
              | b2 :: r2 =>
                  if is_continuation (bz b2)
                  then cp3 c0 (bz b1) (bz b2) :: decode_replace r2
                  else REPLACEMENT :: decode_replace r1
              end
            else REPLACEMENT :: decode_replace r0
        end
      else if c0 <? 0xF5 then
        match r0 with
        | [] => [REPLACEMENT]
        | b1 :: r1 =>
            if second_of_4 c0 (bz b1) then
              match r1 with
              | [] => [REPLACEMENT]
              | b2 :: r2 =>
                  if is_continuation (bz b2) then
                    match r2 with
                    | [] => [REPLACEMENT]
                    | b3 :: r3 =>
                        if is_continuation (bz b3)
                        then cp4 c0 (bz b1) (bz b2) (bz b3) :: decode_replace r3
                        else REPLACEMENT :: decode_replace r2
                    end
                  else REPLACEMENT :: decode_replace r1
              end
            else REPLACEMENT :: decode_replace r0
        end
      else REPLACEMENT :: decode_replace r0
  end.

Definition byte_of_Z (z : Z) : byte := default x00 (Byte.of_N (Z.to_N z)).

(** One code point of [s.encode()]; [None] where Python raises
    [UnicodeEncodeError] (a lone surrogate). *)
Definition encode_char (c : Z) : option pybytes :=
  if c <? 0 then None
  else if c <? 0x80 then Some [byte_of_Z c]
  else if c <? 0x800 then
    Some [byte_of_Z (Z.lor 0xC0 (Z.shiftr c 6));
          byte_of_Z (Z.lor 0x80 (Z.land c 0x3F))]
  else if (0xD800 <=? c) && (c <=? 0xDFFF) then None
  else if c <? 0x10000 then
    Some [byte_of_Z (Z.lor 0xE0 (Z.shiftr c 12));
          byte_of_Z (Z.lor 0x80 (Z.land (Z.shiftr c 6) 0x3F));
          byte_of_Z (Z.lor 0x80 (Z.land c 0x3F))]
  else if c <? 0x110000 then
    Some [byte_of_Z (Z.lor 0xF0 (Z.shiftr c 18));
          byte_of_Z (Z.lor 0x80 (Z.land (Z.shiftr c 12) 0x3F));
          byte_of_Z (Z.lor 0x80 (Z.land (Z.shiftr c 6) 0x3F));
          byte_of_Z (Z.lor 0x80 (Z.land c 0x3F))]
  else None.

(** [s.encode()]. *)
Fixpoint encode (s : pystr) : option pybytes :=
  match s with
  | [] => Some []
  | c :: s' =>
      match encode_char c, encode s' with
      | Some bs, Some bs' => Some (bs ++ bs')
      | _, _ => None
      end
  end.

(** ** The collaborators: pyserial and the message boxes *)

Inductive ByteSize := SEVENBITS | EIGHTBITS.
Inductive Parity := PARITY_NONE | PARITY_EVEN | PARITY_ODD.
Inductive StopBits := STOPBITS_ONE | STOPBITS_ONE_POINT_FIVE | STOPBITS_TWO.

(** A [serial.Serial] object: the keyword arguments it was opened with
    ([timeout] is always 0). *)
Record Serial := {
  port : pystr;
  baudrate : Z;
  bytesize : ByteSize;
  parity : Parity;
  stopbits : StopBits;
  rtscts : bool;
  xonxoff : bool
}.

(** An exception: the classes the handlers tell apart, and [str(e)]. *)
Inductive ExnClass :=
  ImportError | PermissionError | FileNotFoundError | OtherException.

Record PyExn := { exn_class : ExnClass; exn_str : pystr }.

(** What the outside world answers during one handler run.  A call that
    can raise carries its exception ([Some e], [inl e]) or its result. *)
Record Env := {
  env_import : bool;                 (* [import serial] succeeds *)
  env_Serial : option PyExn;         (* [serial.Serial(...)] *)
  env_in_waiting : PyExn + Z;        (* [in_waiting], read in the test *)
  env_in_waiting' : PyExn + Z;       (* [in_waiting], read for the size *)
  env_read : PyExn + pybytes;        (* [read(n)] *)
  env_encode : PyExn;                (* what [encode()] raises when it does *)
  env_write : option PyExn;          (* [write(data)] *)
  env_close : option PyExn;          (* the first [close()] of the run *)
  env_close' : option PyExn          (* the second [close()] of the run *)
}.

(** An entry of [serial.tools.list_ports.comports()]. *)
Record ListPortInfo := { device : pystr; hwid : pystr }.

Inductive Icon := Critical | Warning.

(** What a handler does to the outside world, in order. *)
Inductive Event :=
  | Opened (h : Serial)                         (* [serial.Serial(...)] returned *)
  | Write (h : Serial) (data : pybytes) (raised : bool)
  | Close (h : Serial) (raised : bool)
  | MessageBox (icon : Icon) (title text : pystr)
  | Completed (cb : nat).                       (* [on_complete()] *)

(** ** The widget *)

(** A [QComboBox]: its entries and the current index (-1 for none). *)
Record ComboBox := { items : list pystr; currentIndex : Z }.

Definition currentText (c : ComboBox) : pystr :=
  if currentIndex c <? 0 then []
  else nth (Z.to_nat (currentIndex c)) (items c) [].

Fixpoint find_index (text : pystr) (l : list pystr) : Z :=
  match l with
  | [] => -1
  | x :: l' =>
      if str_eqb x text then 0
      else let i := find_index text l' in if i <? 0 then -1 else i + 1
  end.

(** [combo.findText(text)]: the first entry equal to [text], or -1. *)
Definition findText (text : pystr) (c : ComboBox) : Z :=
  find_index text (items c).

(** The checkable connect button. *)
Record Button := { isChecked : bool; text : pystr }.

(** The fields of [CommConsole] the handlers read and write.  The baud
    combo is not editable, so its text is always one of its eight entries:
    it is kept as the number it spells.  [log] and [input] are the texts of
    the two [QPlainTextEdit]s, taken to give back exactly what was put in.
    [trace] is not a field of the class: it lists what reached the outside
    world so far. *)
Record CommConsole := {
  _serial : option Serial;
  _poll : bool;                      (* the 100 ms poll timer is running *)
  _port_logs : gmap pystr pystr;
  _current_port : pystr;
  _soc_port_id : pystr;
  uart_port_combo : ComboBox;
  uart_baud : Z;
  uart_databits : pystr;
  uart_parity : pystr;
  uart_stop : pystr;
  uart_flow : pystr;
  uart_connect_btn : Button;
  log : pystr;
  input : pystr;
  trace : list Event
}.

Definition set_serial (v : option Serial) (s : CommConsole) : CommConsole :=
  {| _serial := v; _poll := _poll s; _port_logs := _port_logs s;
     _current_port := _current_port s; _soc_port_id := _soc_port_id s;
     uart_port_combo := uart_port_combo s; uart_baud := uart_baud s;
     uart_databits := uart_databits s; uart_parity := uart_parity s;
     uart_stop := uart_stop s; uart_flow := uart_flow s;
     uart_connect_btn := uart_connect_btn s; log := log s; input := input s;
     trace := trace s |}.

Definition set_poll (v : bool) (s : CommConsole) : CommConsole :=
  {| _serial := _serial s; _poll := v; _port_logs := _port_logs s;
     _current_port := _current_port s; _soc_port_id := _soc_port_id s;
     uart_port_combo := uart_port_combo s; uart_baud := uart_baud s;
     uart_databits := uart_databits s; uart_parity := uart_parity s;
     uart_stop := uart_stop s; uart_flow := uart_flow s;
     uart_connect_btn := uart_connect_btn s; log := log s; input := input s;
     trace := trace s |}.

Definition set_port_logs (v : gmap pystr pystr) (s : CommConsole) : CommConsole :=
  {| _serial := _serial s; _poll := _poll s; _port_logs := v;
     _current_port := _current_port s; _soc_port_id := _soc_port_id s;
     uart_port_combo := uart_port_combo s; uart_baud := uart_baud s;
     uart_databits := uart_databits s; uart_parity := uart_parity s;
     uart_stop := uart_stop s; uart_flow := uart_flow s;
     uart_connect_btn := uart_connect_btn s; log := log s; input := input s;
     trace := trace s |}.

Definition set_current_port (v : pystr) (s : CommConsole) : CommConsole :=
  {| _serial := _serial s; _poll := _poll s; _port_logs := _port_logs s;
     _current_port := v; _soc_port_id := _soc_port_id s;
     uart_port_combo := uart_port_combo s; uart_baud := uart_baud s;
     uart_databits := uart_databits s; uart_parity := uart_parity s;
     uart_stop := uart_stop s; uart_flow := uart_flow s;
     uart_connect_btn := uart_connect_btn s; log := log s; input := input s;
     trace := trace s |}.

Definition set_soc_port_id (v : pystr) (s : CommConsole) : CommConsole :=
  {| _serial := _serial s; _poll := _poll s; _port_logs := _port_logs s;
     _current_port := _current_port s; _soc_port_id := v;
     uart_port_combo := uart_port_combo s; uart_baud := uart_baud s;
     uart_databits := uart_databits s; uart_parity := uart_parity s;
     uart_stop := uart_stop s; uart_flow := uart_flow s;
     uart_connect_btn := uart_connect_btn s; log := log s; input := input s;
     trace := trace s |}.

Definition set_port_combo (v : ComboBox) (s : CommConsole) : CommConsole :=
  {| _serial := _serial s; _poll := _poll s; _port_logs := _port_logs s;
     _current_port := _current_port s; _soc_port_id := _soc_port_id s;
     uart_port_combo := v; uart_baud := uart_baud s;
     uart_databits := uart_databits s; uart_parity := uart_parity s;
     uart_stop := uart_stop s; uart_flow := uart_flow s;
     uart_connect_btn := uart_connect_btn s; log := log s; input := input s;
     trace := trace s |}.

Definition set_baud (v : Z) (s : CommConsole) : CommConsole :=
  {| _serial := _serial s; _poll := _poll s; _port_logs := _port_logs s;
     _current_port := _current_port s; _soc_port_id := _soc_port_id s;
     uart_port_combo := uart_port_combo s; uart_baud := v;
     uart_databits := uart_databits s; uart_parity := uart_parity s;
     uart_stop := uart_stop s; uart_flow := uart_flow s;
     uart_connect_btn := uart_connect_btn s; log := log s; input := input s;
     trace := trace s |}.

Definition set_connect_btn (v : Button) (s : CommConsole) : CommConsole :=
  {| _serial := _serial s; _poll := _poll s; _port_logs := _port_logs s;
     _current_port := _current_port s; _soc_port_id := _soc_port_id s;
     uart_port_combo := uart_port_combo s; uart_baud := uart_baud s;
     uart_databits := uart_databits s; uart_parity := uart_parity s;
     uart_stop := uart_stop s; uart_flow := uart_flow s;
     uart_connect_btn := v; log := log s; input := input s;
     trace := trace s |}.

Definition set_log (v : pystr) (s : CommConsole) : CommConsole :=
  {| _serial := _serial s; _poll := _poll s; _port_logs := _port_logs s;
     _current_port := _current_port s; _soc_port_id := _soc_port_id s;
     uart_port_combo := uart_port_combo s; uart_baud := uart_baud s;
     uart_databits := uart_databits s; uart_parity := uart_parity s;
     uart_stop := uart_stop s; uart_flow := uart_flow s;
     uart_connect_btn := uart_connect_btn s; log := v; input := input s;
     trace := trace s |}.

Definition set_input (v : pystr) (s : CommConsole) : CommConsole :=
  {| _serial := _serial s; _poll := _poll s; _port_logs := _port_logs s;
     _current_port := _current_port s; _soc_port_id := _soc_port_id s;
     uart_port_combo := uart_port_combo s; uart_baud := uart_baud s;
     uart_databits := uart_databits s; uart_parity := uart_parity s;
     uart_stop := uart_stop s; uart_flow := uart_flow s;
     uart_connect_btn := uart_connect_btn s; log := log s; input := v;
     trace := trace s |}.

Definition emit (e : Event) (s : CommConsole) : CommConsole :=
  {| _serial := _serial s; _poll := _poll s; _port_logs := _port_logs s;
     _current_port := _current_port s; _soc_port_id := _soc_port_id s;
     uart_port_combo := uart_port_combo s; uart_baud := uart_baud s;
     uart_databits := uart_databits s; uart_parity := uart_parity s;
     uart_stop := uart_stop s; uart_flow := uart_flow s;
     uart_connect_btn := uart_connect_btn s; log := log s; input := input s;
     trace := trace s ++ [e] |}.

(** [self._port_logs.get(port, "")]. *)
Definition logs_get (p : pystr) (s : CommConsole) : pystr :=
  default [] (_port_logs s !! p).

(** [QMessageBox.critical] and [QMessageBox.warning]. *)
Definition message_box (icon : Icon) (title body : pystr) (s : CommConsole)
  : CommConsole :=
  emit (MessageBox icon title body) s.

(** ** The port combo and its [currentTextChanged] signal *)

(** [_on_port_changed(port)]: the slot of [currentTextChanged]. *)
Definition _on_port_changed (p : pystr) (s : CommConsole) : CommConsole :=
  let prev := _current_port s in
  let s1 := if truthy prev
            then set_port_logs (<[prev := log s]> (_port_logs s)) s
            else s in
  let s2 := set_current_port p s1 in
  set_log (logs_get p s2) s2.

(** The combo takes the contents [c]; when that changes its current text
    the signal runs the slot with the new text. *)
Definition port_combo_becomes (c : ComboBox) (s : CommConsole) : CommConsole :=
  let before := currentText (uart_port_combo s) in
  let s1 := set_port_combo c s in
  if str_eqb (currentText c) before then s1
  else _on_port_changed (currentText c) s1.

(** [uart_port_combo.clear()]. *)
Definition uart_port_combo_clear (s : CommConsole) : CommConsole :=
  port_combo_becomes {| items := []; currentIndex := -1 |} s.

(** [uart_port_combo.addItems(l)]: the first entry of a combo that was
    empty becomes the current one. *)
Definition uart_port_combo_addItems (l : list pystr) (s : CommConsole)
  : CommConsole :=
  let c := uart_port_combo s in
  port_combo_becomes
    {| items := items c ++ l;
       currentIndex := match items c, l with
                       | [], _ :: _ => 0
                       | _, _ => currentIndex c
                       end |} s.

(** [uart_port_combo.addItem(text)]. *)
Definition uart_port_combo_addItem (t : pystr) (s : CommConsole) : CommConsole :=
  uart_port_combo_addItems [t] s.

(** [uart_port_combo.setCurrentIndex(i)]; an index outside the entries
    leaves no entry selected. *)
Definition uart_port_combo_setCurrentIndex (i : Z) (s : CommConsole)
  : CommConsole :=
  let c := uart_port_combo s in
  port_combo_becomes
    {| items := items c;
       currentIndex := if (0 <=? i) && (i <? Z.of_nat (length (items c)))
                       then i else -1 |} s.

(** ** Construction *)

(** [refresh_ports()]; [comports] is [None] when the port lister cannot
    be imported or raises. *)
Definition refresh_ports (comports : option (list ListPortInfo))
    (s : CommConsole) : CommConsole :=
  match comports with
  | Some l =>
      let ports := match device <$> l with
                   | [] => [lit "COM1"]
                   | ds => ds
                   end in
      uart_port_combo_addItems ports (uart_port_combo_clear s)
  | None => uart_port_combo_addItems [lit "COM1"] (uart_port_combo_clear s)
  end.

(** The widgets as [_build_ui] leaves them. *)
Definition _build_ui : CommConsole :=
  {| _serial := None; _poll := false; _port_logs := ∅;
     _current_port := []; _soc_port_id := [];
     uart_port_combo := {| items := []; currentIndex := -1 |};
     uart_baud := 115200;
     uart_databits := lit "8"; uart_parity := lit "None";
     uart_stop := lit "1"; uart_flow := lit "None";
     uart_connect_btn := {| isChecked := false; text := lit "Connect" |};
     log := []; input := []; trace := [] |}.

Definition _setup_uart (comports : option (list ListPortInfo))
    (s : CommConsole) : CommConsole :=
  let s1 := set_serial None s in
  let s2 := set_poll false s1 in
  let s3 := set_port_logs ∅ s2 in
  let s4 := set_current_port [] s3 in
  let s5 := refresh_ports comports s4 in
  set_soc_port_id (lit "VID:PID=067B:23A3") s5.

Definition __init__ (comports : option (list ListPortInfo)) : CommConsole :=
  _setup_uart comports _build_ui.

(** ** Connecting and disconnecting *)

Definition setText (t : pystr) (s : CommConsole) : CommConsole :=
  set_connect_btn {| isChecked := isChecked (uart_connect_btn s); text := t |} s.

(** The block the source has twice, in the toggle slot and in the error
    path of [_poll_uart]:
    [try: if self._serial is not None: self._serial.close(); self._serial = None]
    [except Exception: pass].  [cl] is what [close()] raises, if anything. *)
Definition close_serial (cl : option PyExn) (s : CommConsole) : CommConsole :=
  match _serial s with
  | None => s
  | Some h =>
      match cl with
      | None => set_serial None (emit (Close h false) s)
      | Some _ => emit (Close h true) s
      end
  end.

(** [_on_uart_connect_toggle(False)]. *)
Definition toggle_off (cl : option PyExn) (s : CommConsole) : CommConsole :=
  let s1 := set_poll false s in
  let s2 := close_serial cl s1 in
  setText (lit "Connect") s2.

(** [uart_connect_btn.setChecked(False)]: [toggled] fires only when the
    state of the button changes. *)
Definition setChecked_False (cl : option PyExn) (s : CommConsole) : CommConsole :=
  if isChecked (uart_connect_btn s)
  then toggle_off cl
         (set_connect_btn
            {| isChecked := false; text := text (uart_connect_btn s) |} s)
  else s.

Definition parity_map (t : pystr) : Parity :=
  if str_eqb t (lit "None") then PARITY_NONE
  else if str_eqb t (lit "Even") then PARITY_EVEN
  else if str_eqb t (lit "Odd") then PARITY_ODD
  else PARITY_NONE.

Definition stop_map (t : pystr) : StopBits :=
  if str_eqb t (lit "1") then STOPBITS_ONE
  else if str_eqb t (lit "1.5") then STOPBITS_ONE_POINT_FIVE
  else if str_eqb t (lit "2") then STOPBITS_TWO
  else STOPBITS_ONE.

(** The text of the "Open Port Failed" box. *)
Definition open_failed_text (p : pystr) (e : PyExn) : pystr :=
  let msg := exn_str e in
  if match exn_class e with PermissionError => true | _ => false end
     || py_in (lit "access is denied") (lower msg)
     || py_in (lit "busy") (lower msg)
     || py_in (lit "resource busy") (lower msg)
  then lit "Port " ++ p ++
       lit " is busy or access is denied. Close other apps and try again." ++
       [10; 10] ++ lit "Details: " ++ exn_str e
  else if match exn_class e with FileNotFoundError => true | _ => false end
          || py_in (lit "no such file") (lower msg)
          || py_in (lit "cannot find the file") (lower msg)
  then lit "Port " ++ p ++
       lit " was not found. Check the device and try again." ++
       [10; 10] ++ lit "Details: " ++ exn_str e
  else msg.

Definition serial_missing_text : pystr :=
  lit "pyserial is not installed. Install it with:" ++ [10; 10] ++
  lit "  python -m pip install pyserial" ++ [10; 10] ++
  lit "Then restart the app.".

(** [_on_uart_connect_toggle(True)]. *)
Definition toggle_on (env : Env) (s : CommConsole) : CommConsole :=
  let p := currentText (uart_port_combo s) in
  let missing :=
    setChecked_False (env_close env)
      (message_box Critical (lit "Serial Module Missing") serial_missing_text s) in
  if negb (env_import env) then missing
  else
    match env_Serial env with
    | None =>
        let rx := uart_flow s in
        let h := {| port := p;
                    baudrate := uart_baud s;
                    bytesize := if str_eqb (uart_databits s) (lit "7")
                                then SEVENBITS else EIGHTBITS;
                    parity := parity_map (uart_parity s);
                    stopbits := stop_map (uart_stop s);
                    rtscts := str_eqb rx (lit "RTS/CTS");
                    xonxoff := str_eqb rx (lit "XON/XOFF") |} in
        let s1 := set_serial (Some h) (emit (Opened h) s) in
        let s2 := setText (lit "Disconnect") s1 in
        let s3 := set_poll true s2 in
        let s4 := set_current_port p s3 in
        let s5 := match _port_logs s4 !! p with
                  | Some _ => s4
                  | None => set_port_logs (<[p := []]> (_port_logs s4)) s4
                  end in
        let s6 := set_current_port p s5 in
        set_log (logs_get p s6) s6
    | Some e =>
        match exn_class e with
        | ImportError => missing
        | _ =>
            setChecked_False (env_close env)
              (message_box Critical (lit "Open Port Failed")
                 (open_failed_text p e) s)
        end
    end.

(** The slot of the button's [toggled] signal. *)
Definition _on_uart_connect_toggle (checked : bool) (env : Env)
    (s : CommConsole) : CommConsole :=
  if checked then toggle_on env s else toggle_off (env_close env) s.

(** [uart_connect_btn.setChecked(True)]. *)
Definition setChecked_True (env : Env) (s : CommConsole) : CommConsole :=
  if isChecked (uart_connect_btn s) then s
  else _on_uart_connect_toggle true env
         (set_connect_btn
            {| isChecked := true; text := text (uart_connect_btn s) |} s).

(** [_on_uart_clear()]. *)
Definition _on_uart_clear (s : CommConsole) : CommConsole :=
  let p := currentText (uart_port_combo s) in
  set_log [] (set_port_logs (<[p := []]> (_port_logs s)) s).

(** ** Programmatic helpers *)

(** The local function [_com_num] of [find_linux_port]. *)
Definition _com_num (name : pystr) : Z :=
  match re_search_COM (upper name) with
  | Some ds => py_int ds
  | None => 1000000
  end.

(** The candidates [find_linux_port] collects for a needle. *)
Definition candidates (needle : pystr) (l : list ListPortInfo) : list pystr :=
  device <$> filter (fun p => truthy needle && py_in needle (hwid p) = true) l.

(** [find_linux_port(soc_port_id)]; [comports] is [None] when the port
    lister cannot be imported or raises. *)
Definition find_linux_port (soc_port_id : option pystr)
    (comports : option (list ListPortInfo)) (s : CommConsole) : option pystr :=
  match comports with
  | None => None
  | Some l =>
      let needle :=
        strip (match soc_port_id with
               | Some ((_ :: _) as given) => given
               | _ => _soc_port_id s
               end) in
      match candidates needle l with
      | [] => None
      | cs => head (sort_by_key _com_num cs)
      end
  end.

Definition baud_items : list Z :=
  [9600; 19200; 38400; 57600; 115200; 230400; 460800; 921600].

(** [uart_baud.setCurrentText(str(int(baud)))]: selects the entry that
    spells [baud] when there is one. *)
Definition uart_baud_setCurrentText (baud : Z) (s : CommConsole) : CommConsole :=
  if existsb (Z.eqb baud) baud_items then set_baud baud s else s.

(** [connect_to_port(port, baud)]. *)
Definition connect_to_port (p : pystr) (baud : Z) (env : Env)
    (s : CommConsole) : CommConsole * bool :=
  let idx := findText p (uart_port_combo s) in
  let s1 := if idx <? 0 then uart_port_combo_addItem p s else s in
  let idx := if idx <? 0 then findText p (uart_port_combo s1) else idx in
  let s2 := uart_port_combo_setCurrentIndex (Z.max 0 idx) s1 in
  let s3 := uart_baud_setCurrentText baud s2 in
  let s4 := setChecked_True env s3 in
  (s4, match _serial s4 with Some _ => true | None => false end).

(** What [send_commands] sets up and its closure [_flush_next] keeps: the
    queue, the timer (its interval and whether it runs) and the callback. *)
Record SendTimer := {
  queue : list pystr;
  interval : Z;
  isActive : bool;
  on_complete : option nat
}.

(** [if on_complete: on_complete()]. *)
Definition call_on_complete (cb : option nat) (s : CommConsole) : CommConsole :=
  match cb with
  | Some c => emit (Completed c) s
  | None => s
  end.

(** The [try] block of [_flush_next] for the command just taken off the
    queue; whatever it raises is dropped. *)
Definition send_item (env : Env) (cmd : pystr) (s : CommConsole) : CommConsole :=
  match _serial s with
  | None => s
  | Some h =>
      match encode (cmd ++ [10]) with
      | None => s
      | Some data =>
          match env_write env with
          | Some _ => emit (Write h data true) s
          | None =>
              let s1 := emit (Write h data false) s in
              let p := currentText (uart_port_combo s1) in
              let s2 := set_port_logs
                          (<[p := logs_get p s1 ++ cmd ++ [10]]> (_port_logs s1))
                          s1 in
              set_log (log s2 ++ cmd ++ [10]) s2
          end
      end
  end.

(** [_flush_next()]. *)
Definition _flush_next (env : Env) (t : SendTimer) (s : CommConsole)
  : SendTimer * CommConsole :=
  match queue t with
  | [] =>
      ({| queue := []; interval := interval t; isActive := false;
          on_complete := on_complete t |},
       call_on_complete (on_complete t) s)
  | cmd :: rest =>
      ({| queue := rest; interval := interval t; isActive := isActive t;
          on_complete := on_complete t |},
       send_item env cmd s)
  end.

(** [send_commands(commands, spacing_ms, on_complete)]: the timer it
    leaves behind, if any, and the widget after the first command.  The
    interval is an integer of any size, in milliseconds. *)
Definition send_commands (commands : list pystr) (spacing_ms : Z)
    (cb : option nat) (env : Env) (s : CommConsole)
  : option SendTimer * CommConsole :=
  match commands with
  | [] => (None, call_on_complete cb s)
  | _ =>
      let t := {| queue := commands; interval := Z.max 50 spacing_ms;
                  isActive := true; on_complete := cb |} in
      let '(t1, s1) := _flush_next env t s in
      (Some t1, s1)
  end.

(** One [timeout] of the timer of [send_commands]: a stopped timer does
    not fire. *)
Definition timeout (env : Env) (ts : SendTimer * CommConsole)
  : SendTimer * CommConsole :=
  if isActive (fst ts) then _flush_next env (fst ts) (snd ts) else ts.

(** [_uart_disconnect_if_needed()]. *)
Definition _uart_disconnect_if_needed (env : Env) (s : CommConsole)
  : CommConsole :=
  if isChecked (uart_connect_btn s) then setChecked_False (env_close env) s
  else s.

(** [disconnect_serial()]. *)
Definition disconnect_serial (env : Env) (s : CommConsole) : CommConsole :=
  _uart_disconnect_if_needed env s.

(** ** Polling and sending *)

(** The [except] branch of [_poll_uart] for the exception [e]. *)
Definition poll_failed (e : PyExn) (env : Env) (s : CommConsole) : CommConsole :=
  let s1 := set_poll false s in
  let s2 := close_serial (env_close env) s1 in
  let s3 := message_box Warning (lit "Serial Disconnected")
              (lit "Serial port error: " ++ exn_str e ++ [10] ++
               lit "The connection has been closed.") s2 in
  setChecked_False (env_close' env) s3.

(** [_poll_uart()].  [decode(errors="replace")] has a result for every
    input, so the inner [except] is never entered. *)
Definition _poll_uart (env : Env) (s : CommConsole) : CommConsole :=
  match _serial s with
  | None => s
  | Some _ =>
      match env_in_waiting env with
      | inl e => poll_failed e env s
      | inr n =>
          if n =? 0 then s
          else
            match env_in_waiting' env with
            | inl e => poll_failed e env s
            | inr _ =>
                match env_read env with
                | inl e => poll_failed e env s
                | inr [] => s
                | inr data =>
                    let t := decode_replace data in
                    let p := currentText (uart_port_combo s) in
                    let s1 := set_port_logs
                                (<[p := logs_get p s ++ t]> (_port_logs s)) s in
                    set_log (log s1 ++ t) s1
                end
            end
      end
  end.

(** The message [_on_send] takes from the input box:
    [input.toPlainText().rstrip("\r\n").split("\n")[-1]]. *)
Definition input_message (s : CommConsole) : pystr :=
  List.last (split_lf (rstrip_by is_crlf (input s))) [].

(** [_on_send()]. *)
Definition _on_send (env : Env) (s : CommConsole) : CommConsole :=
  let msg := input_message s in
  if negb (truthy msg) then s
  else
    match _serial s with
    | None => s
    | Some h =>
        match encode (msg ++ [10]) with
        | None =>
            message_box Critical (lit "Serial Error")
              (exn_str (env_encode env)) s
        | Some data =>
            match env_write env with
            | Some e =>
                message_box Critical (lit "Serial Error") (exn_str e)
                  (emit (Write h data true) s)
            | None =>
                let s1 := emit (Write h data false) s in
                let p := currentText (uart_port_combo s1) in
                let s2 := set_port_logs
                            (<[p := logs_get p s1 ++ msg ++ [10]]> (_port_logs s1))
                            s1 in
                let s3 := set_log (log s2 ++ [10]) s2 in
                set_input [] s3
            end
        end
    end.

(** * What the specification says

    Definitions that follow the words of the specification, to be compared
    with the code above, and the concrete states the examples run on. *)




Definition two_adapters : list ListPortInfo :=
  [ {| device := lit "COM9"; hwid := lit "USB VID:PID=067B:23A3 SER=A" |};
    {| device := lit "COM10"; hwid := lit "USB VID:PID=067B:23A3 SER=B" |} ].

(** [data.decode()] with the default [errors="strict"]: the text when
    [data] is well-formed UTF-8, [None] where Python raises
    [UnicodeDecodeError].  A part of the data is decodable when this gives
    a text for it. *)
Fixpoint decode_strict (data : pybytes) : option pystr :=
  match data with
  | [] => Some []
  | b0 :: r0 =>
      let c0 := bz b0 in
      if c0 <? 0x80 then cons c0 <$> decode_strict r0
      else if c0 <? 0xC2 then None
      else if c0 <? 0xE0 then
        match r0 with
        | b1 :: r1 =>
            if is_continuation (bz b1)
            then cons (cp2 c0 (bz b1)) <$> decode_strict r1
            else None
        | [] => None
        end
      else if c0 <? 0xF0 then
        match r0 with
        | b1 :: b2 :: r2 =>
            if second_of_3 c0 (bz b1) && is_continuation (bz b2)
            then cons (cp3 c0 (bz b1) (bz b2)) <$> decode_strict r2
            else None
        | _ => None
        end
      else if c0 <? 0xF5 then
        match r0 with
        | b1 :: b2 :: b3 :: r3 =>
            if second_of_4 c0 (bz b1) && is_continuation (bz b2)
               && is_continuation (bz b3)
            then cons (cp4 c0 (bz b1) (bz b2) (bz b3)) <$> decode_strict r3
            else None
        | _ => None
        end
      else None
  end.

(** Data that is empty or starts with a byte that is not a continuation
    byte. *)
Definition starts_sequence (b : pybytes) : Prop :=
  match b with
  | [] => True
  | b0 :: _ => is_continuation (bz b0) = false
  end.

(** ** The operations of the specification on the widget *)

(** The manager is connected when it holds a serial object: the test of
    [_poll_uart], [_on_send], [_flush_next] and [connect_to_port]. *)
Definition connected (s : CommConsole) : Prop := _serial s <> None.
Definition disconnected (s : CommConsole) : Prop := _serial s = None.

(** The first lines of [connect_to_port]: the port is added to the combo
    if it is missing and then selected. *)
Definition select_port (p : pystr) (s : CommConsole) : CommConsole :=
  let idx := findText p (uart_port_combo s) in
  let s1 := if idx <? 0 then uart_port_combo_addItem p s else s in
  let idx := if idx <? 0 then findText p (uart_port_combo s1) else idx in
  uart_port_combo_setCurrentIndex (Z.max 0 idx) s1.

(** [set_active(key)]: the entry [key] is picked in the port combo. *)
Definition set_active (k : pystr) (s : CommConsole) : CommConsole :=
  uart_port_combo_setCurrentIndex (findText k (uart_port_combo s)) s.

(** The text one [poll()] appends: what [_poll_uart] decodes, nothing when
    it reads nothing. *)
Definition polled (env : Env) (s : CommConsole) : pystr :=
  match _serial s with
  | None => []
  | Some _ =>
      match env_in_waiting env with
      | inl _ => []
      | inr n =>
          if n =? 0 then []
          else
            match env_in_waiting' env with
            | inl _ => []
            | inr _ =>
                match env_read env with
                | inl _ => []
                | inr data => decode_replace data
                end
            end
      end
  end.

(** The port on display is the current port and the log shows its
    buffer. *)
Definition synced (s : CommConsole) : Prop :=
  currentText (uart_port_combo s) = _current_port s /\
  log s = logs_get (_current_port s) s.

(** The buffers, the log, the current port, the selection and the input
    box are the same in [s] and [s']. *)
Definition same_buffers (s s' : CommConsole) : Prop :=
  _port_logs s' = _port_logs s /\ log s' = log s /\
  _current_port s' = _current_port s /\
  uart_port_combo s' = uart_port_combo s /\ input s' = input s.

(** Interleavings of [set_active] and [poll]. *)
Inductive Op := SetActive (k : pystr) | Poll (env : Env).

Definition step (s : CommConsole) (o : Op) : CommConsole :=
  match o with
  | SetActive k => set_active k s
  | Poll env => _poll_uart env s
  end.

Definition run (ops : list Op) (s : CommConsole) : CommConsole :=
  fold_left step ops s.

Definition known_keys (ops : list Op) (s : CommConsole) : Prop :=
  forall k, SetActive k ∈ ops -> k ∈ items (uart_port_combo s).

(** The text a run of polls appends, one after the other. *)
Fixpoint received (envs : list Env) (s : CommConsole) : pystr :=
  match envs with
  | [] => []
  | e :: es => polled e s ++ received es (_poll_uart e s)
  end.

(** The environments of successive timeouts: [envs 0] for the next one. *)
Definition later (envs : nat -> Env) : nat -> Env := fun i => envs (S i).

(** [n] timeouts in a row of the timer of [send_commands]. *)
Fixpoint timeouts (envs : nat -> Env) (n : nat) (ts : SendTimer * CommConsole)
  : SendTimer * CommConsole :=
  match n with
  | O => ts
  | S n' => timeouts (later envs) n' (timeout (envs O) ts)
  end.

(** One send per command, in order. *)
Fixpoint send_items (envs : nat -> Env) (cmds : list pystr) (s : CommConsole)
  : CommConsole :=
  match cmds with
  | [] => s
  | c :: cs => send_items (later envs) cs (send_item (envs O) c s)
  end.

(** The writes that sending [cmds] on the serial object [h] makes: one for
    every command that can be encoded, marked when it raised. *)
Fixpoint writes (h : Serial) (envs : nat -> Env) (cmds : list pystr)
  : list Event :=
  match cmds with
  | [] => []
  | c :: cs =>
      match encode (c ++ [10]) with
      | Some data =>
          [Write h data (match env_write (envs O) with Some _ => true | None => false end)]
      | None => []
      end ++ writes h (later envs) cs
  end.

(** The first environment, then [envs]. *)
Definition first_then (env : Env) (envs : nat -> Env) : nat -> Env :=
  fun i => match i with O => env | S j => envs j end.

(** What the specification says of [open] on a connected manager: an
    error, with the connection and every buffer as they were. *)
Definition open_rejected (p : pystr) (baud : Z) (env : Env) (s : CommConsole)
  : Prop :=
  snd (connect_to_port p baud env s) = false /\
  _serial (fst (connect_to_port p baud env s)) = _serial s /\
  _port_logs (fst (connect_to_port p baud env s)) = _port_logs s.

(** ** Concrete runs *)

Definition an_error (msg : string) : PyExn :=
  {| exn_class := OtherException; exn_str := lit msg |}.

(** A transport that answers every call and has nothing to read. *)
Definition quiet : Env :=
  {| env_import := true; env_Serial := None;
     env_in_waiting := inr 0; env_in_waiting' := inr 0; env_read := inr [];
     env_encode := an_error "surrogates not allowed";
     env_write := None; env_close := None; env_close' := None |}.

(** ... that has [data] to read. *)
Definition incoming (data : pybytes) : Env :=
  {| env_import := true; env_Serial := None;
     env_in_waiting := inr (Z.of_nat (length data));
     env_in_waiting' := inr (Z.of_nat (length data)); env_read := inr data;
     env_encode := an_error "surrogates not allowed";
     env_write := None; env_close := None; env_close' := None |}.

(** ... whose device is gone: reading raises, and so does closing. *)
Definition unplugged : Env :=
  {| env_import := true; env_Serial := None;
     env_in_waiting := inl (an_error "device disconnected");
     env_in_waiting' := inr 0; env_read := inr [];
     env_encode := an_error "surrogates not allowed";
     env_write := None;
     env_close := Some (an_error "Bad file descriptor");
     env_close' := Some (an_error "Bad file descriptor") |}.

(** ... whose [close()] raises. *)
Definition stuck_close (data : pybytes) : Env :=
  {| env_import := true; env_Serial := None;
     env_in_waiting := inr (Z.of_nat (length data));
     env_in_waiting' := inr (Z.of_nat (length data)); env_read := inr data;
     env_encode := an_error "surrogates not allowed";
     env_write := None;
     env_close := Some (an_error "Bad file descriptor");
     env_close' := Some (an_error "Bad file descriptor") |}.

(** ... whose [write()] raises. *)
Definition write_fails : Env :=
  {| env_import := true; env_Serial := None;
     env_in_waiting := inr 0; env_in_waiting' := inr 0; env_read := inr [];
     env_encode := an_error "surrogates not allowed";
     env_write := Some (an_error "Write timeout");
     env_close := None; env_close' := None |}.

(** The widget as built with COM9 and COM10 listed, and after
    [connect_to_port("COM9")]. *)
Definition fresh : CommConsole := __init__ (Some two_adapters).

(** The serial object that connection holds. *)
Definition serial_COM9 : Serial :=
  {| port := lit "COM9"; baudrate := 115200; bytesize := EIGHTBITS;
     parity := PARITY_NONE; stopbits := STOPBITS_ONE;
     rtscts := false; xonxoff := false |}.

Definition on_COM9 : CommConsole :=
  fst (connect_to_port (lit "COM9") 115200 quiet fresh).

(** ... and after the user typed AT and pressed Enter. *)
Definition sent_AT : CommConsole :=
  _on_send quiet (set_input (lit "AT") on_COM9).

Definition OK_CRLF : pybytes := [x4f; x4b; x0d; x0a].
Definition OK_LF : pybytes := [x4f; x4b; x0a].

(** ** Tactics *)

(** Case analysis along the branches of the decoders. *)
Ltac codec_cases :=
  repeat match goal with
  | H : None = Some _ |- _ => discriminate H
  | H : context [if ?c then _ else _] |- _ => destruct c eqn:?
  | H : context [match ?l with [] => _ | _ :: _ => _ end] |- _ => destruct l
  | H : _ <$> ?o = Some _ |- _ =>
      destruct o eqn:?; simpl in H; [injection H as <- | discriminate H]
  | H : _ && _ = true |- _ => apply andb_true_iff in H as [? ?]
  end.

(** * More of the widget *)

(** A code point a [str] can hold and [encode()] accepts: a Unicode scalar
    value. *)
Definition scalar (c : Z) : bool :=
  (0 <=? c) && (c <? 0x110000) && negb ((0xD800 <=? c) && (c <=? 0xDFFF)).

Definition set_databits (v : pystr) (s : CommConsole) : CommConsole :=
  {| _serial := _serial s; _poll := _poll s; _port_logs := _port_logs s;
     _current_port := _current_port s; _soc_port_id := _soc_port_id s;
     uart_port_combo := uart_port_combo s; uart_baud := uart_baud s;
     uart_databits := v; uart_parity := uart_parity s;
     uart_stop := uart_stop s; uart_flow := uart_flow s;
     uart_connect_btn := uart_connect_btn s; log := log s; input := input s;
     trace := trace s |}.

Definition set_parity (v : pystr) (s : CommConsole) : CommConsole :=
  {| _serial := _serial s; _poll := _poll s; _port_logs := _port_logs s;
     _current_port := _current_port s; _soc_port_id := _soc_port_id s;
     uart_port_combo := uart_port_combo s; uart_baud := uart_baud s;
     uart_databits := uart_databits s; uart_parity := v;
     uart_stop := uart_stop s; uart_flow := uart_flow s;
     uart_connect_btn := uart_connect_btn s; log := log s; input := input s;
     trace := trace s |}.

Definition set_stop (v : pystr) (s : CommConsole) : CommConsole :=
  {| _serial := _serial s; _poll := _poll s; _port_logs := _port_logs s;
     _current_port := _current_port s; _soc_port_id := _soc_port_id s;
     uart_port_combo := uart_port_combo s; uart_baud := uart_baud s;
     uart_databits := uart_databits s; uart_parity := uart_parity s;
     uart_stop := v; uart_flow := uart_flow s;
     uart_connect_btn := uart_connect_btn s; log := log s; input := input s;
     trace := trace s |}.

Definition set_flow (v : pystr) (s : CommConsole) : CommConsole :=
  {| _serial := _serial s; _poll := _poll s; _port_logs := _port_logs s;
     _current_port := _current_port s; _soc_port_id := _soc_port_id s;
     uart_port_combo := uart_port_combo s; uart_baud := uart_baud s;
     uart_databits := uart_databits s; uart_parity := uart_parity s;
     uart_stop := uart_stop s; uart_flow := v;
     uart_connect_btn := uart_connect_btn s; log := log s; input := input s;
     trace := trace s |}.

(** [_reset_uart_controls(clear_ports)].  Each of the five texts set is an
    entry of its combo, so [setCurrentText] selects it. *)
Definition _reset_uart_controls (clear_ports : bool) (s : CommConsole)
  : CommConsole :=
  let s1 := if clear_ports then uart_port_combo_clear s else s in
  let s2 := uart_baud_setCurrentText 115200 s1 in
  let s3 := set_databits (lit "8") s2 in
  let s4 := set_parity (lit "None") s3 in
  let s5 := set_stop (lit "1") s4 in
  set_flow (lit "None") s5.

(** [_on_proto_changed()], with [idx] the current index of the protocol
    combo (0 for UART); the index the protocol stack is set to comes
    first in the result. *)
Definition _on_proto_changed (idx : Z) (env : Env)
    (comports : option (list ListPortInfo)) (s : CommConsole)
  : Z * CommConsole :=
  let s1 := set_log [] s in
  let s2 := set_input [] s1 in
  (idx,
   if negb (idx =? 0) then
     _reset_uart_controls false (_uart_disconnect_if_needed env s2)
   else
     let s3 := _reset_uart_controls true s2 in
     let s4 := refresh_ports comports s3 in
     _on_port_changed (currentText (uart_port_combo s4)) s4).

(** The ports [refresh_ports] lists. *)
Definition listed (comports : option (list ListPortInfo)) : list pystr :=
  match comports with
  | Some (p :: l) => device <$> (p :: l)
  | _ => [lit "COM1"]
  end.

(** The default settings of the UART controls. *)
Definition default_controls (s : CommConsole) : Prop :=
  uart_baud s = 115200 /\ uart_databits s = lit "8" /\
  uart_parity s = lit "None" /\ uart_stop s = lit "1" /\
  uart_flow s = lit "None".

(** The serial object the toggle slot opens on the widget [s]. *)
Definition serial_of (s : CommConsole) : Serial :=
  {| port := currentText (uart_port_combo s);
     baudrate := uart_baud s;
     bytesize := if str_eqb (uart_databits s) (lit "7")
                 then SEVENBITS else EIGHTBITS;
     parity := parity_map (uart_parity s);
     stopbits := stop_map (uart_stop s);
     rtscts := str_eqb (uart_flow s) (lit "RTS/CTS");
     xonxoff := str_eqb (uart_flow s) (lit "XON/XOFF") |}.

(** A transport on which [serial.Serial(...)] raises [e]. *)
Definition open_fails (e : PyExn) : Env :=
  {| env_import := true; env_Serial := Some e;
     env_in_waiting := inr 0; env_in_waiting' := inr 0; env_read := inr [];
     env_encode := an_error "surrogates not allowed";
     env_write := None; env_close := None; env_close' := None |}.

(** The settings of the UART controls are the same in [s] and [s']. *)
Definition same_controls (s s' : CommConsole) : Prop :=
  uart_baud s' = uart_baud s /\ uart_databits s' = uart_databits s /\
  uart_parity s' = uart_parity s /\ uart_stop s' = uart_stop s /\
  uart_flow s' = uart_flow s.

(** The baud rate [connect_to_port(port, baud)] connects at: [baud] when
    the baud combo lists it, else the rate that was selected. *)
Definition effective_baud (baud : Z) (s : CommConsole) : Z :=
  if existsb (Z.eqb baud) baud_items then baud else uart_baud s.

(** The transport raises [e] while [_poll_uart] asks for or reads data. *)
Definition read_error (env : Env) (e : PyExn) : Prop :=
  env_in_waiting env = inl e \/
  exists n, env_in_waiting env = inr n /\ n <> 0 /\
    (env_in_waiting' env = inl e \/
     exists n', env_in_waiting' env = inr n' /\ env_read env = inl e).

(** A transport on which reading raises [e] and [close()] returns. *)
Definition read_fails (e : PyExn) : Env :=
  {| env_import := true; env_Serial := None;
     env_in_waiting := inr 4; env_in_waiting' := inr 4; env_read := inl e;
     env_encode := an_error "surrogates not allowed";
     env_write := None; env_close := None; env_close' := None |}.

(** ** What the specification says of decoding

    Decoding with a placeholder, in the words of the specification: from
    left to right, the UTF-8 form of a character is decoded to that
    character, and bytes that cannot be decoded are replaced by the
    placeholder, after which decoding goes on. *)

(** The data starts with the UTF-8 form of a character. *)
Definition starts_char (data : pybytes) : Prop :=
  exists c enc rest, encode_char c = Some enc /\ data = enc ++ rest.

(** The bytes are the beginning of the UTF-8 form of some character. *)
Definition begins_char (bs : pybytes) : Prop :=
  exists c enc, encode_char c = Some enc /\ bs `prefix_of` enc.

(** The bytes [bad], with [rest] after them, cannot be decoded: no
    character starts there, and [bad] is all that could still have begun
    one, or a single byte when not even that byte begins one. *)
Definition undecodable (bad rest : pybytes) : Prop :=
  bad <> [] /\ ~ starts_char (bad ++ rest) /\
  (length bad = 1%nat \/ begins_char bad) /\
  (forall b rest', rest = b :: rest' -> ~ begins_char (bad ++ [b])).

Inductive replaced : pybytes -> pystr -> Prop :=
| replaced_nil : replaced [] []
| replaced_char (c : Z) (enc rest : pybytes) (t : pystr) :
    encode_char c = Some enc -> replaced rest t ->
    replaced (enc ++ rest) (c :: t)
| replaced_bad (bad rest : pybytes) (t : pystr) :
    undecodable bad rest -> replaced rest t ->
    replaced (bad ++ rest) (REPLACEMENT :: t).

(** The bytes [enc] are a well-formed sequence for the code point [c], in
    the tests of the decoder. *)
Definition well_formed (enc : pybytes) (c : Z) : Prop :=
  match enc with
  | [b0] => bz b0 < 0x80 /\ c = bz b0
  | [b0; b1] =>
      0xC2 <= bz b0 < 0xE0 /\ is_continuation (bz b1) = true /\
      c = cp2 (bz b0) (bz b1)
  | [b0; b1; b2] =>
      0xE0 <= bz b0 < 0xF0 /\ second_of_3 (bz b0) (bz b1) = true /\
      is_continuation (bz b2) = true /\ c = cp3 (bz b0) (bz b1) (bz b2)
  | [b0; b1; b2; b3] =>
      0xF0 <= bz b0 < 0xF5 /\ second_of_4 (bz b0) (bz b1) = true /\
      is_continuation (bz b2) = true /\ is_continuation (bz b3) = true /\
      c = cp4 (bz b0) (bz b1) (bz b2) (bz b3)
  | _ => False
  end.

(** ** More tactics *)

(** Settles the comparisons of the goal that [lia] can settle. *)
Ltac settle_tests :=
  repeat match goal with
  | |- context [?a <? ?b] =>
      first [ rewrite (proj2 (Z.ltb_lt a b)) by lia
            | rewrite (proj2 (Z.ltb_ge a b)) by lia ]
  | |- context [?a <=? ?b] =>
      first [ rewrite (proj2 (Z.leb_le a b)) by lia
            | rewrite (proj2 (Z.leb_gt a b)) by lia ]
  | |- context [?a =? ?b] =>
      first [ rewrite (proj2 (Z.eqb_eq a b)) by lia
            | rewrite (proj2 (Z.eqb_neq a b)) by lia ]
  end.

(** Turns the comparisons among the hypotheses into (in)equalities. *)
Ltac tests_to_props :=
  repeat match goal with
  | H : _ && _ = true |- _ => apply andb_true_iff in H as [? ?]
  | H : _ && _ = false |- _ => apply andb_false_iff in H as [H | H]
  | H : negb _ = true |- _ => apply negb_true_iff in H
  | H : negb _ = false |- _ => apply negb_false_iff in H
  | H : (if ?c then _ else _) = _ |- _ => destruct c eqn:?
  | H : (_ <? _) = true |- _ => apply Z.ltb_lt in H
  | H : (_ <? _) = false |- _ => apply Z.ltb_ge in H
  | H : (_ <=? _) = true |- _ => apply Z.leb_le in H
  | H : (_ <=? _) = false |- _ => apply Z.leb_gt in H
  | H : (_ =? _) = true |- _ => apply Z.eqb_eq in H
  | H : (_ =? _) = false |- _ => apply Z.eqb_neq in H
  end.

(** A letter other than the one the pattern wants: the match fails. *)
Ltac other_letter a :=
  destruct a as [|q|q]; try reflexivity;
  do 7 (destruct q as [q|q|]; try reflexivity); congruence.

(** * Properties *)

(** ** The codec on examples *)

Example decode_ok :
  decode_replace [x4f; x4b; x0d; x0a] = lit "OK" ++ [13; 10].
Proof. reflexivity. Qed.

Example decode_euro : decode_replace [xe2; x82; xac] = [0x20AC].
Proof. reflexivity. Qed.

Example decode_bad_byte :
  decode_replace [x41; xff; x42] = [0x41; REPLACEMENT; 0x42].
Proof. reflexivity. Qed.

Example decode_truncated :
  decode_replace [xe2; x82; x41] = [REPLACEMENT; 0x41].
Proof. reflexivity. Qed.

Example encode_AT : encode (lit "AT" ++ [10]) = Some [x41; x54; x0a].
Proof. reflexivity. Qed.

Example encode_surrogate : encode [0x41; 0xDC80] = None.
Proof. reflexivity. Qed.

(** ** Port discovery *)

Lemma startswith_spec (p s : pystr) :
  startswith p s = true <-> exists t, s = p ++ t.
Proof.
  revert s. induction p as [|x p IH]; intros s; simpl.
  - split; [intros _; exists s; reflexivity | reflexivity].
  - destruct s as [|y s].
    + split; [discriminate | intros [t Ht]; discriminate].
    + rewrite andb_true_iff, Z.eqb_eq, IH. split.
      * intros [-> [t ->]]. exists t. reflexivity.
      * intros [t Ht]. injection Ht as -> ->. split; [reflexivity | exists t; reflexivity].
Qed.

(** [py_in] is the substring test. *)
Lemma py_in_spec (needle hay : pystr) :
  py_in needle hay = true <-> exists a b, hay = a ++ needle ++ b.
Proof.
  induction hay as [|c hay IH]; simpl.
  - rewrite orb_false_r, startswith_spec. split.
    + intros [t Ht]. exists [], t. exact Ht.
    + intros [a [b H]]. destruct a; [exists b; exact H | discriminate].
  - rewrite orb_true_iff, startswith_spec, IH. split.
    + intros [[t Ht] | [a [b H]]].
      * exists [], t. exact Ht.
      * exists (c :: a), b. simpl. rewrite H. reflexivity.
    + intros [a [b H]]. destruct a as [|c' a].
      * left. exists b. exact H.
      * right. injection H as _ H. exists a, b. exact H.
Qed.

Section SortFacts.
Context {A : Type} (key : A -> Z).

Lemma head_insert_by_key (x : A) (l : list A) :
  head (insert_by_key key x l) =
  Some match head l with
       | Some y => if key x <=? key y then x else y
       | None => x
       end.
Proof. destruct l as [|y l]; simpl; [reflexivity|]. destruct (key x <=? key y); reflexivity. Qed.

(** The head of the sorted list is the first entry with the least key. *)
Lemma head_sort_by_key (l : list A) (d : A) :
  head (sort_by_key key l) = Some d ->
  exists l1 l2, l = l1 ++ d :: l2 /\
    Forall (fun c => key d < key c) l1 /\
    Forall (fun c => key d <= key c) l2.
Proof.
  revert d. induction l as [|x l IH]; intros d; simpl; [discriminate|].
  rewrite head_insert_by_key.
  destruct (head (sort_by_key key l)) as [y|] eqn:Hy.
  - destruct (IH y eq_refl) as (l1 & l2 & -> & H1 & H2).
    destruct (key x <=? key y) eqn:Hxy; intros [= <-].
    + apply Z.leb_le in Hxy. exists [], (l1 ++ y :: l2). split; [reflexivity|].
      split; [constructor|]. apply Forall_app. split.
      * eapply Forall_impl; [exact H1|]. simpl. intros; lia.
      * constructor; [exact Hxy|]. eapply Forall_impl; [exact H2|]. simpl. intros; lia.
    + apply Z.leb_gt in Hxy. exists (x :: l1), l2. split; [reflexivity|].
      split; [constructor; [exact Hxy | exact H1] | exact H2].
  - intros [= <-]. destruct l as [|z l].
    + exists [], []. repeat split; constructor.
    + simpl in Hy. rewrite head_insert_by_key in Hy. discriminate.
Qed.

Lemma head_sort_by_key_None (l : list A) :
  head (sort_by_key key l) = None -> l = [].
Proof.
  destruct l as [|x l]; [reflexivity|]. simpl. rewrite head_insert_by_key. discriminate.
Qed.

End SortFacts.



(** The needle is stripped before the search: a needle that no hardware
    id contains can still select a port. *)
Example find_linux_port_strips_needle :
  py_in (lit "067B:23A3 ") (lit "USB VID:PID=067B:23A3") = false /\
  find_linux_port (Some (lit "067B:23A3 "))
    (Some [ {| device := lit "COM3"; hwid := lit "USB VID:PID=067B:23A3" |} ])
    (__init__ None) = Some (lit "COM3").
Proof. split; vm_compute; reflexivity. Qed.



Example fresh_state :
  currentText (uart_port_combo fresh) = lit "COM9" /\
  _current_port fresh = lit "COM9" /\ _serial fresh = None /\
  _port_logs fresh = ∅ /\ trace fresh = [].
Proof. vm_compute. repeat split. Qed.

Example on_COM9_state :
  snd (connect_to_port (lit "COM9") 115200 quiet fresh) = true /\
  _serial on_COM9 = Some serial_COM9 /\ trace on_COM9 = [Opened serial_COM9] /\
  _poll on_COM9 = true /\ isChecked (uart_connect_btn on_COM9) = true /\
  _port_logs on_COM9 !! lit "COM9" = Some [] /\
  _current_port on_COM9 = lit "COM9".
Proof. vm_compute. repeat split. Qed.

(** The example of the specification: sending AT writes the bytes of
    "AT\n" and the buffer ends with them; polling "OK\r\n" appends it. *)
Example sent_AT_state :
  _serial sent_AT = Some serial_COM9 /\
  trace sent_AT = [Opened serial_COM9; Write serial_COM9 [x41; x54; x0a] false] /\
  logs_get (lit "COM9") sent_AT = lit "AT" ++ [10] /\
  logs_get (lit "COM9") (_poll_uart (incoming OK_CRLF) sent_AT) =
    lit "AT" ++ [10] ++ lit "OK" ++ [13; 10].
Proof. vm_compute. repeat split. Qed.

(** ** The codec *)

(** A well-formed chunk at the head of the data is decoded to its text,
    whatever follows it. *)
Lemma decode_replace_strict (n : nat) :
  forall b t c, (length b <= n)%nat -> decode_strict b = Some t ->
    decode_replace (b ++ c) = t ++ decode_replace c.
Proof.
  induction n as [|n IH]; intros b t c Hlen H.
  - destruct b; simpl in *; [injection H as <-; reflexivity | lia].
  - destruct b as [|b0 b]; simpl in H; [injection H as <-; reflexivity|].
    simpl in Hlen. codec_cases; simpl in *;
      repeat match goal with
             | E : ?c = _ |- context [if ?c then _ else _] => rewrite E
             end; simpl;
      try (f_equal; apply IH; [lia | assumption]).
Qed.

(** A well-formed chunk does not start with a continuation byte. *)
Lemma decode_strict_head (b0 : byte) (r : pybytes) (t : pystr) :
  decode_strict (b0 :: r) = Some t -> is_continuation (bz b0) = false.
Proof.
  simpl. unfold is_continuation. intros H.
  destruct (bz b0 <? 128) eqn:E1; [apply andb_false_iff; left; lia|].
  destruct (bz b0 <? 194) eqn:E2; [discriminate|].
  apply andb_false_iff. right. lia.
Qed.

(** Decoding resumes at a byte that starts a sequence, whatever came
    before it. *)
Lemma decode_replace_app (n : nat) :
  forall a b, (length a <= n)%nat -> starts_sequence b ->
    decode_replace (a ++ b) = decode_replace a ++ decode_replace b.
Proof.
  induction n as [|n IH]; intros a b Hlen Hb.
  - destruct a; simpl in *; [reflexivity | lia].
  - destruct a as [|a0 a]; [reflexivity|]. simpl in Hlen.
    assert (Hrec : forall a', (length a' <= n)%nat ->
              decode_replace (a' ++ b) = decode_replace a' ++ decode_replace b)
      by (intros; apply IH; assumption).
    change ((a0 :: a) ++ b) with (a0 :: (a ++ b)).
    cbn [decode_replace].
    destruct (bz a0 <? 128); [simpl; f_equal; apply Hrec; lia|].
    destruct (bz a0 <? 194); [simpl; f_equal; apply Hrec; lia|].
    destruct (bz a0 <? 224).
    { destruct a as [|a1 a]; simpl.
      - destruct b as [|b0 b]; [reflexivity|]. simpl in Hb. rewrite Hb. reflexivity.
      - simpl in Hlen. destruct (is_continuation (bz a1)); simpl; f_equal.
        + apply Hrec. lia.
        + apply (Hrec (a1 :: a)). simpl. lia. }
    destruct (bz a0 <? 240).
    { destruct a as [|a1 a]; simpl.
      - destruct b as [|b0 b]; [reflexivity|]. simpl in Hb.
        unfold second_of_3. rewrite Hb. reflexivity.
      - simpl in Hlen. destruct (second_of_3 (bz a0) (bz a1)); simpl.
        + destruct a as [|a2 a]; simpl.
          * destruct b as [|b0 b]; [reflexivity|]. simpl in Hb. rewrite Hb. reflexivity.
          * simpl in Hlen. destruct (is_continuation (bz a2)); simpl; f_equal.
            -- apply Hrec. lia.
            -- apply (Hrec (a2 :: a)). simpl. lia.
        + f_equal. apply (Hrec (a1 :: a)). simpl. lia. }
    destruct (bz a0 <? 245).
    { destruct a as [|a1 a]; simpl.
      - destruct b as [|b0 b]; [reflexivity|]. simpl in Hb.
        unfold second_of_4. rewrite Hb. reflexivity.
      - simpl in Hlen. destruct (second_of_4 (bz a0) (bz a1)); simpl.
        + destruct a as [|a2 a]; simpl.
          * destruct b as [|b0 b]; [reflexivity|]. simpl in Hb. rewrite Hb. reflexivity.
          * simpl in Hlen. destruct (is_continuation (bz a2)); simpl.
            -- destruct a as [|a3 a]; simpl.
               ++ destruct b as [|b0 b]; [reflexivity|]. simpl in Hb. rewrite Hb. reflexivity.
               ++ simpl in Hlen. destruct (is_continuation (bz a3)); simpl; f_equal.
                  ** apply Hrec. lia.
                  ** apply (Hrec (a3 :: a)). simpl. lia.
            -- f_equal. apply (Hrec (a2 :: a)). simpl. lia.
        + f_equal. apply (Hrec (a1 :: a)). simpl. lia. }
    simpl. f_equal. apply Hrec. lia.
Qed.

(** Every decodable part of the data comes out as its text, between the
    decodings of what precedes and what follows it. *)
Lemma decode_replace_keeps_valid (a b c : pybytes) (t : pystr) :
  b <> [] -> decode_strict b = Some t ->
  decode_replace (a ++ b ++ c) = decode_replace a ++ t ++ decode_replace c.
Proof.
  intros Hb Ht. destruct b as [|b0 b]; [congruence|].
  rewrite (decode_replace_app (length a)); [|lia|].
  - f_equal. apply (decode_replace_strict (length (b0 :: b))); [lia | exact Ht].
  - simpl. eapply decode_strict_head. exact Ht.
Qed.

(** ** Sending *)

(** C9: with an empty message (an empty input box, or one whose last line
    is empty) [_on_send] returns at once in every connection state:
    nothing is written, not even the line feed, and the widget is as it
    was, every buffer included. *)
Theorem on_send_empty_is_noop (env : Env) (s : CommConsole) :
  input_message s = [] -> _on_send env s = s.
Proof. intros H. unfold _on_send. rewrite H. reflexivity. Qed.

Lemma on_send_empty_is_noop_witness :
  input_message (set_input [] on_COM9) = [] /\
  _on_send write_fails (set_input [] on_COM9) = set_input [] on_COM9.
Proof.
  split; [reflexivity|].
  apply (on_send_empty_is_noop write_fails (set_input [] on_COM9)).
  reflexivity.
Defined.

Example input_message_examples :
  input_message (set_input [] fresh) = [] /\
  input_message (set_input [10; 13; 10] fresh) = [] /\
  input_message (set_input (lit "ls" ++ [10] ++ lit "AT" ++ [13; 10]) fresh)
    = lit "AT".
Proof. vm_compute. repeat split. Qed.

Lemma send_item_disconnected (env : Env) (cmd : pystr) (s : CommConsole) :
  _serial s = None -> send_item env cmd s = s.
Proof. intros H. unfold send_item. rewrite H. reflexivity. Qed.

Lemma send_items_disconnected (cmds : list pystr) :
  forall envs s, _serial s = None -> send_items envs cmds s = s.
Proof.
  induction cmds as [|c cs IH]; intros envs s H; simpl; [reflexivity|].
  rewrite (send_item_disconnected _ _ _ H). apply IH. exact H.
Qed.

(** The timer sends what is left of the queue, one command per timeout. *)
Lemma timeouts_drain (q : list pystr) :
  forall envs i cb s,
    timeouts envs (length q)
      ({| queue := q; interval := i; isActive := true; on_complete := cb |}, s)
    = ({| queue := []; interval := i; isActive := true; on_complete := cb |},
       send_items envs q s).
Proof.
  induction q as [|c q IH]; intros envs i cb s; simpl; [reflexivity|].
  unfold timeout. simpl. apply IH.
Qed.

Lemma timeouts_add (n : nat) :
  forall m envs ts,
    timeouts envs (n + m) ts =
    timeouts (fun i => envs (n + i)%nat) m (timeouts envs n ts).
Proof.
  induction n as [|n IH]; intros m envs ts; simpl; [reflexivity|].
  rewrite IH. reflexivity.
Qed.

(** A stopped timer stays as it is. *)
Lemma timeouts_stopped (n : nat) :
  forall envs t s, isActive t = false -> timeouts envs n (t, s) = (t, s).
Proof.
  induction n as [|n IH]; intros envs t s H; simpl; [reflexivity|].
  unfold timeout. simpl. rewrite H. apply IH. exact H.
Qed.

(** After the queue is empty the next timeout stops the timer and calls
    back. *)
Lemma timeouts_complete (q : list pystr) (envs : nat -> Env) (i : Z)
    (cb : option nat) (s : CommConsole) :
  timeouts envs (S (length q))
    ({| queue := q; interval := i; isActive := true; on_complete := cb |}, s)
  = ({| queue := []; interval := i; isActive := false; on_complete := cb |},
     call_on_complete cb (send_items envs q s)).
Proof.
  replace (S (length q)) with (length q + 1)%nat by lia.
  rewrite timeouts_add, timeouts_drain. reflexivity.
Qed.

(** C8: while disconnected, [_on_send] does nothing at all, whatever the
    selected port and the text: nothing is written, no buffer changes, no
    box is shown.  The same holds for every send of the timer of
    [send_commands]: a sequence still in flight drains, its commands are
    taken off the queue without effect, and all that happens is the final
    callback. *)
Theorem send_disconnected_is_noop (env : Env) (s : CommConsole) :
  disconnected s ->
  _on_send env s = s /\
  (forall cmd, send_item env cmd s = s) /\
  (forall envs q i cb,
     timeouts envs (S (length q))
       ({| queue := q; interval := i; isActive := true; on_complete := cb |}, s)
     = ({| queue := []; interval := i; isActive := false; on_complete := cb |},
        call_on_complete cb s)).
Proof.
  unfold disconnected. intros H. repeat split.
  - unfold _on_send. rewrite H. destruct (negb (truthy (input_message s))); reflexivity.
  - intros cmd. apply send_item_disconnected. exact H.
  - intros envs q i cb. rewrite timeouts_complete.
    rewrite (send_items_disconnected q envs s H). reflexivity.
Qed.

Lemma send_disconnected_is_noop_witness :
  disconnected (set_input (lit "AT") fresh) /\
  _on_send quiet (set_input (lit "AT") fresh) = set_input (lit "AT") fresh.
Proof.
  assert (H : disconnected (set_input (lit "AT") fresh)) by reflexivity.
  split; [exact H|].
  exact (proj1 (send_disconnected_is_noop quiet (set_input (lit "AT") fresh) H)).
Defined.

(** The timer after [n] timeouts: while commands are left, one has been
    sent per timeout; the timeout after the last one stops the timer and
    calls back, and later ones do nothing. *)
Lemma timeouts_partial (cs : list pystr) :
  forall envs i cb s n, (n <= length cs)%nat ->
    timeouts envs n
      ({| queue := cs; interval := i; isActive := true; on_complete := cb |}, s)
    = ({| queue := drop n cs; interval := i; isActive := true;
          on_complete := cb |},
       send_items envs (take n cs) s).
Proof.
  induction cs as [|c cs IH]; intros envs i cb s n Hn; simpl in Hn.
  - replace n with O by lia. reflexivity.
  - destruct n as [|n]; [reflexivity|]. simpl. unfold timeout. simpl.
    apply IH. lia.
Qed.

Lemma timeouts_past_end (cs : list pystr) (envs : nat -> Env) (i : Z)
    (cb : option nat) (s : CommConsole) (n : nat) :
  (length cs < n)%nat ->
  timeouts envs n
    ({| queue := cs; interval := i; isActive := true; on_complete := cb |}, s)
  = ({| queue := []; interval := i; isActive := false; on_complete := cb |},
     call_on_complete cb (send_items envs cs s)).
Proof.
  intros Hn. replace n with (length cs + (1 + (n - length cs - 1)))%nat by lia.
  rewrite timeouts_add, timeouts_drain. simpl. unfold timeout, _flush_next. simpl.
  rewrite timeouts_stopped by reflexivity. reflexivity.
Qed.

Lemma send_item_trace (env : Env) (cmd : pystr) (s : CommConsole) (h : Serial) :
  _serial s = Some h ->
  _serial (send_item env cmd s) = Some h /\
  trace (send_item env cmd s) =
    trace s ++
    match encode (cmd ++ [10]) with
    | Some data =>
        [Write h data (match env_write env with Some _ => true | None => false end)]
    | None => []
    end.
Proof.
  intros H. unfold send_item. rewrite H.
  destruct (encode (cmd ++ [10])) as [data|].
  - destruct (env_write env); simpl; split; (exact H || reflexivity).
  - split; [exact H | rewrite app_nil_r; reflexivity].
Qed.

Lemma send_items_trace (cmds : list pystr) :
  forall envs s h, _serial s = Some h ->
    _serial (send_items envs cmds s) = Some h /\
    trace (send_items envs cmds s) = trace s ++ writes h envs cmds.
Proof.
  induction cmds as [|c cs IH]; intros envs s h H; simpl.
  - split; [exact H | rewrite app_nil_r; reflexivity].
  - destruct (send_item_trace (envs O) c s h H) as [H1 H2].
    destruct (IH (later envs) _ h H1) as [H3 H4].
    split; [exact H3|]. rewrite H4, H2, <- app_assoc. reflexivity.
Qed.

(** The writes of commands that can be encoded on a transport that takes
    them: one per command, in order, none marked as raised. *)
Lemma writes_delivered (h : Serial) (cmds : list pystr) :
  forall envs datas,
    Forall2 (fun cmd data => encode (cmd ++ [10]) = Some data) cmds datas ->
    (forall i, env_write (envs i) = None) ->
    writes h envs cmds = (fun data => Write h data false) <$> datas.
Proof.
  induction cmds as [|c cs IH]; intros envs datas Henc Hw.
  - apply Forall2_nil_inv_l in Henc as ->. reflexivity.
  - apply Forall2_cons_inv_l in Henc as (d & ds & Hd & Hds & ->).
    cbn [writes]. rewrite Hd, (Hw O). cbn [fmap list_fmap app]. f_equal.
    apply IH; [exact Hds|]. intros i. apply (Hw (S i)).
Qed.

(** C7: with no commands [send_commands] calls back at once, sets up no
    timer and sends nothing.  Otherwise the first command is sent
    immediately and the timer, whose interval is the spacing and never less
    than 50, sends one more command per timeout, in the order of the list;
    the timeout after the last command stops the timer and calls back, and
    no later timeout does anything.  On a connected widget whose transport
    takes the writes, each send is one [write()] of the command and its
    line feed: after [n] timeouts the serial object has been written the
    first [n + 1] commands and nothing else, in the order of the list, and
    from the timeout after the last command on, all of them followed by
    the one callback. *)
Theorem send_commands_in_order (commands : list pystr) (spacing_ms : Z)
    (cb : nat) (env : Env) (envs : nat -> Env) (s : CommConsole) :
  match commands with
  | [] =>
      send_commands commands spacing_ms (Some cb) env s
      = (None, emit (Completed cb) s)
  | c :: cs =>
      exists t1 s1,
        send_commands commands spacing_ms (Some cb) env s = (Some t1, s1) /\
        interval t1 = Z.max 50 spacing_ms /\ 50 <= interval t1 /\
        isActive t1 = true /\ queue t1 = cs /\ s1 = send_item env c s /\
        (forall n, (n <= length cs)%nat ->
           timeouts envs n (t1, s1)
           = ({| queue := drop n cs; interval := interval t1;
                 isActive := true; on_complete := Some cb |},
              send_items (first_then env envs) (take (S n) commands) s)) /\
        (forall n, (length cs < n)%nat ->
           timeouts envs n (t1, s1)
           = ({| queue := []; interval := interval t1;
                 isActive := false; on_complete := Some cb |},
              emit (Completed cb)
                (send_items (first_then env envs) commands s))) /\
        (forall h datas,
           _serial s = Some h ->
           Forall2 (fun cmd data => encode (cmd ++ [10]) = Some data)
             commands datas ->
           (forall i, env_write (first_then env envs i) = None) ->
           forall n,
             trace (snd (timeouts envs n (t1, s1)))
             = trace s ++ ((fun data => Write h data false) <$> take (S n) datas)
                 ++ (if (length cs <? n)%nat then [Completed cb] else []))
  end.
Proof.
  destruct commands as [|c cs]; [reflexivity|].
  eexists _, _. split; [reflexivity|]. cbn [interval isActive queue].
  split; [reflexivity|]. split; [lia|]. split; [reflexivity|].
  split; [reflexivity|]. split; [reflexivity|]. split; [|split].
  - intros n Hn. rewrite timeouts_partial by exact Hn. reflexivity.
  - intros n Hn. rewrite timeouts_past_end by exact Hn. reflexivity.
  - intros h datas Hs Henc Hw n.
    pose proof (Forall2_length _ _ _ Henc) as Hlen. simpl in Hlen.
    destruct (Nat.ltb_spec (length cs) n) as [Hn | Hn].
    + rewrite timeouts_past_end by exact Hn.
      cbn [snd on_complete call_on_complete emit trace].
      change (send_items envs cs (send_item env c s))
        with (send_items (first_then env envs) (c :: cs) s).
      rewrite (proj2 (send_items_trace (c :: cs) (first_then env envs) s h Hs)).
      rewrite (writes_delivered h (c :: cs) (first_then env envs) datas Henc Hw).
      rewrite take_ge by lia. rewrite <- app_assoc. reflexivity.
    + rewrite timeouts_partial by exact Hn. cbn [snd].
      change (send_items envs (take n cs) (send_item env c s))
        with (send_items (first_then env envs) (take (S n) (c :: cs)) s).
      rewrite (proj2 (send_items_trace _ (first_then env envs) s h Hs)).
      rewrite (writes_delivered h _ (first_then env envs) (take (S n) datas)
                 (Forall2_take _ _ _ (S n) Henc) Hw).
      rewrite app_nil_r. reflexivity.
Qed.

Lemma send_commands_in_order_witness :
  exists t1 s1,
    send_commands [lit "a"; lit "b"; lit "c"] 50 (Some 7%nat) quiet on_COM9
      = (Some t1, s1) /\
    interval t1 = 50 /\
    trace (snd (timeouts (fun _ => quiet) 1 (t1, s1)))
    = trace on_COM9 ++
      [Write serial_COM9 [x61; x0a] false; Write serial_COM9 [x62; x0a] false] /\
    trace (snd (timeouts (fun _ => quiet) 3 (t1, s1)))
    = trace on_COM9 ++
      [Write serial_COM9 [x61; x0a] false; Write serial_COM9 [x62; x0a] false;
       Write serial_COM9 [x63; x0a] false; Completed 7%nat].
Proof.
  destruct (send_commands_in_order [lit "a"; lit "b"; lit "c"] 50 7%nat
              quiet (fun _ => quiet) on_COM9)
    as (t1 & s1 & Hstart & Hi & _ & _ & _ & _ & _ & _ & Htrace).
  assert (Hs : _serial on_COM9 = Some serial_COM9) by (vm_compute; reflexivity).
  assert (Henc : Forall2 (fun cmd data => encode (cmd ++ [10]) = Some data)
                   [lit "a"; lit "b"; lit "c"]
                   [[x61; x0a]; [x62; x0a]; [x63; x0a]])
    by (repeat constructor).
  assert (Hw : forall i, env_write (first_then quiet (fun _ => quiet) i) = None)
    by (intros [|i]; reflexivity).
  exists t1, s1. split; [exact Hstart|]. split; [exact Hi|]. split.
  - exact (Htrace serial_COM9 _ Hs Henc Hw 1%nat).
  - exact (Htrace serial_COM9 _ Hs Henc Hw 3%nat).
Defined.

(** The example of the specification: three commands at a spacing of 50
    make three writes, "a", "b", "c" with their line feeds, in that order,
    and then one callback. *)
Example send_commands_abc :
  let start :=
    send_commands [lit "a"; lit "b"; lit "c"] 50 (Some 7%nat) quiet on_COM9 in
  let after n :=
    match fst start with
    | Some t1 => Some (timeouts (fun _ => quiet) n (t1, snd start))
    | None => None
    end in
  (interval <$> fst start) = Some 50 /\
  trace (snd start) = [Opened serial_COM9; Write serial_COM9 [x61; x0a] false] /\
  (trace <$> (snd <$> after 2%nat))
    = Some [Opened serial_COM9; Write serial_COM9 [x61; x0a] false;
            Write serial_COM9 [x62; x0a] false;
            Write serial_COM9 [x63; x0a] false] /\
  (trace <$> (snd <$> after 3%nat))
    = Some [Opened serial_COM9; Write serial_COM9 [x61; x0a] false;
            Write serial_COM9 [x62; x0a] false;
            Write serial_COM9 [x63; x0a] false; Completed 7] /\
  after 9%nat = after 3%nat.
Proof. vm_compute. repeat split. Qed.

(** A failed write changes nothing but the record that it was tried. *)
Lemma send_item_write_raises (env : Env) (cmd : pystr) (s : CommConsole)
    (h : Serial) (e : PyExn) (data : pybytes) :
  _serial s = Some h -> env_write env = Some e ->
  encode (cmd ++ [10]) = Some data ->
  send_item env cmd s = emit (Write h data true) s.
Proof. intros H1 H2 H3. unfold send_item. rewrite H1, H3, H2. reflexivity. Qed.

(** C10: while connected, whatever writes raise during [send_commands]:
    the command whose write raised is off the queue all the same, no
    message box is shown, the connection stays, every later command is
    still written on its own timeout, and the timeout after the last
    command stops the timer and calls back, once: later timeouts do
    nothing. *)
Theorem send_commands_swallows_write_errors (c : pystr) (cs : list pystr)
    (spacing_ms : Z) (cb : nat) (env : Env) (envs : nat -> Env)
    (s : CommConsole) (h : Serial) :
  _serial s = Some h ->
  let start := send_commands (c :: cs) spacing_ms (Some cb) env s in
  exists t1 s1, start = (Some t1, s1) /\
    queue t1 = cs /\
    (forall n, (n <= length cs)%nat ->
       queue (fst (timeouts envs n (t1, s1))) = drop n cs /\
       isActive (fst (timeouts envs n (t1, s1))) = true /\
       trace (snd (timeouts envs n (t1, s1)))
       = trace s ++ writes h (first_then env envs) (take (S n) (c :: cs))) /\
    (forall n, (length cs < n)%nat ->
       queue (fst (timeouts envs n (t1, s1))) = [] /\
       isActive (fst (timeouts envs n (t1, s1))) = false /\
       _serial (snd (timeouts envs n (t1, s1))) = Some h /\
       trace (snd (timeouts envs n (t1, s1)))
       = trace s ++ writes h (first_then env envs) (c :: cs) ++ [Completed cb]).
Proof.
  intros H start. unfold start, send_commands, _flush_next. cbn [queue interval isActive on_complete].
  eexists _, _. split; [reflexivity|]. cbn [queue]. split; [reflexivity|]. split.
  - intros n Hn. rewrite timeouts_partial by exact Hn. cbn [fst snd queue isActive].
    repeat split.
    apply (proj2 (send_items_trace (c :: take n cs) (first_then env envs) s h H)).
  - intros n Hn. rewrite timeouts_past_end by exact Hn.
    cbn [fst snd queue isActive call_on_complete].
    destruct (send_items_trace (c :: cs) (first_then env envs) s h H) as [H1 H2].
    repeat split; [exact H1|]. cbn [emit trace].
    change (send_items envs cs (send_item env c s))
      with (send_items (first_then env envs) (c :: cs) s).
    rewrite H2, <- app_assoc. reflexivity.
Qed.

Lemma send_commands_swallows_write_errors_witness :
  _serial on_COM9 = Some serial_COM9 /\
  exists t1 s1,
    send_commands [lit "a"; lit "b"] 50 (Some 7%nat) write_fails on_COM9
      = (Some t1, s1) /\
    trace (snd (timeouts (fun _ => write_fails) 2 (t1, s1)))
    = trace on_COM9 ++
      writes serial_COM9 (first_then write_fails (fun _ => write_fails))
        [lit "a"; lit "b"] ++ [Completed 7%nat].
Proof.
  assert (H : _serial on_COM9 = Some serial_COM9) by (vm_compute; reflexivity).
  split; [exact H|].
  destruct (send_commands_swallows_write_errors (lit "a") [lit "b"] 50 7%nat
              write_fails (fun _ => write_fails) on_COM9 serial_COM9 H)
    as (t1 & s1 & Hstart & _ & _ & Hend).
  exists t1, s1. split; [exact Hstart|].
  destruct (Hend 2%nat) as (_ & _ & _ & Htrace); [simpl; lia|].
  exact Htrace.
Defined.

Example send_commands_write_errors :
  writes serial_COM9 (first_then write_fails (fun _ => write_fails))
    [lit "a"; lit "b"]
  = [Write serial_COM9 [x61; x0a] true; Write serial_COM9 [x62; x0a] true].
Proof. vm_compute. reflexivity. Qed.

(** ** Polling *)

(** What [_poll_uart] does with the bytes it reads. *)
Lemma _poll_uart_data (env : Env) (s : CommConsole) (h : Serial) (n n' : Z)
    (data : pybytes) :
  _serial s = Some h -> env_in_waiting env = inr n -> n <> 0 ->
  env_in_waiting' env = inr n' -> env_read env = inr data -> data <> [] ->
  _poll_uart env s =
  set_log (log s ++ decode_replace data)
    (set_port_logs
       (<[currentText (uart_port_combo s) :=
            logs_get (currentText (uart_port_combo s)) s ++ decode_replace data]>
          (_port_logs s)) s).
Proof.
  intros Hs Hw Hn Hw' Hr Hd. unfold _poll_uart. rewrite Hs, Hw, Hw', Hr.
  destruct (n =? 0) eqn:E; [apply Z.eqb_eq in E; contradiction|].
  destruct data; [contradiction | reflexivity].
Qed.

Example decode_replace_garbage :
  decode_replace ([xff; xc3] ++ OK_CRLF ++ [x80])
  = [REPLACEMENT; REPLACEMENT] ++ lit "OK" ++ [13; 10; REPLACEMENT].
Proof. vm_compute. reflexivity. Qed.

(** ** The port combo *)

Lemma find_index_range (t : pystr) (l : list pystr) :
  find_index t l = -1 \/
  (0 <= find_index t l < Z.of_nat (length l) /\
   nth (Z.to_nat (find_index t l)) l [] = t).
Proof.
  induction l as [|x l IH]; simpl; [left; reflexivity|].
  unfold str_eqb. case_bool_decide as Hx.
  - right. split; [lia | exact Hx].
  - destruct IH as [-> | [Hr Hn]]; [left; reflexivity|].
    destruct (find_index t l <? 0) eqn:E; [lia|]. right. split; [lia|].
    replace (Z.to_nat (find_index t l + 1)) with (S (Z.to_nat (find_index t l))) by lia.
    exact Hn.
Qed.

Lemma find_index_elem_of (t : pystr) (l : list pystr) :
  t ∈ l -> 0 <= find_index t l.
Proof.
  induction l as [|x l IH]; intros H; [inversion H|]. simpl.
  unfold str_eqb. case_bool_decide as Hx; [lia|].
  apply elem_of_cons in H as [-> | H]; [congruence|].
  specialize (IH H). destruct (find_index t l <? 0) eqn:E; lia.
Qed.

Lemma find_index_snoc (t : pystr) (l : list pystr) :
  find_index t l < 0 -> find_index t (l ++ [t]) = Z.of_nat (length l).
Proof.
  induction l as [|x l IH]; simpl.
  - intros _. unfold str_eqb. rewrite bool_decide_eq_true_2 by reflexivity. reflexivity.
  - unfold str_eqb. case_bool_decide as Hx; [lia|].
    destruct (find_index t l <? 0) eqn:E.
    + intros _. rewrite IH by lia. destruct (Z.of_nat (length l) <? 0) eqn:E'; lia.
    + lia.
Qed.


Lemma nth_snoc (i : nat) (l : list pystr) (t : pystr) :
  nth i (l ++ [t]) [] = nth i l [] \/ nth i (l ++ [t]) [] = t.
Proof.
  destruct (Nat.lt_ge_cases i (length l)) as [H | H].
  - left. apply app_nth1. exact H.
  - rewrite app_nth2 by exact H. rewrite (nth_overflow l) by exact H.
    destruct (i - length l)%nat as [|[|j]]; [right | left | left]; reflexivity.
Qed.

Lemma nth_snoc_length (l : list pystr) (t : pystr) :
  nth (length l) (l ++ [t]) [] = t.
Proof. rewrite app_nth2 by lia. rewrite Nat.sub_diag. reflexivity. Qed.

(** What a change of the combo does to the widget: only the previous
    port's buffer, the current port and the log can change, and only when
    the current text changes. *)
Lemma port_combo_becomes_frame (c : ComboBox) (s : CommConsole) :
  let s' := port_combo_becomes c s in
  uart_port_combo s' = c /\
  _serial s' = _serial s /\ trace s' = trace s /\ _poll s' = _poll s /\
  uart_connect_btn s' = uart_connect_btn s /\
  (forall k, k <> _current_port s -> _port_logs s' !! k = _port_logs s !! k) /\
  (currentText c = currentText (uart_port_combo s) -> s' = set_port_combo c s) /\
  (currentText c <> currentText (uart_port_combo s) ->
   _current_port s' = currentText c /\
   log s' = logs_get (currentText c) s' /\
   _port_logs s' = if truthy (_current_port s)
                   then <[_current_port s := log s]> (_port_logs s)
                   else _port_logs s).
Proof.
  unfold port_combo_becomes, str_eqb. case_bool_decide as Hc.
  - simpl. repeat split; intros; try reflexivity; congruence.
  - unfold _on_port_changed. simpl.
    destruct (truthy (_current_port s)); simpl; repeat split; intros;
      try reflexivity; try congruence.
    apply lookup_insert_ne. congruence.
Qed.

Lemma select_port_frame (p : pystr) (s : CommConsole) :
  let s' := select_port p s in
  currentText (uart_port_combo s') = p /\
  _serial s' = _serial s /\ trace s' = trace s /\ _poll s' = _poll s /\
  uart_connect_btn s' = uart_connect_btn s /\
  (forall k, k <> _current_port s -> _port_logs s' !! k = _port_logs s !! k).
Proof.
  unfold select_port, findText.
  destruct (find_index_range p (items (uart_port_combo s))) as [Hidx | [Hr Hn]].
  - (* the port is not listed yet *)
    rewrite Hidx. change (-1 <? 0) with true. cbv iota.
    unfold uart_port_combo_addItem, uart_port_combo_addItems.
    set (c1 := {| items := items (uart_port_combo s) ++ [p]; currentIndex := _ |}).
    destruct (port_combo_becomes_frame c1 s)
      as (Hc1 & Hs1 & Ht1 & Hp1 & Hb1 & Hl1 & Hsame1 & Hfire1).
    set (s1 := port_combo_becomes c1 s) in *.
    unfold uart_port_combo_setCurrentIndex. rewrite Hc1.
    change (items c1) with (items (uart_port_combo s) ++ [p]).
    rewrite find_index_snoc by lia.
    rewrite Z.max_r by lia. rewrite length_app. simpl length.
    replace ((0 <=? Z.of_nat (length (items (uart_port_combo s)))) &&
             (Z.of_nat (length (items (uart_port_combo s))) <?
              Z.of_nat (length (items (uart_port_combo s)) + 1)))
      with true
      by (symmetry; apply andb_true_iff; split;
          [apply Z.leb_le | apply Z.ltb_lt]; lia).
    set (c2 := {| items := _; currentIndex := _ |}).
    assert (Hc2 : currentText c2 = p).
    { unfold currentText, c2. simpl.
      destruct (Z.of_nat (length (items (uart_port_combo s))) <? 0) eqn:E;
        [apply Z.ltb_lt in E; lia|].
      rewrite Nat2Z.id. apply nth_snoc_length. }
    destruct (port_combo_becomes_frame c2 s1)
      as (Hc2' & Hs2 & Ht2 & Hp2 & Hb2 & Hl2 & Hsame2 & Hfire2).
    cbv zeta in *. rewrite Hc2'.
    split; [exact Hc2|]. split; [congruence|]. split; [congruence|].
    split; [congruence|]. split; [congruence|].
    destruct (decide (currentText c1 = currentText (uart_port_combo s))) as [E1 | E1].
    + intros k Hk. specialize (Hsame1 E1). rewrite Hl2.
      * fold s1 in Hsame1. rewrite Hsame1. reflexivity.
      * fold s1 in Hsame1. rewrite Hsame1. exact Hk.
    + (* the first change fired: the text is already p *)
      assert (E2 : currentText c1 = p).
      { revert E1. unfold currentText, c1. simpl.
        destruct (items (uart_port_combo s)) as [|x l] eqn:El.
        - intros _. reflexivity.
        - destruct (currentIndex (uart_port_combo s) <? 0); [congruence|].
          destruct (nth_snoc (Z.to_nat (currentIndex (uart_port_combo s))) (x :: l) p)
            as [H | H]; [intros E; contradiction E | intros _; exact H]. }
      intros k Hk. rewrite Hsame2 by (rewrite Hc1; congruence).
      simpl. apply Hl1. exact Hk.
  - (* the port is listed *)
    destruct (find_index p (items (uart_port_combo s)) <? 0) eqn:E;
      [apply Z.ltb_lt in E; lia|].
    rewrite Z.max_r by lia. unfold uart_port_combo_setCurrentIndex.
    replace ((0 <=? find_index p (items (uart_port_combo s))) &&
             (find_index p (items (uart_port_combo s)) <?
              Z.of_nat (length (items (uart_port_combo s)))))
      with true
      by (symmetry; apply andb_true_iff; split;
          [apply Z.leb_le | apply Z.ltb_lt]; lia).
    set (c2 := {| items := _; currentIndex := _ |}).
    assert (Hc2 : currentText c2 = p).
    { unfold currentText, c2. simpl. rewrite E. exact Hn. }
    destruct (port_combo_becomes_frame c2 s)
      as (Hc2' & Hs2 & Ht2 & Hp2 & Hb2 & Hl2 & _).
    cbv zeta in *. rewrite Hc2'. repeat split; assumption.
Qed.

(** ** Connecting *)

Lemma connect_to_port_unfold (p : pystr) (baud : Z) (env : Env)
    (s : CommConsole) :
  connect_to_port p baud env s =
  (setChecked_True env (uart_baud_setCurrentText baud (select_port p s)),
   match _serial (setChecked_True env
                    (uart_baud_setCurrentText baud (select_port p s))) with
   | Some _ => true
   | None => false
   end).
Proof. reflexivity. Qed.

(** C1, where the code fails: connected to COM9,
    [connect_to_port("COM10")] returns [True], its sign of success,
    although COM10 is never opened: the widget still holds the serial
    object of COM9, and nothing was opened or shown.  The selection and the
    current port move to COM10 all the same, so what the device on COM9
    sends next lands in the buffer of COM10; and with a line sent before,
    the buffer of COM9 is overwritten with the text of the log, which does
    not have that line. *)
Lemma connect_to_port_while_connected_reports_success :
  let r := connect_to_port (lit "COM10") 115200 quiet on_COM9 in
  let r' := connect_to_port (lit "COM10") 115200 quiet sent_AT in
  _serial on_COM9 = Some serial_COM9 /\
  isChecked (uart_connect_btn on_COM9) = true /\
  snd r = true /\
  _serial (fst r) = Some serial_COM9 /\
  trace (fst r) = [Opened serial_COM9] /\
  currentText (uart_port_combo (fst r)) = lit "COM10" /\
  _current_port (fst r) = lit "COM10" /\
  logs_get (lit "COM10") (_poll_uart (incoming OK_LF) (fst r)) = lit "OK" ++ [10] /\
  logs_get (lit "COM9") (_poll_uart (incoming OK_LF) (fst r)) = [] /\
  logs_get (lit "COM9") sent_AT = lit "AT" ++ [10] /\
  snd r' = true /\ logs_get (lit "COM9") (fst r') = [10] /\
  ~ open_rejected (lit "COM10") 115200 quiet on_COM9.
Proof.
  assert (H : snd (connect_to_port (lit "COM10") 115200 quiet on_COM9) = true)
    by (vm_compute; reflexivity).
  cbv zeta. repeat split; try (vm_compute; reflexivity).
  intros [Hrej _]. rewrite H in Hrej. discriminate.
Qed.

(** In general, on a widget that holds a serial object and whose connect
    button is checked: [connect_to_port] opens nothing, shows nothing and
    keeps the serial object, with the port it is bound to, the poll timer
    and the button; it returns [True]; the port combo ends on the port
    asked for, and no buffer changes except, possibly, the one of the port
    that was current. *)
Theorem connect_to_port_while_connected (p : pystr) (baud : Z) (env : Env)
    (s : CommConsole) (h : Serial) :
  _serial s = Some h -> isChecked (uart_connect_btn s) = true ->
  let s' := fst (connect_to_port p baud env s) in
  snd (connect_to_port p baud env s) = true /\
  _serial s' = Some h /\ trace s' = trace s /\ _poll s' = _poll s /\
  uart_connect_btn s' = uart_connect_btn s /\
  currentText (uart_port_combo s') = p /\
  (forall k, k <> _current_port s -> _port_logs s' !! k = _port_logs s !! k).
Proof.
  intros Hs Hb. rewrite connect_to_port_unfold. cbn [fst snd].
  destruct (select_port_frame p s) as (Hc & Hs2 & Ht2 & Hp2 & Hb2 & Hl2).
  set (s2 := select_port p s) in *.
  assert (Hbaud : forall s3, s3 = uart_baud_setCurrentText baud s2 ->
            uart_port_combo s3 = uart_port_combo s2 /\ _serial s3 = _serial s2 /\
            trace s3 = trace s2 /\ _poll s3 = _poll s2 /\
            uart_connect_btn s3 = uart_connect_btn s2 /\
            _port_logs s3 = _port_logs s2).
  { intros s3 ->. unfold uart_baud_setCurrentText.
    destruct (existsb (Z.eqb baud) baud_items); repeat split. }
  destruct (Hbaud _ eq_refl) as (Hc3 & Hs3 & Ht3 & Hp3 & Hb3 & Hl3).
  set (s3 := uart_baud_setCurrentText baud s2) in *.
  unfold setChecked_True. rewrite Hb3, Hb2, Hb.
  rewrite Hs3, Hs2, Hs, Ht3, Ht2, Hp3, Hp2, Hb3, Hb2, Hc3, Hl3.
  repeat split; assumption.
Qed.

Lemma connect_to_port_while_connected_witness :
  _serial sent_AT = Some serial_COM9 /\
  isChecked (uart_connect_btn sent_AT) = true /\
  snd (connect_to_port (lit "COM10") 115200 quiet sent_AT) = true /\
  _serial (fst (connect_to_port (lit "COM10") 115200 quiet sent_AT))
    = Some serial_COM9.
Proof.
  assert (H1 : _serial sent_AT = Some serial_COM9) by (vm_compute; reflexivity).
  assert (H2 : isChecked (uart_connect_btn sent_AT) = true)
    by (vm_compute; reflexivity).
  split; [exact H1|]. split; [exact H2|].
  destruct (connect_to_port_while_connected (lit "COM10") 115200 quiet
              sent_AT serial_COM9 H1 H2) as (Hr & Hs & _).
  split; [exact Hr | exact Hs].
Defined.

(** ** Buffers per port *)

Lemma logs_get_insert (k k' : pystr) (v : pystr) (s : CommConsole)
    (m : gmap pystr pystr) :
  _port_logs s = <[k := v]> m ->
  logs_get k' s = if decide (k = k') then v else default [] (m !! k').
Proof.
  intros H. unfold logs_get. rewrite H, lookup_insert. destruct (decide (k = k')); reflexivity.
Qed.

(** [set_active] on a listed key: the log shows the buffer of the key, and
    the text of no buffer changes. *)
Lemma set_active_spec (k : pystr) (s : CommConsole) :
  synced s -> k ∈ items (uart_port_combo s) ->
  let s' := set_active k s in
  synced s' /\ _current_port s' = k /\ log s' = logs_get k s /\
  (forall k', logs_get k' s' = logs_get k' s) /\
  items (uart_port_combo s') = items (uart_port_combo s) /\
  _serial s' = _serial s /\ trace s' = trace s.
Proof.
  intros [Hsel Hlog] Hk. unfold set_active, findText, uart_port_combo_setCurrentIndex.
  pose proof (find_index_elem_of k _ Hk) as H0.
  destruct (find_index_range k (items (uart_port_combo s))) as [Hidx | [Hr Hn]]; [lia|].
  replace ((0 <=? find_index k (items (uart_port_combo s))) &&
           (find_index k (items (uart_port_combo s)) <?
            Z.of_nat (length (items (uart_port_combo s)))))
    with true
    by (symmetry; apply andb_true_iff; split;
        [apply Z.leb_le | apply Z.ltb_lt]; lia).
  set (c := {| items := _; currentIndex := _ |}).
  assert (Hc : currentText c = k).
  { unfold currentText, c. simpl.
    destruct (find_index k (items (uart_port_combo s)) <? 0) eqn:E;
      [apply Z.ltb_lt in E; lia | exact Hn]. }
  destruct (port_combo_becomes_frame c s)
    as (Hc' & Hs' & Ht' & _ & _ & _ & Hsame & Hfire).
  cbv zeta in *.
  destruct (decide (currentText c = currentText (uart_port_combo s))) as [E | E].
  - assert (Hcur : _current_port s = k) by congruence.
    rewrite (Hsame E), <- Hcur. unfold synced. simpl.
    repeat split; try assumption; congruence.
  - destruct (Hfire E) as (Hcur & Hlog' & Hlogs).
    set (s' := port_combo_becomes c s) in *.
    assert (Hget : forall k', logs_get k' s' = logs_get k' s).
    { intros k'. unfold logs_get at 1. rewrite Hlogs.
      destruct (truthy (_current_port s)); [|reflexivity].
      rewrite lookup_insert. destruct (decide (_current_port s = k')) as [<- | _].
      - simpl. exact Hlog.
      - reflexivity. }
    unfold synced. rewrite Hc', Hcur, Hc, Hlog', Hc.
    repeat split; try congruence; try apply Hget.
Qed.

(** Closing, unchecking the button and the error path of [_poll_uart]
    touch no buffer, log or selection. *)

Lemma close_serial_frame (cl : option PyExn) (s : CommConsole) :
  same_buffers s (close_serial cl s) /\
  _poll (close_serial cl s) = _poll s /\
  uart_connect_btn (close_serial cl s) = uart_connect_btn s.
Proof.
  unfold close_serial, same_buffers.
  destruct (_serial s); [destruct cl|]; simpl; repeat split.
Qed.

Lemma toggle_off_frame (cl : option PyExn) (s : CommConsole) :
  same_buffers s (toggle_off cl s) /\
  _poll (toggle_off cl s) = false /\
  isChecked (uart_connect_btn (toggle_off cl s)) = isChecked (uart_connect_btn s) /\
  text (uart_connect_btn (toggle_off cl s)) = lit "Connect".
Proof.
  unfold toggle_off, setText.
  destruct (close_serial_frame cl (set_poll false s)) as ((H1 & H2 & H3 & H4 & H5) & H6 & H7).
  unfold same_buffers. simpl. rewrite H1, H2, H3, H4, H5, H6, H7. repeat split.
Qed.

Lemma setChecked_False_frame (cl : option PyExn) (s : CommConsole) :
  same_buffers s (setChecked_False cl s) /\
  isChecked (uart_connect_btn (setChecked_False cl s)) = false /\
  (_poll s = false -> _poll (setChecked_False cl s) = false).
Proof.
  unfold setChecked_False.
  destruct (isChecked (uart_connect_btn s)) eqn:E.
  - match goal with |- context [toggle_off cl ?x] =>
      destruct (toggle_off_frame cl x) as ((H1 & H2 & H3 & H4 & H5) & H6 & H7 & _)
    end.
    unfold same_buffers. rewrite H1, H2, H3, H4, H5, H6, H7. repeat split.
  - unfold same_buffers. repeat split; first [reflexivity | assumption | tauto].
Qed.

Lemma poll_failed_frame (e : PyExn) (env : Env) (s : CommConsole) :
  let s' := poll_failed e env s in
  _port_logs s' = _port_logs s /\ log s' = log s /\
  _current_port s' = _current_port s /\
  uart_port_combo s' = uart_port_combo s /\ _poll s' = false /\
  isChecked (uart_connect_btn s') = false.
Proof.
  unfold poll_failed, message_box.
  match goal with |- context [setChecked_False ?cl ?x] =>
    destruct (setChecked_False_frame cl x) as ((H1 & H2 & H3 & H4 & _) & H6 & H7)
  end.
  destruct (close_serial_frame (env_close env) (set_poll false s))
    as ((G1 & G2 & G3 & G4 & _) & G6 & _).
  cbv zeta. rewrite H1, H2, H3, H4, H6. simpl.
  rewrite G1, G2, G3, G4. simpl. repeat split.
  apply H7. simpl. rewrite G6. reflexivity.
Qed.

(** One poll: only the buffer of the selected port can change, by the text
    the poll appends. *)
Lemma _poll_uart_spec (env : Env) (s : CommConsole) :
  let s' := _poll_uart env s in
  let p := currentText (uart_port_combo s) in
  uart_port_combo s' = uart_port_combo s /\
  _current_port s' = _current_port s /\
  logs_get p s' = logs_get p s ++ polled env s /\
  log s' = log s ++ polled env s /\
  (forall k, k <> p ->
     _port_logs s' !! k = _port_logs s !! k /\ logs_get k s' = logs_get k s).
Proof.
  unfold _poll_uart, polled.
  assert (Hid : uart_port_combo s = uart_port_combo s /\
    _current_port s = _current_port s /\
    logs_get (currentText (uart_port_combo s)) s
      = logs_get (currentText (uart_port_combo s)) s ++ [] /\
    log s = log s ++ [] /\
    (forall k, k <> currentText (uart_port_combo s) ->
       _port_logs s !! k = _port_logs s !! k /\ logs_get k s = logs_get k s)).
  { rewrite !app_nil_r. repeat split. }
  assert (Hfail : forall e, let s' := poll_failed e env s in
    uart_port_combo s' = uart_port_combo s /\
    _current_port s' = _current_port s /\
    logs_get (currentText (uart_port_combo s)) s'
      = logs_get (currentText (uart_port_combo s)) s ++ [] /\
    log s' = log s ++ [] /\
    (forall k, k <> currentText (uart_port_combo s) ->
       _port_logs s' !! k = _port_logs s !! k /\ logs_get k s' = logs_get k s)).
  { intros e. destruct (poll_failed_frame e env s) as (H1 & H2 & H3 & H4 & _).
    cbv zeta in *. unfold logs_get. rewrite H1, H2, H3, H4, !app_nil_r.
    repeat split. }
  destruct (_serial s) as [h|]; [|exact Hid].
  destruct (env_in_waiting env) as [e|n]; [apply Hfail|].
  destruct (n =? 0); [exact Hid|].
  destruct (env_in_waiting' env) as [e|n']; [apply Hfail|].
  destruct (env_read env) as [e|data]; [apply Hfail|].
  destruct data as [|b data]; [exact Hid|].
  cbv zeta. unfold logs_get. simpl. rewrite lookup_insert_eq. simpl.
  repeat split; intros; rewrite lookup_insert_ne by congruence; reflexivity.
Qed.

Lemma _poll_uart_synced (env : Env) (s : CommConsole) :
  synced s -> synced (_poll_uart env s).
Proof.
  intros [Hsel Hlog].
  destruct (_poll_uart_spec env s) as (Hc & Hcur & Hget & Hl & _).
  cbv zeta in *. unfold synced. rewrite Hc, Hcur, Hl, Hlog.
  split; [exact Hsel|]. rewrite <- Hsel. symmetry. exact Hget.
Qed.

(** The invariant along every interleaving of [set_active] and [poll]. *)
Lemma run_synced (ops : list Op) :
  forall s, synced s -> known_keys ops s ->
    synced (run ops s) /\
    items (uart_port_combo (run ops s)) = items (uart_port_combo s).
Proof.
  induction ops as [|o ops IH]; intros s Hs Hk; [split; [exact Hs | reflexivity]|].
  simpl. assert (Hstep : synced (step s o) /\
                 items (uart_port_combo (step s o)) = items (uart_port_combo s)).
  { destruct o as [k | env]; simpl.
    - destruct (set_active_spec k s Hs) as (H1 & _ & _ & _ & H2 & _).
      + apply Hk. left.
      + split; assumption.
    - split; [apply _poll_uart_synced; exact Hs|].
      destruct (_poll_uart_spec env s) as (Hc & _). cbv zeta in Hc. rewrite Hc. reflexivity. }
  destruct Hstep as [Hs' Hi].
  destruct (IH (step s o) Hs') as [H1 H2].
  - intros k Hin. rewrite Hi. apply Hk. right. exact Hin.
  - split; [exact H1 | congruence].
Qed.

(** A run of polls appends what it receives to the buffer of the current
    port and to nothing else. *)
Lemma polls_spec (envs : list Env) :
  forall s, synced s ->
    let s' := run (Poll <$> envs) s in
    synced s' /\ _current_port s' = _current_port s /\
    uart_port_combo s' = uart_port_combo s /\
    logs_get (_current_port s) s' = logs_get (_current_port s) s ++ received envs s /\
    (forall k, k <> _current_port s -> logs_get k s' = logs_get k s).
Proof.
  induction envs as [|e envs IH]; intros s Hs.
  - simpl. rewrite app_nil_r. repeat split; (exact (proj1 Hs) || exact (proj2 Hs) || idtac).
  - change (run (Poll <$> e :: envs) s) with (run (Poll <$> envs) (_poll_uart e s)).
    cbn [received].
    pose proof (_poll_uart_synced e s Hs) as Hs1.
    destruct (_poll_uart_spec e s) as (Hc & Hcur & Hget & _ & Hoth).
    destruct (IH _ Hs1) as (H1 & H2 & H3 & H4 & H5).
    cbv zeta in *. destruct Hs as [Hsel Hlog].
    rewrite Hsel in Hget, Hoth. rewrite Hcur in H2, H4, H5.
    split; [exact H1|]. split; [exact H2|].
    split; [rewrite H3; exact Hc|]. split.
    + rewrite H4, Hget, <- app_assoc. reflexivity.
    + intros k Hk. rewrite (H5 k Hk). apply Hoth. exact Hk.
Qed.

(** While the log shows the buffer of the current port: after any
    interleaving [ops] of [set_active] and [poll], a poll changes no buffer
    but the one of the current port, to which it appends what it received.
    In particular: make [k1] active, poll any number of times, make [k2]
    active and then [k1] again; the log then shows exactly the text
    accumulated for [k1], which is what [k1] had plus everything the polls
    received, and no other key's text changed meanwhile. *)
Theorem buffer_isolation (s : CommConsole) (ops : list Op) (k1 k2 : pystr)
    (envs : list Env) :
  synced s -> known_keys ops s ->
  k1 ∈ items (uart_port_combo s) -> k2 ∈ items (uart_port_combo s) ->
  k1 <> k2 ->
  let s0 := run ops s in
  (forall env k, k <> _current_port s0 ->
     _port_logs (_poll_uart env s0) !! k = _port_logs s0 !! k) /\
  (forall env,
     logs_get (_current_port s0) (_poll_uart env s0)
     = logs_get (_current_port s0) s0 ++ polled env s0) /\
  let s1 := set_active k1 s0 in
  let s2 := run (Poll <$> envs) s1 in
  let s4 := set_active k1 (set_active k2 s2) in
  logs_get k1 s2 = logs_get k1 s0 ++ received envs s1 /\
  (forall k, k <> k1 -> logs_get k s2 = logs_get k s0) /\
  log s4 = logs_get k1 s2 /\
  logs_get k1 s4 = logs_get k1 s2.
Proof.
  intros Hs Hops Hk1 Hk2 Hne s0.
  destruct (run_synced ops s Hs Hops) as [Hs0 Hi0]. fold s0 in Hs0, Hi0.
  split; [|split].
  - intros env k Hk. destruct (_poll_uart_spec env s0) as (_ & _ & _ & _ & Hoth).
    cbv zeta in Hoth. apply Hoth. rewrite (proj1 Hs0). exact Hk.
  - intros env. destruct (_poll_uart_spec env s0) as (_ & _ & Hget & _).
    cbv zeta in Hget. rewrite (proj1 Hs0) in Hget. exact Hget.
  - intros s1 s2 s4.
    destruct (set_active_spec k1 s0 Hs0) as (Hs1 & Hc1 & _ & Hg1 & Hi1 & _);
      [rewrite Hi0; exact Hk1|]. fold s1 in Hs1, Hc1, Hg1, Hi1.
    destruct (polls_spec envs s1 Hs1) as (Hs2 & Hc2 & Hcombo2 & Hg2 & Ho2).
    fold s2 in Hs2, Hc2, Hcombo2, Hg2, Ho2. rewrite Hc1 in Hg2, Ho2.
    destruct (set_active_spec k2 s2 Hs2) as (Hs3 & _ & _ & Hg3 & Hi3 & _);
      [rewrite Hcombo2, Hi1, Hi0; exact Hk2|].
    destruct (set_active_spec k1 (set_active k2 s2) Hs3) as (_ & _ & Hl4 & Hg4 & _);
      [rewrite Hi3, Hcombo2, Hi1, Hi0; exact Hk1|].
    fold s4 in Hl4, Hg4.
    split; [rewrite Hg2, Hg1; reflexivity|].
    split; [intros k Hk; rewrite (Ho2 k Hk); apply Hg1|].
    split; [rewrite Hl4; apply Hg3 | rewrite Hg4; apply Hg3].
Qed.

Lemma buffer_isolation_witness :
  synced on_COM9 /\
  log (set_active (lit "COM9") (set_active (lit "COM10")
        (run [Poll (incoming OK_CRLF)] (set_active (lit "COM9")
           (run [Poll (incoming OK_CRLF); SetActive (lit "COM10")] on_COM9)))))
  = logs_get (lit "COM9")
      (run [Poll (incoming OK_CRLF)] (set_active (lit "COM9")
         (run [Poll (incoming OK_CRLF); SetActive (lit "COM10")] on_COM9))).
Proof.
  assert (Hi : items (uart_port_combo on_COM9) = [lit "COM9"; lit "COM10"])
    by (vm_compute; reflexivity).
  assert (Hs : synced on_COM9) by (split; vm_compute; reflexivity).
  split; [exact Hs|].
  refine (proj1 (proj2 (proj2 (proj2 (proj2
    (buffer_isolation on_COM9 [Poll (incoming OK_CRLF); SetActive (lit "COM10")]
       (lit "COM9") (lit "COM10") [incoming OK_CRLF] Hs _ _ _ _)))))).
  - intros k Hk. rewrite Hi.
    apply elem_of_cons in Hk as [Hk | Hk]; [discriminate Hk|].
    apply elem_of_cons in Hk as [Hk | Hk]; [|inversion Hk].
    injection Hk as ->. right. left.
  - rewrite Hi. left.
  - rewrite Hi. right. left.
  - vm_compute. discriminate.
Defined.

Example buffer_isolation_run :
  let s2 := run [Poll (incoming OK_CRLF)] (set_active (lit "COM9")
              (run [Poll (incoming OK_CRLF); SetActive (lit "COM10")] on_COM9)) in
  logs_get (lit "COM9") s2 = lit "OK" ++ [13; 10] ++ lit "OK" ++ [13; 10] /\
  logs_get (lit "COM10") s2 = [] /\
  log (set_active (lit "COM9") (set_active (lit "COM10") s2))
  = lit "OK" ++ [13; 10] ++ lit "OK" ++ [13; 10].
Proof. vm_compute. repeat split. Qed.

(** C3, where the code fails: after a line was sent with [_on_send], the
    log no longer shows the buffer, for [_on_send] appends the line and a
    line feed to the buffer and only the line feed to the log.  With COM9
    active, AT sent and OK received, the buffer of COM9 is the text
    accumulated for it; making COM10 active stores the text of the log over
    it, and making COM9 active again gives back that text, without the
    line sent. *)
Lemma set_active_loses_sent_line :
  let s1 := run [SetActive (lit "COM9"); Poll (incoming OK_LF)] sent_AT in
  let s2 := run [SetActive (lit "COM10"); SetActive (lit "COM9")] s1 in
  lit "COM9" ∈ items (uart_port_combo sent_AT) /\
  lit "COM10" ∈ items (uart_port_combo sent_AT) /\
  logs_get (lit "COM9") sent_AT = lit "AT" ++ [10] /\
  log sent_AT = [10] /\
  logs_get (lit "COM9") s1 = lit "AT" ++ [10] ++ lit "OK" ++ [10] /\
  log s2 = [10] ++ lit "OK" ++ [10] /\
  logs_get (lit "COM9") s2 = [10] ++ lit "OK" ++ [10] /\
  logs_get (lit "COM9") s2 <> logs_get (lit "COM9") s1.
Proof.
  cbv zeta.
  assert (Hi : items (uart_port_combo sent_AT) = [lit "COM9"; lit "COM10"])
    by (vm_compute; reflexivity).
  rewrite Hi. split; [left|]. split; [right; left|].
  repeat split; try (vm_compute; reflexivity).
  vm_compute. discriminate.
Qed.

(** ** Disconnecting *)

Lemma close_serial_returns (s : CommConsole) :
  _serial (close_serial None s) = None.
Proof.
  unfold close_serial. destruct (_serial s) eqn:E; [reflexivity | exact E].
Qed.

Lemma toggle_off_returns (s : CommConsole) :
  _serial (toggle_off None s) = None.
Proof. unfold toggle_off, setText. cbn [_serial set_connect_btn]. apply close_serial_returns. Qed.

(** On a widget that is already disconnected the toggle slot changes
    nothing. *)
Lemma toggle_off_idle (cl : option PyExn) (s : CommConsole) :
  _serial s = None -> _poll s = false ->
  text (uart_connect_btn s) = lit "Connect" ->
  toggle_off cl s = s.
Proof.
  destruct s as [ser pl logs cur soc combo baud db par st fl [chk txt] lg inp tr].
  cbn. intros -> -> ->. reflexivity.
Qed.

(** When [close()] returns, the toggle slot leaves the widget
    disconnected, with the poll timer stopped; a poll then does nothing,
    and neither does the slot or [disconnect_serial] when run again. *)
Lemma toggle_off_disconnects (env : Env) (s : CommConsole) :
  env_close env = None ->
  let s' := _on_uart_connect_toggle false env s in
  disconnected s' /\ _poll s' = false /\ same_buffers s s' /\
  (forall env', _poll_uart env' s' = s') /\
  (forall env', _on_uart_connect_toggle false env' s' = s') /\
  (isChecked (uart_connect_btn s) = false ->
   forall env', disconnect_serial env' s' = s').
Proof.
  intros Hcl. unfold _on_uart_connect_toggle, disconnected. rewrite Hcl.
  destruct (toggle_off_frame None s) as (Hsame & Hp & Hb & Ht).
  pose proof (toggle_off_returns s) as Hser.
  cbv zeta. split; [exact Hser|]. split; [exact Hp|]. split; [exact Hsame|].
  split; [|split].
  - intros env'. unfold _poll_uart. rewrite Hser. reflexivity.
  - intros env'. apply toggle_off_idle; assumption.
  - intros Hun env'. unfold disconnect_serial, _uart_disconnect_if_needed.
    rewrite Hb, Hun. reflexivity.
Qed.

(** [disconnect_serial] on a widget whose button is checked, when
    [close()] returns. *)
Lemma disconnect_serial_disconnects (env : Env) (s : CommConsole) :
  env_close env = None -> isChecked (uart_connect_btn s) = true ->
  let s' := disconnect_serial env s in
  disconnected s' /\ _poll s' = false /\
  isChecked (uart_connect_btn s') = false /\
  (forall env', _poll_uart env' s' = s') /\
  (forall env', disconnect_serial env' s' = s').
Proof.
  intros Hcl Hb. unfold disconnect_serial, _uart_disconnect_if_needed.
  rewrite Hb. unfold setChecked_False. rewrite Hb, Hcl.
  set (s0 := set_connect_btn _ s).
  destruct (toggle_off_frame None s0) as (_ & Hp & Hc & _).
  pose proof (toggle_off_returns s0) as Hser.
  cbv zeta. unfold disconnected.
  split; [exact Hser|]. split; [exact Hp|]. split; [exact Hc|]. split.
  - intros env'. unfold _poll_uart. rewrite Hser. reflexivity.
  - intros env'. rewrite Hc. reflexivity.
Qed.

(** C4, where the code fails: [close()] raises while disconnecting.  The
    button and the timer are reset, but the widget keeps the serial
    object: it is not disconnected, and a poll after the close still reads
    and appends to the buffer. *)
Lemma close_error_keeps_connection :
  let s1 := disconnect_serial (stuck_close OK_CRLF) on_COM9 in
  _serial on_COM9 = Some serial_COM9 /\
  isChecked (uart_connect_btn s1) = false /\ _poll s1 = false /\
  _serial s1 = Some serial_COM9 /\ ~ disconnected s1 /\
  logs_get (lit "COM9") s1 = [] /\
  logs_get (lit "COM9") (_poll_uart (incoming OK_CRLF) s1) = lit "OK" ++ [13; 10] /\
  _poll_uart (incoming OK_CRLF) s1 <> s1.
Proof.
  cbv zeta.
  assert (H : _serial (disconnect_serial (stuck_close OK_CRLF) on_COM9)
              = Some serial_COM9) by (vm_compute; reflexivity).
  assert (H1 : logs_get (lit "COM9") (disconnect_serial (stuck_close OK_CRLF) on_COM9)
               = []) by (vm_compute; reflexivity).
  assert (H2 : logs_get (lit "COM9")
                 (_poll_uart (incoming OK_CRLF)
                    (disconnect_serial (stuck_close OK_CRLF) on_COM9))
               = lit "OK" ++ [13; 10]) by (vm_compute; reflexivity).
  split; [vm_compute; reflexivity|]. split; [vm_compute; reflexivity|].
  split; [vm_compute; reflexivity|]. split; [exact H|].
  split; [unfold disconnected; rewrite H; discriminate|].
  split; [exact H1|]. split; [exact H2|].
  intros E. rewrite E, H1 in H2. vm_compute in H2. discriminate.
Qed.

Lemma close_serial_idle (cl : option PyExn) (s : CommConsole) :
  _serial s = None -> close_serial cl s = s.
Proof. intros H. unfold close_serial. rewrite H. reflexivity. Qed.

Lemma close_serial_trace (cl : option PyExn) (s : CommConsole) :
  exists l, trace (close_serial cl s) = trace s ++ l.
Proof.
  unfold close_serial. destruct (_serial s); [destruct cl|]; cbn; eauto.
  exists []. rewrite app_nil_r. reflexivity.
Qed.

Lemma setChecked_False_trace (cl : option PyExn) (s : CommConsole) :
  exists l, trace (setChecked_False cl s) = trace s ++ l.
Proof.
  unfold setChecked_False. destruct (isChecked (uart_connect_btn s)).
  - unfold toggle_off, setText. cbn [trace set_connect_btn].
    destruct (close_serial_trace cl
                (set_poll false
                   (set_connect_btn
                      {| isChecked := false; text := text (uart_connect_btn s) |} s)))
      as [l Hl].
    exists l. rewrite Hl. reflexivity.
  - exists []. rewrite app_nil_r. reflexivity.
Qed.

Lemma setChecked_False_idle_serial (cl : option PyExn) (s : CommConsole) :
  _serial s = None -> _serial (setChecked_False cl s) = None.
Proof.
  intros H. unfold setChecked_False.
  destruct (isChecked (uart_connect_btn s)); [|exact H].
  unfold toggle_off, setText. cbn [_serial set_connect_btn].
  rewrite close_serial_idle; exact H.
Qed.

Lemma setChecked_False_returns (s : CommConsole) :
  isChecked (uart_connect_btn s) = true ->
  _serial (setChecked_False None s) = None.
Proof.
  intros H. unfold setChecked_False. rewrite H. apply toggle_off_returns.
Qed.

(** The error path of [_poll_uart] when one of its two [close()] calls
    returns: polling stops, the widget is disconnected, the button is
    unchecked, no buffer changes, and a warning with the text of the error
    is shown. *)
Lemma poll_failed_disconnects (e : PyExn) (env : Env) (s : CommConsole)
    (h : Serial) :
  _serial s = Some h ->
  env_close env = None \/
  (isChecked (uart_connect_btn s) = true /\ env_close' env = None) ->
  let s' := poll_failed e env s in
  disconnected s' /\ _poll s' = false /\
  isChecked (uart_connect_btn s') = false /\
  _port_logs s' = _port_logs s /\ log s' = log s /\
  MessageBox Warning (lit "Serial Disconnected")
    (lit "Serial port error: " ++ exn_str e ++ [10] ++
     lit "The connection has been closed.") ∈ trace s'.
Proof.
  intros Hs Hcl.
  destruct (poll_failed_frame e env s) as (H1 & H2 & _ & _ & H5 & H6).
  cbv zeta in *. unfold disconnected.
  split; [|split; [exact H5|split; [exact H6|split; [exact H1|split; [exact H2|]]]]].
  - unfold poll_failed, message_box. destruct Hcl as [Hc | [Hb Hc]].
    + apply setChecked_False_idle_serial. cbn [_serial emit].
      rewrite Hc. apply close_serial_returns.
    + rewrite Hc. apply setChecked_False_returns. cbn [uart_connect_btn emit].
      destruct (close_serial_frame (env_close env) (set_poll false s)) as (_ & _ & Hbtn).
      rewrite Hbtn. exact Hb.
  - unfold poll_failed, message_box.
    match goal with |- _ ∈ trace (setChecked_False ?cl ?x) =>
      destruct (setChecked_False_trace cl x) as [l Hl]; rewrite Hl
    end.
    cbn [trace emit]. apply elem_of_app. left. apply elem_of_app. right. left.
Qed.

(** C5, where the code fails: reading raises and [close()] raises as
    well.  Polling stops, the warning is shown and the button is
    unchecked, but the widget keeps the serial object: it is not
    disconnected, and a later send still writes to it. *)
Lemma poll_error_close_raises_keeps_connection :
  let s1 := _poll_uart unplugged on_COM9 in
  _serial on_COM9 = Some serial_COM9 /\
  _poll s1 = false /\ isChecked (uart_connect_btn s1) = false /\
  trace s1 = trace on_COM9 ++
    [Close serial_COM9 true;
     MessageBox Warning (lit "Serial Disconnected")
       (lit "Serial port error: device disconnected" ++ [10] ++
        lit "The connection has been closed.");
     Close serial_COM9 true] /\
  _serial s1 = Some serial_COM9 /\ ~ disconnected s1 /\
  trace (_on_send quiet (set_input (lit "AT") s1))
  = trace s1 ++ [Write serial_COM9 [x41; x54; x0a] false].
Proof.
  cbv zeta.
  assert (H : _serial (_poll_uart unplugged on_COM9) = Some serial_COM9)
    by (vm_compute; reflexivity).
  split; [vm_compute; reflexivity|]. split; [vm_compute; reflexivity|].
  split; [vm_compute; reflexivity|]. split; [vm_compute; reflexivity|].
  split; [exact H|].
  split; [unfold disconnected; rewrite H; discriminate|].
  vm_compute. reflexivity.
Qed.

(** ** Where the log shows the buffer of the current port

    [synced], the premise of the buffer isolation above, holds when the
    widget is built and is kept by every change of the port combo, by
    polling, connecting, disconnecting and clearing.  Sending is what
    breaks it: [_on_send] puts the message in the buffer but only a line
    feed in the log. *)

Lemma same_buffers_synced (s s' : CommConsole) :
  same_buffers s s' -> synced s -> synced s'.
Proof.
  intros (H1 & H2 & H3 & H4 & _) [Hsel Hlog]. unfold synced, logs_get.
  rewrite H1, H2, H3, H4. split; assumption.
Qed.

Lemma port_combo_becomes_synced (c : ComboBox) (s : CommConsole) :
  synced s -> synced (port_combo_becomes c s).
Proof.
  intros [Hsel Hlog].
  destruct (port_combo_becomes_frame c s) as (Hc & _ & _ & _ & _ & _ & Hsame & Hfire).
  cbv zeta in *.
  destruct (decide (currentText c = currentText (uart_port_combo s))) as [E | E].
  - rewrite (Hsame E). unfold synced, logs_get. cbn. split; [congruence | exact Hlog].
  - destruct (Hfire E) as (H1 & H2 & _). unfold synced. rewrite Hc, H1. split; [reflexivity | exact H2].
Qed.

Lemma __init___synced (comports : option (list ListPortInfo)) :
  synced (__init__ comports).
Proof.
  unfold __init__, _setup_uart.
  assert (H0 : synced (set_current_port [] (set_port_logs ∅
                 (set_poll false (set_serial None _build_ui)))))
    by (split; reflexivity).
  assert (Hsoc : forall v s, synced s -> synced (set_soc_port_id v s))
    by (intros v s Hs; exact Hs).
  apply Hsoc. unfold refresh_ports, uart_port_combo_addItems, uart_port_combo_clear.
  destruct comports as [l|]; repeat apply port_combo_becomes_synced; exact H0.
Qed.

Lemma select_port_synced (p : pystr) (s : CommConsole) :
  synced s -> synced (select_port p s).
Proof.
  intros Hs. unfold select_port, uart_port_combo_setCurrentIndex,
    uart_port_combo_addItem, uart_port_combo_addItems.
  apply port_combo_becomes_synced.
  destruct (findText p (uart_port_combo s) <? 0);
    [apply port_combo_becomes_synced|]; exact Hs.
Qed.

Lemma setChecked_False_synced (cl : option PyExn) (s : CommConsole) :
  synced s -> synced (setChecked_False cl s).
Proof.
  apply same_buffers_synced. apply (proj1 (setChecked_False_frame cl s)).
Qed.

Lemma toggle_on_synced (env : Env) (s : CommConsole) :
  synced s -> synced (toggle_on env s).
Proof.
  intros Hs. unfold toggle_on.
  assert (Hbox : forall i t b, synced (setChecked_False (env_close env)
                                         (message_box i t b s))).
  { intros i t b. apply setChecked_False_synced. exact Hs. }
  destruct (env_import env); [|apply Hbox]. cbn [negb].
  destruct (env_Serial env) as [e|].
  - destruct (exn_class e); apply Hbox.
  - unfold synced, logs_get, setText. cbn.
    destruct (_port_logs s !! currentText (uart_port_combo s)); cbn;
      split; reflexivity.
Qed.

Lemma connect_to_port_synced (p : pystr) (baud : Z) (env : Env)
    (s : CommConsole) :
  synced s -> synced (fst (connect_to_port p baud env s)).
Proof.
  intros Hs. rewrite connect_to_port_unfold. cbn [fst].
  pose proof (select_port_synced p s Hs) as H2.
  assert (H3 : synced (uart_baud_setCurrentText baud (select_port p s))).
  { unfold uart_baud_setCurrentText.
    destruct (existsb (Z.eqb baud) baud_items); exact H2. }
  unfold setChecked_True, _on_uart_connect_toggle.
  destruct (isChecked (uart_connect_btn _)); [exact H3|].
  apply toggle_on_synced. exact H3.
Qed.

Lemma disconnect_serial_synced (env : Env) (s : CommConsole) :
  synced s -> synced (disconnect_serial env s).
Proof.
  intros Hs. unfold disconnect_serial, _uart_disconnect_if_needed.
  destruct (isChecked (uart_connect_btn s)); [|exact Hs].
  apply setChecked_False_synced. exact Hs.
Qed.

Lemma _on_uart_clear_synced (s : CommConsole) :
  synced s -> synced (_on_uart_clear s).
Proof.
  intros [Hsel Hlog]. unfold _on_uart_clear, synced, logs_get. cbn.
  split; [exact Hsel|]. rewrite Hsel, lookup_insert_eq. reflexivity.
Qed.

(** After [_on_send] the log and the buffer differ. *)
Example sent_AT_not_synced :
  log sent_AT = [10] /\ logs_get (_current_port sent_AT) sent_AT = lit "AT" ++ [10] /\
  ~ synced sent_AT.
Proof.
  split; [vm_compute; reflexivity|]. split; [vm_compute; reflexivity|].
  intros [_ H]. vm_compute in H. discriminate.
Qed.

(** * More properties *)

(** ** Bytes and bit fields *)

Lemma bz_range (b : byte) : 0 <= bz b < 256.
Proof.
  unfold bz. pose proof (Byte.to_N_bounded b) as H. lia.
Qed.

Lemma bz_byte_of_Z (z : Z) : 0 <= z < 256 -> bz (byte_of_Z z) = z.
Proof.
  intros Hz. unfold bz, byte_of_Z.
  destruct (Byte.of_N (Z.to_N z)) as [b|] eqn:E.
  - apply Byte.to_of_N in E. simpl. rewrite E. lia.
  - apply Byte.of_N_None_iff in E. lia.
Qed.

Lemma land_shiftl_low (hi lo n : Z) :
  0 <= n -> 0 <= lo < 2 ^ n -> Z.land (Z.shiftl hi n) lo = 0.
Proof.
  intros Hn Hlo. apply Z.bits_inj'. intros m Hm.
  rewrite Z.land_spec, Z.bits_0.
  destruct (Z.lt_ge_cases m n) as [H | H].
  - rewrite Z.shiftl_spec_low by exact H. reflexivity.
  - destruct (Z.eq_dec lo 0) as [-> | Hne].
    + rewrite Z.bits_0. apply andb_false_r.
    + assert (Hlog : Z.log2 lo < m).
      { apply Z.lt_le_trans with n; [apply Z.log2_lt_pow2; lia | exact H]. }
      rewrite (Z.bits_above_log2 lo m) by lia.
      apply andb_false_r.
Qed.

(** Bit fields that do not overlap add up. *)
Lemma lor_high_low (hi lo n : Z) :
  0 <= n -> 0 <= lo < 2 ^ n -> Z.lor (hi * 2 ^ n) lo = hi * 2 ^ n + lo.
Proof.
  intros Hn Hlo. rewrite <- Z.shiftl_mul_pow2 by exact Hn.
  pose proof (land_shiftl_low hi lo n Hn Hlo) as H.
  rewrite <- Z.lxor_lor by exact H. symmetry. apply Z.add_nocarry_lxor. exact H.
Qed.

Lemma land_mask (x n m k : Z) :
  0 <= n -> m = 2 ^ n - 1 -> k = 2 ^ n -> Z.land x m = x mod k.
Proof.
  intros Hn -> ->. rewrite <- Z.land_ones by exact Hn. f_equal.
  rewrite Z.ones_equiv. lia.
Qed.

Lemma shiftl_mul (x n k : Z) : 0 <= n -> k = 2 ^ n -> Z.shiftl x n = x * k.
Proof. intros Hn ->. apply Z.shiftl_mul_pow2. exact Hn. Qed.

Lemma shiftr_div (x n k : Z) : 0 <= n -> k = 2 ^ n -> Z.shiftr x n = x / k.
Proof. intros Hn ->. apply Z.shiftr_div_pow2. exact Hn. Qed.

Lemma lor_sum (hi lo n k : Z) :
  0 <= n -> k = 2 ^ n -> 0 <= lo < k -> Z.lor (hi * k) lo = hi * k + lo.
Proof. intros Hn -> Hlo. apply lor_high_low; assumption. Qed.

(** The code points of the decoder, as sums. *)
Lemma cp2_sum (b0 b1 : Z) :
  cp2 b0 b1 = (b0 mod 32) * 64 + b1 mod 64.
Proof.
  unfold cp2.
  rewrite (land_mask b0 5 31 32), (land_mask b1 6 63 64) by (lia || reflexivity).
  rewrite (shiftl_mul _ 6 64) by (lia || reflexivity).
  apply (lor_sum _ _ 6); [lia | reflexivity |]. apply Z.mod_pos_bound. lia.
Qed.

Lemma cp3_sum (b0 b1 b2 : Z) :
  cp3 b0 b1 b2 = (b0 mod 16) * 4096 + (b1 mod 64) * 64 + b2 mod 64.
Proof.
  unfold cp3.
  rewrite (land_mask b0 4 15 16), (land_mask b1 6 63 64), (land_mask b2 6 63 64)
    by (lia || reflexivity).
  rewrite (shiftl_mul _ 6 64), (shiftl_mul _ 12 4096) by (lia || reflexivity).
  pose proof (Z.mod_pos_bound b1 64). pose proof (Z.mod_pos_bound b2 64).
  rewrite (lor_sum (b1 mod 64) _ 6 64) by (lia || reflexivity).
  rewrite (lor_sum _ _ 12 4096) by (lia || reflexivity). lia.
Qed.

Lemma cp4_sum (b0 b1 b2 b3 : Z) :
  cp4 b0 b1 b2 b3
  = (b0 mod 8) * 262144 + (b1 mod 64) * 4096 + (b2 mod 64) * 64 + b3 mod 64.
Proof.
  unfold cp4.
  rewrite (land_mask b0 3 7 8), (land_mask b1 6 63 64), (land_mask b2 6 63 64),
    (land_mask b3 6 63 64) by (lia || reflexivity).
  rewrite (shiftl_mul _ 6 64), (shiftl_mul _ 12 4096), (shiftl_mul _ 18 262144)
    by (lia || reflexivity).
  pose proof (Z.mod_pos_bound b1 64). pose proof (Z.mod_pos_bound b2 64).
  pose proof (Z.mod_pos_bound b3 64).
  rewrite (lor_sum (b2 mod 64) _ 6 64) by (lia || reflexivity).
  rewrite (lor_sum (b1 mod 64) _ 12 4096) by (lia || reflexivity).
  rewrite (lor_sum _ _ 18 262144) by (lia || reflexivity). lia.
Qed.

(** ** The codec, both ways *)

Lemma scalar_spec (c : Z) :
  scalar c = true <-> 0 <= c < 0x110000 /\ ~ (0xD800 <= c <= 0xDFFF).
Proof.
  unfold scalar. split.
  - intros H. tests_to_props; lia.
  - intros [H1 H2].
    destruct (Z.lt_ge_cases c 0xD800); [|destruct (Z.lt_ge_cases 0xDFFF c)];
      settle_tests; try reflexivity; lia.
Qed.

(** What the decoder gives is text that can be encoded again: every code
    point it produces is a scalar value. *)
Lemma decode_replace_scalar (n : nat) :
  forall data, (length data <= n)%nat ->
    Forall (fun c => scalar c = true) (decode_replace data).
Proof.
  induction n as [|n IH]; intros data Hlen.
  - destruct data; [constructor | simpl in Hlen; lia].
  - destruct data as [|b0 r0]; [constructor|]. simpl in Hlen.
    assert (Hrec : forall r, (length r <= length r0)%nat ->
              Forall (fun c => scalar c = true) (decode_replace r))
      by (intros r Hr; apply IH; lia).
    assert (Hrepl : scalar REPLACEMENT = true) by reflexivity.
    pose proof (bz_range b0) as R0.
    cbn [decode_replace].
    destruct (bz b0 <? 128) eqn:E0.
    { tests_to_props. constructor; [apply scalar_spec; lia | apply Hrec; lia]. }
    destruct (bz b0 <? 194) eqn:E1; [constructor; [exact Hrepl | apply Hrec; lia]|].
    destruct (bz b0 <? 224) eqn:E2.
    { destruct r0 as [|b1 r1]; [repeat constructor|]. simpl in Hrec.
      pose proof (bz_range b1) as R1.
      destruct (is_continuation (bz b1)) eqn:C1;
        [|constructor; [exact Hrepl | apply Hrec; simpl; lia]].
      unfold is_continuation in C1. tests_to_props.
      constructor; [|apply Hrec; lia].
      apply scalar_spec. rewrite cp2_sum. Z.div_mod_to_equations. lia. }
    destruct (bz b0 <? 240) eqn:E3.
    { destruct r0 as [|b1 r1]; [repeat constructor|]. simpl in Hrec.
      pose proof (bz_range b1) as R1.
      destruct (second_of_3 (bz b0) (bz b1)) eqn:C1;
        [|constructor; [exact Hrepl | apply Hrec; simpl; lia]].
      destruct r1 as [|b2 r2]; [repeat constructor|]. simpl in Hrec.
      pose proof (bz_range b2) as R2.
      destruct (is_continuation (bz b2)) eqn:C2;
        [|constructor; [exact Hrepl | apply Hrec; simpl; lia]].
      unfold second_of_3, is_continuation in C1, C2.
      constructor; [|apply Hrec; lia].
      apply scalar_spec. rewrite cp3_sum.
      tests_to_props; Z.div_mod_to_equations; lia. }
    destruct (bz b0 <? 245) eqn:E4; [|constructor; [exact Hrepl | apply Hrec; lia]].
    destruct r0 as [|b1 r1]; [repeat constructor|]. simpl in Hrec.
    pose proof (bz_range b1) as R1.
    destruct (second_of_4 (bz b0) (bz b1)) eqn:C1;
      [|constructor; [exact Hrepl | apply Hrec; simpl; lia]].
    destruct r1 as [|b2 r2]; [repeat constructor|]. simpl in Hrec.
    pose proof (bz_range b2) as R2.
    destruct (is_continuation (bz b2)) eqn:C2;
      [|constructor; [exact Hrepl | apply Hrec; simpl; lia]].
    destruct r2 as [|b3 r3]; [repeat constructor|]. simpl in Hrec.
    pose proof (bz_range b3) as R3.
    destruct (is_continuation (bz b3)) eqn:C3;
      [|constructor; [exact Hrepl | apply Hrec; simpl; lia]].
    unfold second_of_4, is_continuation in C1, C2, C3.
    constructor; [|apply Hrec; lia].
    apply scalar_spec. rewrite cp4_sum.
    tests_to_props; Z.div_mod_to_equations; lia.
Qed.

Lemma encode_char_scalar (c : Z) :
  scalar c = true -> exists bs, encode_char c = Some bs.
Proof.
  intros H. apply scalar_spec in H as [H1 H2]. unfold encode_char.
  destruct (c <? 0) eqn:E0; [tests_to_props; lia|].
  destruct (c <? 128); [eauto|]. destruct (c <? 2048); [eauto|].
  destruct ((55296 <=? c) && (c <=? 57343)) eqn:E1; [tests_to_props; lia|].
  destruct (c <? 65536); [eauto|].
  destruct (c <? 1114112) eqn:E2; [eauto | tests_to_props; lia].
Qed.

Lemma encode_scalars (s : pystr) :
  Forall (fun c => scalar c = true) s -> exists bs, encode s = Some bs.
Proof.
  induction 1 as [|c s Hc _ IH]; [exists []; reflexivity|].
  destruct (encode_char_scalar c Hc) as [bs Hbs]. destruct IH as [bs' Hbs'].
  exists (bs ++ bs'). simpl. rewrite Hbs, Hbs'. reflexivity.
Qed.

(** X2: text that came out of the decoder never makes [encode()] raise:
    every code point it holds is a scalar value. *)
Theorem decoded_text_encodes (data : pybytes) :
  exists bs, encode (decode_replace data) = Some bs.
Proof.
  apply encode_scalars. apply (decode_replace_scalar (length data)). lia.
Qed.

(** The strict decoder on one well-formed sequence. *)
Lemma decode_strict_1 (b0 : byte) (r : pybytes) :
  bz b0 < 128 -> decode_strict (b0 :: r) = cons (bz b0) <$> decode_strict r.
Proof. intros H. cbn [decode_strict]. settle_tests. reflexivity. Qed.

Lemma decode_strict_2 (b0 b1 : byte) (r : pybytes) :
  194 <= bz b0 < 224 -> 128 <= bz b1 < 192 ->
  decode_strict (b0 :: b1 :: r) = cons (cp2 (bz b0) (bz b1)) <$> decode_strict r.
Proof.
  intros H0 H1. cbn [decode_strict]. unfold is_continuation.
  settle_tests. reflexivity.
Qed.

Lemma decode_strict_3 (b0 b1 b2 : byte) (r : pybytes) :
  224 <= bz b0 < 240 -> 128 <= bz b1 < 192 ->
  (bz b0 = 224 -> 160 <= bz b1) -> (bz b0 = 237 -> bz b1 < 160) ->
  128 <= bz b2 < 192 ->
  decode_strict (b0 :: b1 :: b2 :: r)
  = cons (cp3 (bz b0) (bz b1) (bz b2)) <$> decode_strict r.
Proof.
  intros H0 H1 Ha Hb H2. cbn [decode_strict].
  unfold second_of_3, is_continuation.
  destruct (Z.lt_ge_cases (bz b1) 160); settle_tests; reflexivity.
Qed.

Lemma decode_strict_4 (b0 b1 b2 b3 : byte) (r : pybytes) :
  240 <= bz b0 < 245 -> 128 <= bz b1 < 192 ->
  (bz b0 = 240 -> 144 <= bz b1) -> (bz b0 = 244 -> bz b1 < 144) ->
  128 <= bz b2 < 192 -> 128 <= bz b3 < 192 ->
  decode_strict (b0 :: b1 :: b2 :: b3 :: r)
  = cons (cp4 (bz b0) (bz b1) (bz b2) (bz b3)) <$> decode_strict r.
Proof.
  intros H0 H1 Ha Hb H2 H3. cbn [decode_strict].
  unfold second_of_4, is_continuation.
  destruct (Z.lt_ge_cases (bz b1) 144); settle_tests; reflexivity.
Qed.

(** The bytes of the encoder, by value. *)
Lemma lead_byte (tag hi n k x : Z) :
  0 <= n -> k = 2 ^ n -> tag = hi * k -> 0 <= x < k -> 0 <= hi * k + x < 256 ->
  bz (byte_of_Z (Z.lor tag x)) = tag + x.
Proof.
  intros Hn Hk -> Hx Hr. rewrite (lor_sum hi x n k Hn Hk Hx).
  apply bz_byte_of_Z. exact Hr.
Qed.

Lemma trail_byte (x : Z) :
  bz (byte_of_Z (Z.lor 128 (Z.land x 63))) = 128 + x mod 64.
Proof.
  rewrite (land_mask x 6 63 64) by (lia || reflexivity).
  pose proof (Z.mod_pos_bound x 64).
  apply (lead_byte 128 2 6 64); (reflexivity || lia).
Qed.

(** One encoded code point at the head of the data decodes to itself. *)
Lemma decode_strict_encode_char (c : Z) (bs rest : pybytes) :
  encode_char c = Some bs ->
  decode_strict (bs ++ rest) = cons c <$> decode_strict rest.
Proof.
  unfold encode_char. intros H.
  destruct (c <? 0) eqn:E0; [discriminate|].
  destruct (c <? 128) eqn:E1.
  { injection H as <-. tests_to_props. cbn [app].
    rewrite decode_strict_1; rewrite bz_byte_of_Z by lia; [reflexivity | lia]. }
  destruct (c <? 2048) eqn:E2.
  { injection H as <-. tests_to_props. cbn [app].
    assert (B0 : bz (byte_of_Z (Z.lor 192 (Z.shiftr c 6))) = 192 + c / 64).
    { rewrite (shiftr_div c 6 64) by (lia || reflexivity).
      apply (lead_byte 192 3 6 64); try (reflexivity || lia);
        Z.div_mod_to_equations; lia. }
    pose proof (trail_byte c) as B1.
    rewrite decode_strict_2; rewrite ?B0, ?B1;
      try (Z.div_mod_to_equations; lia).
    rewrite cp2_sum. f_equal. f_equal. Z.div_mod_to_equations. lia. }
  destruct ((55296 <=? c) && (c <=? 57343)) eqn:E3; [discriminate|].
  destruct (c <? 65536) eqn:E4.
  { injection H as <-. cbn [app].
    assert (R : 2048 <= c < 65536 /\ ~ (55296 <= c <= 57343))
      by (tests_to_props; lia).
    clear E0 E1 E2 E3 E4.
    assert (B0 : bz (byte_of_Z (Z.lor 224 (Z.shiftr c 12))) = 224 + c / 4096).
    { rewrite (shiftr_div c 12 4096) by (lia || reflexivity).
      apply (lead_byte 224 14 4 16); try (reflexivity || lia);
        Z.div_mod_to_equations; lia. }
    assert (B1 : bz (byte_of_Z (Z.lor 128 (Z.land (Z.shiftr c 6) 63)))
                 = 128 + (c / 64) mod 64).
    { rewrite trail_byte, (shiftr_div c 6 64) by (lia || reflexivity). reflexivity. }
    pose proof (trail_byte c) as B2.
    rewrite decode_strict_3; rewrite ?B0, ?B1, ?B2;
      try (Z.div_mod_to_equations; lia).
    rewrite cp3_sum. f_equal. f_equal. Z.div_mod_to_equations. lia. }
  destruct (c <? 1114112) eqn:E5; [|discriminate].
  injection H as <-. cbn [app].
  assert (R : 65536 <= c < 1114112) by (tests_to_props; lia).
  clear E0 E1 E2 E3 E4 E5.
  assert (B0 : bz (byte_of_Z (Z.lor 240 (Z.shiftr c 18))) = 240 + c / 262144).
  { rewrite (shiftr_div c 18 262144) by (lia || reflexivity).
    apply (lead_byte 240 30 3 8); try (reflexivity || lia);
      Z.div_mod_to_equations; lia. }
  assert (B1 : bz (byte_of_Z (Z.lor 128 (Z.land (Z.shiftr c 12) 63)))
               = 128 + (c / 4096) mod 64).
  { rewrite trail_byte, (shiftr_div c 12 4096) by (lia || reflexivity). reflexivity. }
  assert (B2 : bz (byte_of_Z (Z.lor 128 (Z.land (Z.shiftr c 6) 63)))
               = 128 + (c / 64) mod 64).
  { rewrite trail_byte, (shiftr_div c 6 64) by (lia || reflexivity). reflexivity. }
  pose proof (trail_byte c) as B3.
  rewrite decode_strict_4; rewrite ?B0, ?B1, ?B2, ?B3;
    try (Z.div_mod_to_equations; lia).
  rewrite cp4_sum. f_equal. f_equal. Z.div_mod_to_equations. lia.
Qed.

(** X1: what [encode()] gives decodes back to the same text, with either
    error mode: no replacement character is introduced. *)
Theorem decode_encode (s : pystr) (bs : pybytes) :
  encode s = Some bs ->
  decode_strict bs = Some s /\ decode_replace bs = s.
Proof.
  intros H.
  assert (Hstrict : decode_strict bs = Some s).
  { revert bs H. induction s as [|c s IH]; intros bs H; simpl in H.
    - injection H as <-. reflexivity.
    - destruct (encode_char c) as [b|] eqn:Ec; [|discriminate].
      destruct (encode s) as [b'|] eqn:Es; [|discriminate].
      injection H as <-. rewrite (decode_strict_encode_char c b b' Ec).
      rewrite (IH b' eq_refl). reflexivity. }
  split; [exact Hstrict|].
  pose proof (decode_replace_strict (length bs) bs s [] (Nat.le_refl _) Hstrict) as H'.
  rewrite !app_nil_r in H'. exact H'.
Qed.

Lemma decode_encode_witness :
  encode (lit "AT" ++ [0x20AC; 0x1F600; 10])
    = Some [x41; x54; xe2; x82; xac; xf0; x9f; x98; x80; x0a] /\
  decode_replace [x41; x54; xe2; x82; xac; xf0; x9f; x98; x80; x0a]
    = lit "AT" ++ [0x20AC; 0x1F600; 10].
Proof.
  assert (H : encode (lit "AT" ++ [0x20AC; 0x1F600; 10])
              = Some [x41; x54; xe2; x82; xac; xf0; x9f; x98; x80; x0a])
    by (vm_compute; reflexivity).
  split; [exact H|]. exact (proj2 (decode_encode _ _ H)).
Defined.

(** X3: bytes below 128 decode to themselves, one character per byte. *)
Theorem decode_replace_ascii (data : pybytes) :
  Forall (fun b => bz b < 128) data -> decode_replace data = bz <$> data.
Proof.
  induction 1 as [|b data Hb _ IH]; [reflexivity|].
  cbn [decode_replace fmap list_fmap]. settle_tests. rewrite IH. reflexivity.
Qed.

Lemma decode_replace_ascii_witness :
  Forall (fun b => bz b < 128) OK_CRLF /\
  decode_replace OK_CRLF = bz <$> OK_CRLF.
Proof.
  assert (H : Forall (fun b => bz b < 128) OK_CRLF)
    by (repeat constructor; vm_compute; reflexivity).
  split; [exact H | exact (decode_replace_ascii OK_CRLF H)].
Defined.

Lemma decode_replace_length (n : nat) :
  forall data, (length data <= n)%nat ->
    (length (decode_replace data) <= length data)%nat.
Proof.
  induction n as [|n IH]; intros data Hlen.
  - destruct data; simpl in *; lia.
  - destruct data as [|b0 r0]; [simpl; lia|]. simpl in Hlen.
    assert (Hrec : forall r, (length r <= length r0)%nat ->
              (length (decode_replace r) <= length r)%nat)
      by (intros r Hr; apply IH; lia).
    cbn [decode_replace].
    repeat match goal with
    | |- context [if ?c then _ else _] => destruct c
    | |- context [match ?l with [] => _ | _ :: _ => _ end] =>
        destruct l; simpl in Hrec
    end;
    cbn [length];
    try lia;
    match goal with
    | |- (S (length (decode_replace ?r)) <= _)%nat =>
        pose proof (Hrec r ltac:(simpl; lia)); simpl in *; lia
    end.
Qed.

Lemma decode_replace_nonempty (data : pybytes) :
  data <> [] -> decode_replace data <> [].
Proof.
  destruct data as [|b0 r0]; [congruence|]. intros _. cbn [decode_replace].
  repeat match goal with
  | |- context [if ?c then _ else _] => destruct c
  | |- context [match ?l with [] => _ | _ :: _ => _ end] => destruct l
  end; discriminate.
Qed.

(** X4: a poll that reads bytes appends at least one character to the
    buffer of the selected port, and never more characters than it read
    bytes. *)
Theorem poll_uart_appends (env : Env) (s : CommConsole) (h : Serial)
    (n n' : Z) (data : pybytes) :
  _serial s = Some h -> env_in_waiting env = inr n -> n <> 0 ->
  env_in_waiting' env = inr n' -> env_read env = inr data -> data <> [] ->
  let p := currentText (uart_port_combo s) in
  exists t, logs_get p (_poll_uart env s) = logs_get p s ++ t /\
            log (_poll_uart env s) = log s ++ t /\
            (0 < length t <= length data)%nat.
Proof.
  intros Hs Hw Hn Hw' Hr Hd p. exists (decode_replace data).
  rewrite (_poll_uart_data env s h n n' data Hs Hw Hn Hw' Hr Hd).
  unfold logs_get. cbn. fold p. rewrite lookup_insert_eq. cbn.
  split; [reflexivity|]. split; [reflexivity|].
  pose proof (decode_replace_length (length data) data (Nat.le_refl _)).
  pose proof (decode_replace_nonempty data Hd).
  destruct (decode_replace data); [congruence | simpl in *; lia].
Qed.

Lemma poll_uart_appends_witness :
  exists t,
    logs_get (lit "COM9") (_poll_uart (incoming [xe2; x82; xac; xff]) on_COM9)
      = logs_get (lit "COM9") on_COM9 ++ t /\
    log (_poll_uart (incoming [xe2; x82; xac; xff]) on_COM9) = log on_COM9 ++ t /\
    (0 < length t <= 4)%nat.
Proof.
  assert (H : _serial on_COM9 = Some serial_COM9) by (vm_compute; reflexivity).
  refine (poll_uart_appends (incoming [xe2; x82; xac; xff]) on_COM9
            serial_COM9 4 4 [xe2; x82; xac; xff] H eq_refl _ eq_refl eq_refl _);
    discriminate.
Defined.

(** ** The port list *)

Lemma port_combo_becomes_keeps_text (c : ComboBox) (s : CommConsole) :
  synced s -> forall k, logs_get k (port_combo_becomes c s) = logs_get k s.
Proof.
  intros [Hsel Hlog] k.
  destruct (port_combo_becomes_frame c s) as (_ & _ & _ & _ & _ & _ & Hsame & Hfire).
  cbv zeta in *.
  destruct (decide (currentText c = currentText (uart_port_combo s))) as [E | E].
  - rewrite (Hsame E). reflexivity.
  - destruct (Hfire E) as (_ & _ & Hlogs). unfold logs_get at 1. rewrite Hlogs.
    destruct (truthy (_current_port s)); [|reflexivity].
    rewrite lookup_insert. destruct (decide (_current_port s = k)) as [<- | _].
    + simpl. exact Hlog.
    + reflexivity.
Qed.

Lemma port_combo_becomes_same (c : ComboBox) (s : CommConsole) :
  let s' := port_combo_becomes c s in
  uart_port_combo s' = c /\ _serial s' = _serial s /\ trace s' = trace s /\
  _poll s' = _poll s /\ uart_connect_btn s' = uart_connect_btn s.
Proof.
  destruct (port_combo_becomes_frame c s) as (H1 & H2 & H3 & H4 & H5 & _).
  repeat split; assumption.
Qed.

Lemma listed_nonempty (comports : option (list ListPortInfo)) :
  listed comports <> [].
Proof. destruct comports as [[|p l]|]; discriminate. Qed.

Lemma refresh_ports_combo (comports : option (list ListPortInfo))
    (s : CommConsole) :
  uart_port_combo (refresh_ports comports s)
  = {| items := listed comports; currentIndex := 0 |} /\
  _serial (refresh_ports comports s) = _serial s /\
  _poll (refresh_ports comports s) = _poll s /\
  trace (refresh_ports comports s) = trace s.
Proof.
  unfold refresh_ports, uart_port_combo_addItems, uart_port_combo_clear.
  destruct (port_combo_becomes_same {| items := []; currentIndex := -1 |} s)
    as (Hc & Hs & Ht & Hp & _).
  set (s1 := port_combo_becomes _ s) in *.
  destruct comports as [[|p l]|];
    match goal with
    | |- context [port_combo_becomes ?c s1] =>
        destruct (port_combo_becomes_same c s1) as (Hc' & Hs' & Ht' & Hp' & _)
    end;
    cbv zeta in *; rewrite Hc', Hs', Ht', Hp', Hs, Ht, Hp; rewrite Hc;
    repeat split.
Qed.

Lemma refresh_ports_synced (comports : option (list ListPortInfo))
    (s : CommConsole) :
  synced s -> synced (refresh_ports comports s).
Proof.
  intros Hs. unfold refresh_ports, uart_port_combo_addItems, uart_port_combo_clear.
  destruct comports as [l|]; repeat apply port_combo_becomes_synced; exact Hs.
Qed.

Lemma refresh_ports_text (comports : option (list ListPortInfo))
    (s : CommConsole) (k : pystr) :
  synced s -> logs_get k (refresh_ports comports s) = logs_get k s.
Proof.
  intros Hs. unfold refresh_ports, uart_port_combo_addItems, uart_port_combo_clear.
  pose proof (port_combo_becomes_synced {| items := []; currentIndex := -1 |} s Hs)
    as Hs1.
  destruct comports as [l|];
    rewrite port_combo_becomes_keeps_text by exact Hs1;
    apply port_combo_becomes_keeps_text; exact Hs.
Qed.

(** X5: after [refresh_ports] the port combo holds the devices the lister
    reported, or the single entry COM1 when it reported none or failed; it
    is never empty, and its first entry is the selected one.  The
    connection is not touched. *)
Theorem refresh_ports_lists (comports : option (list ListPortInfo))
    (s : CommConsole) :
  let s' := refresh_ports comports s in
  uart_port_combo s' = {| items := listed comports; currentIndex := 0 |} /\
  items (uart_port_combo s') <> [] /\
  currentText (uart_port_combo s') = hd [] (listed comports) /\
  _serial s' = _serial s /\ _poll s' = _poll s /\ trace s' = trace s.
Proof.
  destruct (refresh_ports_combo comports s) as (Hc & Hs & Hp & Ht).
  cbv zeta. rewrite Hc, Hs, Hp, Ht.
  split; [reflexivity|]. split; [apply listed_nonempty|].
  split; [|repeat split].
  unfold currentText. cbn. destruct (listed comports); reflexivity.
Qed.

(** X6: on a widget whose log shows the buffer of the current port,
    [refresh_ports] loses no text: every buffer reads as before, and the
    log again shows the buffer of the port that is current afterwards. *)
Theorem refresh_ports_keeps_text (comports : option (list ListPortInfo))
    (s : CommConsole) :
  synced s ->
  synced (refresh_ports comports s) /\
  forall k, logs_get k (refresh_ports comports s) = logs_get k s.
Proof.
  intros Hs. split; [apply refresh_ports_synced; exact Hs|].
  intros k. apply refresh_ports_text. exact Hs.
Qed.

Lemma refresh_ports_keeps_text_witness :
  synced (_poll_uart (incoming OK_CRLF) on_COM9) /\
  logs_get (lit "COM9")
    (refresh_ports None (_poll_uart (incoming OK_CRLF) on_COM9))
  = logs_get (lit "COM9") (_poll_uart (incoming OK_CRLF) on_COM9).
Proof.
  assert (H : synced (_poll_uart (incoming OK_CRLF) on_COM9))
    by (split; vm_compute; reflexivity).
  split; [exact H|].
  exact (proj2 (refresh_ports_keeps_text None _ H) (lit "COM9")).
Defined.

(** X7: a widget just built is disconnected, its poll timer is stopped,
    it has no buffer and has shown and opened nothing; the port combo
    lists what [refresh_ports] found with the first entry selected, which
    is also the current port; the controls are at their defaults and the
    button reads Connect. *)
Theorem init_state (comports : option (list ListPortInfo)) :
  let s := __init__ comports in
  _serial s = None /\ _poll s = false /\ _port_logs s = ∅ /\ trace s = [] /\
  uart_port_combo s = {| items := listed comports; currentIndex := 0 |} /\
  _current_port s = hd [] (listed comports) /\
  log s = [] /\ input s = [] /\ default_controls s /\
  uart_connect_btn s = {| isChecked := false; text := lit "Connect" |} /\
  _soc_port_id s = lit "VID:PID=067B:23A3".
Proof.
  unfold __init__, _setup_uart.
  set (s0 := set_current_port [] (set_port_logs ∅
               (set_poll false (set_serial None _build_ui)))).
  assert (H : forall l, l <> [] ->
    let s := uart_port_combo_addItems l (uart_port_combo_clear s0) in
    _serial s = None /\ _poll s = false /\ _port_logs s = ∅ /\ trace s = [] /\
    uart_port_combo s = {| items := l; currentIndex := 0 |} /\
    _current_port s = hd [] l /\ log s = [] /\ input s = [] /\
    default_controls s /\
    uart_connect_btn s = {| isChecked := false; text := lit "Connect" |}).
  { intros l Hl. destruct l as [|p l]; [congruence|].
    unfold uart_port_combo_addItems, uart_port_combo_clear, port_combo_becomes,
      _on_port_changed, default_controls, str_eqb.
    cbn. destruct p as [|c p]; cbn; repeat split. }
  cbv zeta. cbn [_serial _poll _port_logs trace uart_port_combo _current_port
    log input uart_connect_btn _soc_port_id set_soc_port_id default_controls
    uart_baud uart_databits uart_parity uart_stop uart_flow].
  unfold refresh_ports.
  destruct comports as [[|p l]|]; cbn [listed fmap list_fmap];
    match goal with
    | |- context [uart_port_combo_addItems ?l _] =>
        destruct (H l ltac:(discriminate))
          as (H1 & H2 & H3 & H4 & H5 & H6 & H7 & H8 & H9 & H10)
    end;
    cbv zeta in *; unfold default_controls in H9;
    destruct H9 as (G1 & G2 & G3 & G4 & G5);
    repeat split; assumption.
Qed.

(** ** Clearing *)

(** X8: [_on_uart_clear] empties the log and the buffer of the selected
    port and nothing else: the other buffers, the connection and the poll
    timer are as before.  On a widget whose log shows the current buffer,
    making another listed port active and coming back then shows an
    empty log. *)
Theorem on_uart_clear_clears (s : CommConsole) (k : pystr) :
  synced s -> k ∈ items (uart_port_combo s) ->
  let p := currentText (uart_port_combo s) in
  let s' := _on_uart_clear s in
  log s' = [] /\ logs_get p s' = [] /\
  (forall k', k' <> p -> _port_logs s' !! k' = _port_logs s !! k') /\
  _serial s' = _serial s /\ _poll s' = _poll s /\ trace s' = trace s /\
  (p ∈ items (uart_port_combo s) ->
   log (set_active p (set_active k s')) = []).
Proof.
  intros Hs Hk p s'.
  assert (Hget : logs_get p s' = []).
  { unfold s', _on_uart_clear, logs_get. cbn. fold p. rewrite lookup_insert_eq. reflexivity. }
  split; [reflexivity|]. split; [exact Hget|]. split.
  { intros k' Hk'. unfold s', _on_uart_clear. cbn. fold p.
    apply lookup_insert_ne. congruence. }
  split; [reflexivity|]. split; [reflexivity|]. split; [reflexivity|].
  intros Hp.
  pose proof (_on_uart_clear_synced s Hs) as Hs'. fold s' in Hs'.
  destruct (set_active_spec k s' Hs') as (Hs2 & _ & _ & Hg2 & Hi2 & _);
    [exact Hk|].
  destruct (set_active_spec p (set_active k s') Hs2) as (_ & _ & Hl3 & _);
    [rewrite Hi2; exact Hp|].
  rewrite Hl3, Hg2. exact Hget.
Qed.

Lemma on_uart_clear_clears_witness :
  synced (_poll_uart (incoming OK_CRLF) on_COM9) /\
  log (set_active (lit "COM9") (set_active (lit "COM10")
         (_on_uart_clear (_poll_uart (incoming OK_CRLF) on_COM9)))) = [].
Proof.
  assert (H : synced (_poll_uart (incoming OK_CRLF) on_COM9))
    by (split; vm_compute; reflexivity).
  assert (Hi : items (uart_port_combo (_poll_uart (incoming OK_CRLF) on_COM9))
               = [lit "COM9"; lit "COM10"]) by (vm_compute; reflexivity).
  split; [exact H|].
  refine (proj2 (proj2 (proj2 (proj2 (proj2 (proj2
    (on_uart_clear_clears (_poll_uart (incoming OK_CRLF) on_COM9)
       (lit "COM10") H _)))))) _).
  - rewrite Hi. right. left.
  - rewrite Hi. left.
Defined.

(** ** Opening a port *)

Lemma find_index_not_elem_of (t : pystr) (l : list pystr) :
  t ∉ l -> find_index t l = -1.
Proof.
  intros H. destruct (find_index_range t l) as [E | [Hr Hn]]; [exact E|].
  exfalso. apply H. rewrite <- Hn. apply list_elem_of_In. apply nth_In. lia.
Qed.

(** What the toggle slot leaves when [serial.Serial(...)] returns. *)
Lemma toggle_on_opened (env : Env) (s : CommConsole) :
  env_import env = true -> env_Serial env = None ->
  let p := currentText (uart_port_combo s) in
  let s' := toggle_on env s in
  _serial s' = Some (serial_of s) /\ _poll s' = true /\
  uart_connect_btn s'
    = {| isChecked := isChecked (uart_connect_btn s); text := lit "Disconnect" |} /\
  _current_port s' = p /\ uart_port_combo s' = uart_port_combo s /\
  log s' = logs_get p s /\
  (forall k, logs_get k s' = logs_get k s) /\
  (forall k, k <> p -> _port_logs s' !! k = _port_logs s !! k) /\
  trace s' = trace s ++ [Opened (serial_of s)] /\ input s' = input s.
Proof.
  intros Hi Ho p s'. unfold s', toggle_on. rewrite Hi, Ho. cbn [negb].
  unfold setText, logs_get, serial_of. cbn. fold p.
  destruct (_port_logs s !! p) as [v|] eqn:E; cbn; rewrite ?E; cbn;
    repeat split; intros; rewrite ?lookup_insert_eq; try reflexivity.
  - rewrite lookup_insert. destruct (decide (p = k)) as [<- | _];
      [rewrite E|]; reflexivity.
  - apply lookup_insert_ne. congruence.
Qed.

(** What the toggle slot leaves when the port cannot be opened: the
    button is unchecked again and one critical box is shown. *)
Lemma toggle_on_failed (env : Env) (s : CommConsole) :
  env_import env = false \/ (exists e, env_Serial env = Some e) ->
  exists title body,
    toggle_on env s
    = setChecked_False (env_close env) (message_box Critical title body s) /\
    (env_import env = true -> forall e, env_Serial env = Some e ->
     exn_class e <> ImportError ->
     title = lit "Open Port Failed" /\
     body = open_failed_text (currentText (uart_port_combo s)) e).
Proof.
  intros H. unfold toggle_on.
  destruct (env_import env) eqn:Hi; cbn [negb].
  - destruct H as [H | [e He]]; [discriminate|]. rewrite He.
    destruct (exn_class e) eqn:Hc; eexists _, _; (split; [reflexivity|]);
      intros _ e' [= <-]; (congruence || (intros _; split; reflexivity)).
  - eexists _, _. split; [reflexivity | discriminate].
Qed.

(** X9: [connect_to_port] adds the port to the combo only when it is not
    listed yet, at the end; a listed port is not listed twice. *)
Theorem connect_to_port_lists_once (p : pystr) (baud : Z) (env : Env)
    (s : CommConsole) :
  items (uart_port_combo (fst (connect_to_port p baud env s)))
  = if decide (p ∈ items (uart_port_combo s))
    then items (uart_port_combo s)
    else items (uart_port_combo s) ++ [p].
Proof.
  rewrite connect_to_port_unfold. cbn [fst].
  assert (Hsel : items (uart_port_combo (select_port p s))
                 = if decide (p ∈ items (uart_port_combo s))
                   then items (uart_port_combo s)
                   else items (uart_port_combo s) ++ [p]).
  { unfold select_port, findText, uart_port_combo_setCurrentIndex,
      uart_port_combo_addItem, uart_port_combo_addItems.
    destruct (decide (p ∈ items (uart_port_combo s))) as [Hin | Hin].
    - pose proof (find_index_elem_of p _ Hin) as H0.
      destruct (find_index p (items (uart_port_combo s)) <? 0) eqn:E;
        [apply Z.ltb_lt in E; lia|].
      rewrite (proj1 (port_combo_becomes_same _ s)). reflexivity.
    - rewrite (find_index_not_elem_of p _ Hin). change (-1 <? 0) with true. cbv iota.
      rewrite (proj1 (port_combo_becomes_same _ _)). cbn [items].
      rewrite (proj1 (port_combo_becomes_same _ s)). reflexivity. }
  assert (Hkeep : forall s0,
            uart_port_combo (setChecked_True env (uart_baud_setCurrentText baud s0))
            = uart_port_combo s0).
  { intros s0. unfold setChecked_True, _on_uart_connect_toggle.
    assert (Hb : uart_port_combo (uart_baud_setCurrentText baud s0)
                 = uart_port_combo s0)
      by (unfold uart_baud_setCurrentText;
          destruct (existsb (Z.eqb baud) baud_items); reflexivity).
    destruct (isChecked (uart_connect_btn _)); [exact Hb|].
    rewrite <- Hb. set (s1 := set_connect_btn _ _).
    change (uart_port_combo (uart_baud_setCurrentText baud s0))
      with (uart_port_combo s1).
    destruct (env_import env) eqn:Hi; [destruct (env_Serial env) as [e|] eqn:Ho|].
    - destruct (toggle_on_failed env s1) as (t & b & -> & _); [right; eauto|].
      destruct (setChecked_False_frame (env_close env) (message_box Critical t b s1))
        as ((_ & _ & _ & H4 & _) & _). exact H4.
    - destruct (toggle_on_opened env s1 Hi Ho) as (_ & _ & _ & _ & H5 & _).
      exact H5.
    - destruct (toggle_on_failed env s1) as (t & b & -> & _); [left; exact Hi|].
      destruct (setChecked_False_frame (env_close env) (message_box Critical t b s1))
        as ((_ & _ & _ & H4 & _) & _). exact H4. }
  rewrite Hkeep. exact Hsel.
Qed.

Lemma port_combo_becomes_controls (c : ComboBox) (s : CommConsole) :
  same_controls s (port_combo_becomes c s) /\
  input (port_combo_becomes c s) = input s.
Proof.
  unfold port_combo_becomes, _on_port_changed, same_controls.
  destruct (str_eqb _ _); [cbn; repeat split|].
  cbn. destruct (truthy (_current_port s)); cbn; repeat split.
Qed.

Lemma select_port_controls (p : pystr) (s : CommConsole) :
  same_controls s (select_port p s) /\ input (select_port p s) = input s.
Proof.
  unfold select_port, uart_port_combo_setCurrentIndex, uart_port_combo_addItem,
    uart_port_combo_addItems.
  match goal with |- context [port_combo_becomes ?c ?x] =>
    destruct (port_combo_becomes_controls c x) as ((H1 & H2 & H3 & H4 & H5) & H6)
  end.
  unfold same_controls. rewrite H1, H2, H3, H4, H5, H6.
  destruct (findText p (uart_port_combo s) <? 0); [|repeat split].
  match goal with |- context [port_combo_becomes ?c s] =>
    destruct (port_combo_becomes_controls c s) as ((G1 & G2 & G3 & G4 & G5) & G6)
  end.
  rewrite G1, G2, G3, G4, G5, G6. repeat split.
Qed.

Lemma select_port_keeps_text (p : pystr) (s : CommConsole) :
  synced s -> forall k, logs_get k (select_port p s) = logs_get k s.
Proof.
  intros Hs k. unfold select_port, uart_port_combo_setCurrentIndex,
    uart_port_combo_addItem, uart_port_combo_addItems.
  destruct (findText p (uart_port_combo s) <? 0).
  - rewrite port_combo_becomes_keeps_text
      by (apply port_combo_becomes_synced; exact Hs).
    apply port_combo_becomes_keeps_text. exact Hs.
  - apply port_combo_becomes_keeps_text. exact Hs.
Qed.

(** X10: on a widget that is not connected (button unchecked) and whose
    log shows the current buffer, when pyserial is there and
    [serial.Serial(...)] returns, [connect_to_port(p, baud)] returns
    [True] and leaves the widget holding a serial object for [p], opened
    once, with the data bits, parity, stop bits and flow control of the
    controls; the baud rate is [baud] only when the baud combo lists it,
    else the rate that was selected before.  The poll timer runs, the
    button is checked and reads Disconnect, [p] is the selected and the
    current port, and no buffered text is lost: every buffer reads as
    before and the log shows the one of [p]. *)
Theorem connect_to_port_opens (p : pystr) (baud : Z) (env : Env)
    (s : CommConsole) :
  isChecked (uart_connect_btn s) = false ->
  env_import env = true -> env_Serial env = None -> synced s ->
  let s' := fst (connect_to_port p baud env s) in
  let h := {| port := p; baudrate := effective_baud baud s;
              bytesize := bytesize (serial_of s);
              parity := parity (serial_of s);
              stopbits := stopbits (serial_of s);
              rtscts := rtscts (serial_of s);
              xonxoff := xonxoff (serial_of s) |} in
  snd (connect_to_port p baud env s) = true /\
  _serial s' = Some h /\ trace s' = trace s ++ [Opened h] /\
  _poll s' = true /\
  uart_connect_btn s' = {| isChecked := true; text := lit "Disconnect" |} /\
  currentText (uart_port_combo s') = p /\ _current_port s' = p /\
  log s' = logs_get p s /\ (forall k, logs_get k s' = logs_get k s).
Proof.
  intros Hb Hi Ho Hs s' h. unfold s'. rewrite connect_to_port_unfold. cbn [fst snd].
  destruct (select_port_frame p s) as (Hc2 & _ & Ht2 & _ & Hb2 & _).
  destruct (select_port_controls p s) as ((C1 & C2 & C3 & C4 & C5) & _).
  pose proof (select_port_keeps_text p s Hs) as Hk2.
  set (s2 := select_port p s) in *.
  set (s3 := uart_baud_setCurrentText baud s2).
  assert (H3 : uart_port_combo s3 = uart_port_combo s2 /\ trace s3 = trace s2 /\
               uart_connect_btn s3 = uart_connect_btn s2 /\
               _port_logs s3 = _port_logs s2 /\
               uart_baud s3 = effective_baud baud s /\
               uart_databits s3 = uart_databits s2 /\
               uart_parity s3 = uart_parity s2 /\ uart_stop s3 = uart_stop s2 /\
               uart_flow s3 = uart_flow s2).
  { unfold s3, uart_baud_setCurrentText, effective_baud.
    destruct (existsb (Z.eqb baud) baud_items); cbn; repeat split; exact C1. }
  destruct H3 as (Hc3 & Ht3 & Hb3 & Hl3 & Hbaud & D2 & D3 & D4 & D5).
  unfold setChecked_True, _on_uart_connect_toggle. rewrite Hb3, Hb2, Hb.
  set (s3' := set_connect_btn _ s3).
  destruct (toggle_on_opened env s3' Hi Ho)
    as (G1 & G2 & G3 & G4 & G5 & G6 & G7 & _ & G9 & _).
  cbv zeta in *.
  assert (Hh : serial_of s3' = h).
  { unfold serial_of, h. cbn [uart_port_combo uart_baud uart_databits uart_parity
      uart_stop uart_flow set_connect_btn s3'].
    rewrite Hc3, Hc2, Hbaud, D2, D3, D4, D5, C2, C3, C4, C5. reflexivity. }
  assert (Hp : currentText (uart_port_combo s3') = p).
  { cbn [uart_port_combo set_connect_btn s3']. rewrite Hc3. exact Hc2. }
  rewrite G1, G2, G3, G4, G5, G6, G9, Hh, Hp.
  assert (Hget : forall k, logs_get k s3' = logs_get k s).
  { intros k. unfold logs_get. cbn [_port_logs set_connect_btn s3'].
    rewrite Hl3. apply Hk2. }
  split; [reflexivity|]. split; [reflexivity|].
  split; [cbn [trace set_connect_btn s3']; rewrite Ht3, Ht2; reflexivity|].
  split; [reflexivity|]. split; [reflexivity|]. split; [reflexivity|].
  split; [reflexivity|]. split; [apply Hget|].
  intros k. rewrite G7. apply Hget.
Qed.

Lemma connect_to_port_opens_witness :
  synced fresh /\
  _serial (fst (connect_to_port (lit "COM10") 300 quiet fresh))
  = Some {| port := lit "COM10"; baudrate := 115200; bytesize := EIGHTBITS;
            parity := PARITY_NONE; stopbits := STOPBITS_ONE;
            rtscts := false; xonxoff := false |}.
Proof.
  assert (Hs : synced fresh) by (split; vm_compute; reflexivity).
  split; [exact Hs|].
  exact (proj1 (proj2 (connect_to_port_opens (lit "COM10") 300 quiet fresh
                         eq_refl eq_refl eq_refl Hs))).
Defined.

Lemma setChecked_False_idle (cl : option PyExn) (s : CommConsole) :
  _serial s = None -> isChecked (uart_connect_btn s) = true ->
  setChecked_False cl s
  = setText (lit "Connect")
      (set_poll false
         (set_connect_btn
            {| isChecked := false; text := text (uart_connect_btn s) |} s)).
Proof.
  intros Hs Hb. unfold setChecked_False, toggle_off. rewrite Hb.
  rewrite close_serial_idle by exact Hs. reflexivity.
Qed.

(** X11: on a widget that is not connected, when [serial.Serial(...)]
    raises, [connect_to_port(p, baud)] returns [False]; the widget stays
    disconnected with the poll timer stopped and the button unchecked and
    reading Connect; exactly one box is shown, the critical "Open Port
    Failed" box with the text made from the error; nothing is opened. *)
Theorem connect_to_port_open_fails (p : pystr) (baud : Z) (env : Env)
    (s : CommConsole) (e : PyExn) :
  isChecked (uart_connect_btn s) = false -> _serial s = None ->
  env_import env = true -> env_Serial env = Some e ->
  exn_class e <> ImportError ->
  let s' := fst (connect_to_port p baud env s) in
  snd (connect_to_port p baud env s) = false /\
  _serial s' = None /\ _poll s' = false /\
  uart_connect_btn s' = {| isChecked := false; text := lit "Connect" |} /\
  trace s' = trace s ++
    [MessageBox Critical (lit "Open Port Failed") (open_failed_text p e)] /\
  currentText (uart_port_combo s') = p.
Proof.
  intros Hb Hser Hi Ho Hcls s'. unfold s'. rewrite connect_to_port_unfold.
  cbn [fst snd].
  destruct (select_port_frame p s) as (Hc2 & Hs2 & Ht2 & _ & Hb2 & _).
  set (s2 := select_port p s) in *.
  set (s3 := uart_baud_setCurrentText baud s2).
  assert (H3 : uart_port_combo s3 = uart_port_combo s2 /\ trace s3 = trace s2 /\
               uart_connect_btn s3 = uart_connect_btn s2 /\
               _serial s3 = _serial s2).
  { unfold s3, uart_baud_setCurrentText.
    destruct (existsb (Z.eqb baud) baud_items); cbn; repeat split. }
  destruct H3 as (Hc3 & Ht3 & Hb3 & Hs3).
  unfold setChecked_True, _on_uart_connect_toggle. rewrite Hb3, Hb2, Hb.
  set (s3' := set_connect_btn _ s3).
  destruct (toggle_on_failed env s3') as (t & b & -> & Htb); [right; eauto|].
  destruct (Htb Hi e Ho Hcls) as [-> ->].
  rewrite setChecked_False_idle;
    [|cbn [_serial message_box emit set_connect_btn s3']; congruence | reflexivity].
  cbn [_serial _poll uart_connect_btn trace uart_port_combo setText set_poll
    set_connect_btn message_box emit isChecked text s3'].
  rewrite Hs3, Hs2, Hser, Ht3, Ht2, Hc3, Hc2. repeat split.
Qed.

Lemma connect_to_port_open_fails_witness :
  snd (connect_to_port (lit "COM9") 115200
         (open_fails {| exn_class := PermissionError;
                        exn_str := lit "Access is denied." |}) fresh) = false.
Proof.
  refine (proj1 (connect_to_port_open_fails (lit "COM9") 115200
            (open_fails {| exn_class := PermissionError;
                           exn_str := lit "Access is denied." |}) fresh
            {| exn_class := PermissionError; exn_str := lit "Access is denied." |}
            eq_refl eq_refl eq_refl eq_refl _)).
  discriminate.
Defined.

(** X12: whatever the error, the text of the "Open Port Failed" box ends
    with [str(e)]: the detail of the error is never dropped.  A
    [PermissionError] always gets the text naming the port as busy. *)
Theorem open_failed_text_keeps_detail (p : pystr) (e : PyExn) :
  (exists pre, open_failed_text p e = pre ++ exn_str e) /\
  (exn_class e = PermissionError ->
   open_failed_text p e
   = lit "Port " ++ p ++
     lit " is busy or access is denied. Close other apps and try again." ++
     [10; 10] ++ lit "Details: " ++ exn_str e).
Proof.
  unfold open_failed_text. split.
  - repeat match goal with
    | |- context [if ?c then _ else _] => destruct c
    end;
    first [ exists []; reflexivity
          | eexists; rewrite !app_assoc; reflexivity ].
  - intros ->. reflexivity.
Qed.

(** ** Sending from the input box *)

Lemma split_lf_nonempty (s : pystr) : split_lf s <> [].
Proof.
  induction s as [|c s IH]; simpl; [discriminate|].
  destruct (c =? 10); [discriminate|]. destruct (split_lf s); discriminate.
Qed.

Lemma split_lf_no_lf (m : pystr) : (10 ∉ m) -> split_lf m = [m].
Proof.
  induction m as [|c m IH]; intros H; [reflexivity|]. simpl.
  destruct (c =? 10) eqn:E.
  - apply Z.eqb_eq in E. subst c. exfalso. apply H. left.
  - rewrite IH; [reflexivity|]. intros Hin. apply H. right. exact Hin.
Qed.

Lemma split_lf_app (a m : pystr) :
  split_lf (a ++ 10 :: m) = split_lf a ++ split_lf m.
Proof.
  induction a as [|c a IH]; [reflexivity|]. simpl.
  destruct (c =? 10); [rewrite IH; reflexivity|].
  rewrite IH. pose proof (split_lf_nonempty a).
  destruct (split_lf a); [congruence | reflexivity].
Qed.

Lemma last_app_nonempty (l1 l2 : list pystr) :
  l2 <> [] -> List.last (l1 ++ l2) [] = List.last l2 [].
Proof.
  intros H. induction l1 as [|x l1 IH]; [reflexivity|].
  simpl. destruct (l1 ++ l2) eqn:E; [|exact IH].
  destruct l1; [simpl in E; congruence | discriminate].
Qed.

(** X13: the message [_on_send] sends is the last line of the input box,
    trailing carriage returns and line feeds aside: it never holds a line
    feed, and whatever the box holds before the last line feed is not
    sent. *)
Theorem input_message_last_line (s : CommConsole) :
  (10 ∉ input_message s) /\
  (forall a m, rstrip_by is_crlf (input s) = a ++ 10 :: m -> (10 ∉ m) ->
     input_message s = m) /\
  ((10 ∉ rstrip_by is_crlf (input s)) ->
   input_message s = rstrip_by is_crlf (input s)).
Proof.
  unfold input_message. generalize (rstrip_by is_crlf (input s)) as t. intros t.
  assert (H2 : forall a m, t = a ++ 10 :: m -> (10 ∉ m) ->
                 List.last (split_lf t) [] = m).
  { intros a m -> Hm. rewrite split_lf_app, last_app_nonempty
      by apply split_lf_nonempty.
    rewrite split_lf_no_lf by exact Hm. reflexivity. }
  assert (H3 : (10 ∉ t) -> List.last (split_lf t) [] = t).
  { intros Ht. rewrite split_lf_no_lf by exact Ht. reflexivity. }
  split; [|split; assumption].
  (* either there is no line feed, or the text splits at the last one *)
  assert (Hcases : (10 ∉ t) \/ exists a m, t = a ++ 10 :: m /\ (10 ∉ m)).
  { clear. induction t as [|c t IH]; [left; intros H; inversion H|].
    destruct IH as [Hno | (a & m & -> & Hm)].
    - destruct (Z.eq_dec c 10) as [-> | Hc].
      + right. exists [], t. split; [reflexivity | exact Hno].
      + left. intros H. apply elem_of_cons in H as [H | H]; [congruence | auto].
    - right. exists (c :: a), m. split; [reflexivity | exact Hm]. }
  destruct Hcases as [Hno | (a & m & Ht & Hm)].
  - rewrite (H3 Hno). exact Hno.
  - rewrite (H2 a m Ht Hm). exact Hm.
Qed.

Example input_message_drops_lines :
  input_message (set_input (lit "ls" ++ [10] ++ lit "pwd" ++ [13; 10; 10]) fresh)
  = lit "pwd".
Proof. vm_compute. reflexivity. Qed.

(** X14: connected, with a message in the input box that can be encoded,
    when [write()] returns: [_on_send] writes the message and a line feed,
    once; appends the same to the buffer of the selected port and to no
    other; adds only the line feed to the log; empties the input box; and
    keeps the connection. *)
Theorem on_send_writes (env : Env) (s : CommConsole) (h : Serial)
    (data : pybytes) :
  _serial s = Some h -> input_message s <> [] ->
  encode (input_message s ++ [10]) = Some data -> env_write env = None ->
  let p := currentText (uart_port_combo s) in
  let s' := _on_send env s in
  trace s' = trace s ++ [Write h data false] /\
  logs_get p s' = logs_get p s ++ input_message s ++ [10] /\
  (forall k, k <> p -> _port_logs s' !! k = _port_logs s !! k) /\
  log s' = log s ++ [10] /\ input s' = [] /\
  _serial s' = Some h /\ _poll s' = _poll s.
Proof.
  intros Hs Hm He Hw p s'. unfold s', _on_send.
  destruct (input_message s) as [|c m] eqn:Em; [congruence|].
  cbn [truthy negb]. rewrite Hs, He, Hw. unfold logs_get. cbn. fold p.
  rewrite lookup_insert_eq. cbn. repeat split; try assumption.
  intros k Hk. apply lookup_insert_ne. congruence.
Qed.

Lemma on_send_writes_witness :
  trace (_on_send quiet (set_input (lit "AT") on_COM9))
  = trace (set_input (lit "AT") on_COM9) ++
    [Write serial_COM9 [x41; x54; x0a] false].
Proof.
  refine (proj1 (on_send_writes quiet (set_input (lit "AT") on_COM9)
                   serial_COM9 [x41; x54; x0a] _ _ _ eq_refl)).
  - vm_compute. reflexivity.
  - vm_compute. discriminate.
  - vm_compute. reflexivity.
Defined.

(** X15: connected, when [write()] raises: [_on_send] shows one critical
    "Serial Error" box with [str(e)] and changes nothing else: the
    connection stays open, no buffer and no log changes, and the input box
    keeps its text. *)
Theorem on_send_write_error (env : Env) (s : CommConsole) (h : Serial)
    (data : pybytes) (e : PyExn) :
  _serial s = Some h -> input_message s <> [] ->
  encode (input_message s ++ [10]) = Some data -> env_write env = Some e ->
  let s' := _on_send env s in
  trace s' = trace s ++
    [Write h data true; MessageBox Critical (lit "Serial Error") (exn_str e)] /\
  _serial s' = Some h /\ _poll s' = _poll s /\
  _port_logs s' = _port_logs s /\ log s' = log s /\ input s' = input s.
Proof.
  intros Hs Hm He Hw s'. unfold s', _on_send.
  destruct (input_message s) as [|c m] eqn:Em; [congruence|].
  cbn [truthy negb]. rewrite Hs, He, Hw. unfold message_box. cbn.
  rewrite <- app_assoc. repeat split; assumption.
Qed.

Lemma on_send_write_error_witness :
  input (_on_send write_fails (set_input (lit "AT") on_COM9)) = lit "AT".
Proof.
  refine (proj2 (proj2 (proj2 (proj2 (proj2
    (on_send_write_error write_fails (set_input (lit "AT") on_COM9)
       serial_COM9 [x41; x54; x0a] (an_error "Write timeout") _ _ _ eq_refl)))))).
  - vm_compute. reflexivity.
  - vm_compute. discriminate.
  - vm_compute. reflexivity.
Defined.

(** ** Command sequences and the log *)

Lemma send_item_synced (env : Env) (cmd : pystr) (s : CommConsole) :
  synced s -> synced (send_item env cmd s).
Proof.
  intros [Hsel Hlog]. unfold send_item.
  destruct (_serial s); [|split; assumption].
  destruct (encode (cmd ++ [10])); [|split; assumption].
  destruct (env_write env); [split; assumption|].
  unfold synced, logs_get. cbn. split; [exact Hsel|].
  rewrite Hsel, lookup_insert_eq. cbn. rewrite Hlog. unfold logs_get.
  reflexivity.
Qed.

Lemma timeout_synced (env : Env) (ts : SendTimer * CommConsole) :
  synced (snd ts) -> synced (snd (timeout env ts)).
Proof.
  intros Hs. unfold timeout, _flush_next.
  destruct (isActive (fst ts)); [|exact Hs].
  destruct (queue (fst ts)); cbn [snd].
  - destruct (on_complete (fst ts)); exact Hs.
  - apply send_item_synced. exact Hs.
Qed.

(** X16: [send_commands] echoes every command it writes into the log as
    well as into the buffer: on a widget whose log shows the current
    buffer it still does after [send_commands] and after any number of
    timeouts of its timer, whatever writes fail. *)
Theorem send_commands_keeps_log (commands : list pystr) (spacing_ms : Z)
    (cb : option nat) (env : Env) (envs : nat -> Env) (s : CommConsole) :
  synced s ->
  synced (snd (send_commands commands spacing_ms cb env s)) /\
  forall t1 n, fst (send_commands commands spacing_ms cb env s) = Some t1 ->
    synced (snd (timeouts envs n
                   (t1, snd (send_commands commands spacing_ms cb env s)))).
Proof.
  intros Hs.
  assert (H1 : synced (snd (send_commands commands spacing_ms cb env s))).
  { unfold send_commands. destruct commands as [|c cs]; cbn [snd].
    - destruct cb; exact Hs.
    - unfold _flush_next. cbn. apply send_item_synced. exact Hs. }
  split; [exact H1|]. intros t1 n _.
  generalize (snd (send_commands commands spacing_ms cb env s)) H1.
  clear. revert envs t1.
  induction n as [|n IH]; intros envs t1 s1 H1; [exact H1|].
  cbn [timeouts].
  pose proof (timeout_synced (envs O) (t1, s1) H1) as H2.
  destruct (timeout (envs O) (t1, s1)) as [t2 s2]. apply IH. exact H2.
Qed.

Lemma send_commands_keeps_log_witness :
  synced on_COM9 /\
  synced (snd (send_commands [lit "a"; lit "b"] 50 None write_fails on_COM9)).
Proof.
  assert (H : synced on_COM9) by (split; vm_compute; reflexivity).
  split; [exact H|].
  exact (proj1 (send_commands_keeps_log [lit "a"; lit "b"] 50 None write_fails
                  (fun _ => quiet) on_COM9 H)).
Defined.

(** ** The number of a COM port *)

Lemma match_COM_head (a : Z) (s : pystr) :
  a <> 67 -> match_COM (a :: s) = None.
Proof. intros H. unfold match_COM. other_letter a. Qed.

Lemma match_COM_second (b : Z) (s : pystr) :
  b <> 79 -> match_COM (67 :: b :: s) = None.
Proof. intros H. unfold match_COM. other_letter b. Qed.

Lemma match_COM_third (c : Z) (s : pystr) :
  c <> 77 -> match_COM (67 :: 79 :: c :: s) = None.
Proof. intros H. unfold match_COM. other_letter c. Qed.

(** Where the pattern matches, the text is COM, digits, and the end of
    the text or a final line feed. *)
Lemma match_COM_shape (s : pystr) (ds : pystr) :
  match_COM s = Some ds ->
  exists r, s = 67 :: 79 :: 77 :: r /\
    span_digits r = (ds, snd (span_digits r)) /\ ds <> [] /\
    (snd (span_digits r) = [] \/ snd (span_digits r) = [10]).
Proof.
  intros H.
  destruct s as [|a s]; [discriminate|].
  destruct (Z.eq_dec a 67) as [-> | Ha]; [|rewrite match_COM_head in H by exact Ha; discriminate].
  destruct s as [|b s]; [discriminate|].
  destruct (Z.eq_dec b 79) as [-> | Hb]; [|rewrite match_COM_second in H by exact Hb; discriminate].
  destruct s as [|c r]; [discriminate|].
  destruct (Z.eq_dec c 77) as [-> | Hc]; [|rewrite match_COM_third in H by exact Hc; discriminate].
  exists r. split; [reflexivity|]. unfold match_COM in H.
  destruct (span_digits r) as [d rest] eqn:E. cbn [fst snd].
  destruct d as [|d0 d]; [discriminate|]. cbn [truthy andb] in H.
  unfold str_eqb in H.
  destruct (bool_decide (rest = [])) eqn:E1.
  - injection H as <-. apply bool_decide_eq_true in E1.
    repeat split; [discriminate | left; exact E1].
  - destruct (bool_decide (rest = [10])) eqn:E2; [|discriminate].
    injection H as <-. apply bool_decide_eq_true in E2.
    repeat split; [discriminate | right; exact E2].
Qed.

Lemma span_digits_all (ds : pystr) :
  Forall (fun c => isdigit c = true) ds -> span_digits ds = (ds, []).
Proof.
  induction 1 as [|c ds Hc _ IH]; [reflexivity|]. simpl. rewrite Hc, IH. reflexivity.
Qed.

Lemma span_digits_rest (r1 : pystr) (x : Z) (tl : pystr) :
  isdigit x = false ->
  exists pre, snd (span_digits (r1 ++ x :: tl)) = pre ++ x :: tl.
Proof.
  intros Hx. induction r1 as [|c r1 [pre IH]]; simpl.
  - rewrite Hx. exists []. reflexivity.
  - destruct (isdigit c).
    + destruct (span_digits (r1 ++ x :: tl)) as [d rest]. simpl in *. eauto.
    + exists (c :: r1). reflexivity.
Qed.

(** The search finds the digits after a final COM, whatever comes before
    it. *)
Lemma re_search_COM_suffix (q ds : pystr) :
  ds <> [] -> Forall (fun c => isdigit c = true) ds ->
  re_search_COM (q ++ 67 :: 79 :: 77 :: ds) = Some ds.
Proof.
  intros Hne Hds.
  assert (Hhere : match_COM (67 :: 79 :: 77 :: ds) = Some ds).
  { unfold match_COM. rewrite (span_digits_all ds Hds).
    destruct ds; [congruence | reflexivity]. }
  induction q as [|a q IH].
  - cbn [app]. unfold re_search_COM. destruct ds; [congruence|].
    rewrite Hhere. reflexivity.
  - assert (Hnone : match_COM ((a :: q) ++ 67 :: 79 :: 77 :: ds) = None).
    { destruct (match_COM ((a :: q) ++ 67 :: 79 :: 77 :: ds)) as [d|] eqn:E;
        [|reflexivity].
      exfalso. apply match_COM_shape in E as (r & Hr & _ & _ & Hrest).
      cbn [app] in Hr. injection Hr as -> Hr.
      destruct q as [|b [|c q]]; cbn [app] in Hr; try discriminate.
      injection Hr as -> -> <-.
      destruct (span_digits_rest q 67 (79 :: 77 :: ds) eq_refl) as [pre Hpre].
      rewrite Hpre in Hrest.
      destruct Hrest as [H | H]; destruct pre as [|y [|z pre]]; discriminate. }
    change (re_search_COM ((a :: q) ++ 67 :: 79 :: 77 :: ds))
      with (match match_COM ((a :: q) ++ 67 :: 79 :: 77 :: ds) with
            | Some d => Some d
            | None => re_search_COM (q ++ 67 :: 79 :: 77 :: ds)
            end).
    rewrite Hnone. exact IH.
Qed.

Lemma upper_digits (ds : pystr) :
  Forall (fun c => isdigit c = true) ds -> upper ds = ds.
Proof.
  induction 1 as [|c ds Hc _ IH]; [reflexivity|].
  unfold upper in *. cbn [fmap list_fmap]. rewrite IH.
  unfold isdigit in Hc. unfold upper_char.
  apply andb_true_iff in Hc as [H1 H2]. apply Z.leb_le in H1, H2.
  settle_tests. reflexivity.
Qed.

(** X17: a name that ends in COM, in any mix of upper and lower case,
    followed by digits has the number those digits spell, whatever comes
    before COM: [\\.\COM12] counts as 12 and [com3] as 3. *)
Theorem com_num_of_COM_name (pre com ds : pystr) :
  upper com = lit "COM" -> ds <> [] ->
  Forall (fun c => isdigit c = true) ds ->
  _com_num (pre ++ com ++ ds) = py_int ds.
Proof.
  intros Hcom Hne Hds. unfold _com_num.
  assert (Hup : upper (pre ++ com ++ ds) = upper pre ++ 67 :: 79 :: 77 :: ds).
  { unfold upper. rewrite !fmap_app.
    change (upper_char <$> com) with (upper com).
    change (upper_char <$> ds) with (upper ds).
    rewrite Hcom, (upper_digits ds Hds). reflexivity. }
  rewrite Hup, (re_search_COM_suffix _ ds Hne Hds). reflexivity.
Qed.

Lemma com_num_of_COM_name_witness :
  _com_num ([92; 92; 46; 92] ++ lit "Com" ++ lit "12") = 12.
Proof.
  refine (com_num_of_COM_name [92; 92; 46; 92] (lit "Com") (lit "12") eq_refl _ _).
  - discriminate.
  - repeat constructor.
Defined.

Lemma re_search_COM_found (s ds : pystr) :
  re_search_COM s = Some ds -> py_in (lit "COM") s = true.
Proof.
  intros H. apply py_in_spec.
  induction s as [|a s IH].
  - cbn in H. discriminate.
  - cbn [re_search_COM] in H.
    destruct (match_COM (a :: s)) as [d|] eqn:E.
    + apply match_COM_shape in E as (r & Hr & _). exists [], r. exact Hr.
    + destruct (IH H) as (x & y & ->). exists (a :: x), y. reflexivity.
Qed.

(** X18: when no candidate has COM in its name, in any case, as with
    [/dev/ttyUSB0], every candidate counts as 1000000 and
    [find_linux_port] returns the first candidate in the order of the
    listing. *)
Theorem find_linux_port_first_listed (given : pystr) (l : list ListPortInfo)
    (s : CommConsole) :
  given <> [] ->
  (forall c, c ∈ candidates (strip given) l ->
     py_in (lit "COM") (upper c) = false) ->
  find_linux_port (Some given) (Some l) s = head (candidates (strip given) l).
Proof.
  intros Hgiven Hno. destruct given as [|g given]; [congruence|].
  unfold find_linux_port. cbv beta iota zeta.
  assert (Hkey : forall c, c ∈ candidates (strip (g :: given)) l ->
                   _com_num c = 1000000).
  { intros c Hc. unfold _com_num.
    destruct (re_search_COM (upper c)) as [d|] eqn:E; [|reflexivity].
    apply re_search_COM_found in E. rewrite (Hno c Hc) in E. discriminate. }
  destruct (candidates (strip (g :: given)) l) as [|c cs] eqn:Ec; [reflexivity|].
  destruct (head (sort_by_key _com_num (c :: cs))) as [d|] eqn:Hd.
  - apply head_sort_by_key in Hd as (l1 & l2 & Hl & H1 & _).
    destruct l1 as [|x l1].
    + cbn [app] in Hl. injection Hl as -> _. reflexivity.
    + exfalso. apply Forall_cons in H1 as [H1 _].
      assert (Hx : x ∈ c :: cs) by (rewrite Hl; left).
      assert (Hdin : d ∈ c :: cs)
        by (rewrite Hl; apply elem_of_app; right; left).
      rewrite (Hkey x Hx), (Hkey d Hdin) in H1. lia.
  - apply head_sort_by_key_None in Hd. discriminate.
Qed.

Lemma find_linux_port_first_listed_witness :
  find_linux_port (Some (lit "0403:6001"))
    (Some [ {| device := lit "/dev/ttyUSB1"; hwid := lit "USB VID:PID=0403:6001" |};
            {| device := lit "/dev/ttyUSB0"; hwid := lit "USB VID:PID=0403:6001" |} ])
    fresh
  = Some (lit "/dev/ttyUSB1").
Proof.
  refine (find_linux_port_first_listed (lit "0403:6001") _ fresh _ _).
  - discriminate.
  - intros c Hc.
    apply elem_of_cons in Hc as [-> | Hc]; [vm_compute; reflexivity|].
    apply elem_of_cons in Hc as [-> | Hc]; [vm_compute; reflexivity|].
    inversion Hc.
Defined.

(** ** Closing the port *)

Lemma setChecked_False_closes (s : CommConsole) (h : Serial) :
  _serial s = Some h -> isChecked (uart_connect_btn s) = true ->
  setChecked_False None s
  = setText (lit "Connect")
      (set_serial None
         (emit (Close h false)
            (set_poll false
               (set_connect_btn
                  {| isChecked := false; text := text (uart_connect_btn s) |} s)))).
Proof.
  intros Hs Hb. unfold setChecked_False, toggle_off, close_serial. rewrite Hb.
  cbn [_serial set_poll set_connect_btn]. rewrite Hs. reflexivity.
Qed.

(** X19: connected with the button checked, when [close()] returns,
    [disconnect_serial] closes the serial object once and drops it, stops
    the poll timer and leaves the button unchecked and reading Connect;
    buffers, log, selection and input are untouched.  After that a poll
    and another [disconnect_serial] change nothing. *)
Theorem disconnect_serial_closes (env : Env) (s : CommConsole) (h : Serial) :
  _serial s = Some h -> isChecked (uart_connect_btn s) = true ->
  env_close env = None ->
  let s' := disconnect_serial env s in
  _serial s' = None /\ _poll s' = false /\
  uart_connect_btn s' = {| isChecked := false; text := lit "Connect" |} /\
  trace s' = trace s ++ [Close h false] /\ same_buffers s s' /\
  (forall env', _poll_uart env' s' = s') /\
  (forall env', disconnect_serial env' s' = s').
Proof.
  intros Hs Hb Hcl s'. unfold s', disconnect_serial, _uart_disconnect_if_needed.
  rewrite Hb, Hcl, (setChecked_False_closes s h Hs Hb).
  unfold same_buffers, setText. cbn. repeat split.
Qed.

Lemma disconnect_serial_closes_witness :
  trace (disconnect_serial quiet on_COM9)
  = trace on_COM9 ++ [Close serial_COM9 false].
Proof.
  refine (proj1 (proj2 (proj2 (proj2
    (disconnect_serial_closes quiet on_COM9 serial_COM9 _ _ eq_refl))))).
  - vm_compute. reflexivity.
  - vm_compute. reflexivity.
Defined.

Lemma poll_uart_read_error_path (env : Env) (s : CommConsole) (h : Serial)
    (e : PyExn) :
  _serial s = Some h -> read_error env e ->
  _poll_uart env s = poll_failed e env s.
Proof.
  intros Hs Hr. unfold _poll_uart. rewrite Hs.
  destruct Hr as [-> | (n & -> & Hn & Hr)]; [reflexivity|].
  destruct (n =? 0) eqn:E; [apply Z.eqb_eq in E; contradiction|].
  destruct Hr as [-> | (n' & -> & ->)]; reflexivity.
Qed.

(** X20: connected, when asking for or reading data raises and [close()]
    returns: [_poll_uart] stops the poll timer, closes the serial object
    once and drops it, shows one warning with [str(e)], and unchecks the
    button; no buffer, log or selection changes, and later polls do
    nothing. *)
Theorem poll_uart_read_error (env : Env) (s : CommConsole) (h : Serial)
    (e : PyExn) :
  _serial s = Some h -> read_error env e -> env_close env = None ->
  let s' := _poll_uart env s in
  _serial s' = None /\ _poll s' = false /\
  isChecked (uart_connect_btn s') = false /\
  trace s' = trace s ++
    [Close h false;
     MessageBox Warning (lit "Serial Disconnected")
       (lit "Serial port error: " ++ exn_str e ++ [10] ++
        lit "The connection has been closed.")] /\
  same_buffers s s' /\
  (forall env', _poll_uart env' s' = s').
Proof.
  intros Hs Hr Hcl s'. unfold s'.
  rewrite (poll_uart_read_error_path env s h e Hs Hr).
  unfold poll_failed, close_serial, message_box.
  cbn [_serial set_poll]. rewrite Hs, Hcl.
  set (box := MessageBox _ _ _).
  set (s3 := emit box (set_serial None (emit (Close h false) (set_poll false s)))).
  assert (H3 : _serial s3 = None) by reflexivity.
  assert (Hres : setChecked_False (env_close' env) s3
                 = if isChecked (uart_connect_btn s)
                   then setText (lit "Connect")
                          (set_poll false
                             (set_connect_btn
                                {| isChecked := false;
                                   text := text (uart_connect_btn s) |} s3))
                   else s3).
  { destruct (isChecked (uart_connect_btn s)) eqn:Hb.
    - exact (setChecked_False_idle (env_close' env) s3 H3 Hb).
    - unfold setChecked_False. cbn [uart_connect_btn emit set_serial set_poll s3].
      rewrite Hb. reflexivity. }
  rewrite Hres. unfold same_buffers, _poll_uart.
  destruct (isChecked (uart_connect_btn s)) eqn:Hb; cbn;
    rewrite <- ?app_assoc; repeat split; assumption.
Qed.

Lemma poll_uart_read_error_witness :
  _serial (_poll_uart (read_fails (an_error "device disconnected")) on_COM9)
  = None.
Proof.
  refine (proj1 (poll_uart_read_error
            (read_fails (an_error "device disconnected")) on_COM9 serial_COM9
            (an_error "device disconnected") _ _ eq_refl)).
  - vm_compute. reflexivity.
  - right. exists 4. split; [reflexivity|]. split; [discriminate|].
    right. exists 4. split; reflexivity.
Defined.

(** ** Switching protocol *)

Lemma _reset_uart_controls_keeps (s : CommConsole) :
  let s' := _reset_uart_controls false s in
  default_controls s' /\ same_buffers s s' /\ _serial s' = _serial s /\
  _poll s' = _poll s /\ uart_connect_btn s' = uart_connect_btn s /\
  trace s' = trace s.
Proof.
  unfold _reset_uart_controls, uart_baud_setCurrentText, default_controls,
    same_buffers.
  cbn. repeat split.
Qed.

(** X21: switching the protocol combo away from UART (index not 0), when
    [close()] returns: the widget ends disconnected with the poll timer
    stopped and the button unchecked, the log and the input box are
    emptied and the UART controls are back at their defaults; the port
    list, the current port and every buffer are kept. *)
Theorem on_proto_changed_away (idx : Z) (env : Env)
    (comports : option (list ListPortInfo)) (s : CommConsole) :
  idx <> 0 -> env_close env = None ->
  (isChecked (uart_connect_btn s) = false -> _serial s = None /\ _poll s = false) ->
  let s' := snd (_on_proto_changed idx env comports s) in
  fst (_on_proto_changed idx env comports s) = idx /\
  _serial s' = None /\ _poll s' = false /\
  isChecked (uart_connect_btn s') = false /\
  log s' = [] /\ input s' = [] /\ default_controls s' /\
  uart_port_combo s' = uart_port_combo s /\ _port_logs s' = _port_logs s /\
  _current_port s' = _current_port s.
Proof.
  intros Hidx Hcl Hinv s'. unfold s', _on_proto_changed. cbn [fst snd].
  destruct (idx =? 0) eqn:E; [apply Z.eqb_eq in E; contradiction|]. cbn [negb].
  set (s2 := set_input [] (set_log [] s)).
  set (s3 := _uart_disconnect_if_needed env s2).
  destruct (_reset_uart_controls_keeps s3)
    as (Hd & (B1 & B2 & B3 & B4 & B5) & Hs & Hp & Hb & _).
  cbv zeta in *. rewrite Hs, Hp, Hb, B1, B2, B3, B4, B5.
  assert (H3 : _serial s3 = None /\ _poll s3 = false /\
               isChecked (uart_connect_btn s3) = false /\ same_buffers s2 s3).
  { unfold s3, _uart_disconnect_if_needed. rewrite Hcl.
    destruct (isChecked (uart_connect_btn s2)) eqn:Hchk.
    - destruct (setChecked_False_frame None s2) as (Hsame & Hun & _).
      split; [apply setChecked_False_returns; exact Hchk|].
      split; [|split; [exact Hun | exact Hsame]].
      unfold setChecked_False. rewrite Hchk. apply toggle_off_frame.
    - destruct (Hinv Hchk) as [H1 H2].
      repeat split; assumption. }
  destruct H3 as (G1 & G2 & G3 & (G4 & G5 & G6 & G7 & G8)).
  rewrite G1, G2, G3, G4, G5, G6, G7, G8. repeat split; apply Hd.
Qed.

Lemma on_proto_changed_away_witness :
  _serial (snd (_on_proto_changed 1 quiet None on_COM9)) = None.
Proof.
  refine (proj1 (proj2 (on_proto_changed_away 1 quiet None on_COM9 _ eq_refl _))).
  - discriminate.
  - intros H. vm_compute in H. discriminate.
Defined.

Lemma refresh_ports_controls (comports : option (list ListPortInfo))
    (s : CommConsole) :
  same_controls s (refresh_ports comports s) /\
  input (refresh_ports comports s) = input s.
Proof.
  unfold refresh_ports, uart_port_combo_addItems, uart_port_combo_clear.
  destruct (port_combo_becomes_controls {| items := []; currentIndex := -1 |} s)
    as ((A1 & A2 & A3 & A4 & A5) & A6).
  set (s1 := port_combo_becomes _ s) in *.
  destruct comports as [l|];
    match goal with
    | |- context [port_combo_becomes ?c s1] =>
        destruct (port_combo_becomes_controls c s1)
          as ((B1 & B2 & B3 & B4 & B5) & B6)
    end;
    unfold same_controls;
    rewrite B1, B2, B3, B4, B5, B6, A1, A2, A3, A4, A5, A6; repeat split.
Qed.

(** [_on_port_changed] for the port that is current already keeps the log
    and every buffer text. *)
Lemma _on_port_changed_current (s : CommConsole) :
  synced s ->
  let s' := _on_port_changed (currentText (uart_port_combo s)) s in
  synced s' /\ (forall k, logs_get k s' = logs_get k s) /\
  uart_port_combo s' = uart_port_combo s /\ _serial s' = _serial s /\
  trace s' = trace s /\ _poll s' = _poll s /\ input s' = input s /\
  same_controls s s'.
Proof.
  intros [Hsel Hlog]. unfold _on_port_changed.
  assert (Hget : forall k,
    default [] ((if truthy (_current_port s)
                 then <[_current_port s := log s]> (_port_logs s)
                 else _port_logs s) !! k) = logs_get k s).
  { intros k. destruct (truthy (_current_port s)); [|reflexivity].
    rewrite lookup_insert. destruct (decide (_current_port s = k)) as [<- | _];
      [exact Hlog | reflexivity]. }
  unfold synced, same_controls, logs_get.
  destruct (truthy (_current_port s)) eqn:T; cbn; rewrite ?T in Hget;
    repeat split; try (intros k; apply Hget); try reflexivity;
    try (rewrite Hsel; apply Hget).
Qed.

(** X22: switching the protocol combo back to UART (index 0) empties the
    log before the port list is rebuilt, so when a port was selected and
    current its buffer is stored empty: that buffer's text is lost, while
    every other buffer reads as before.  Afterwards the port combo holds
    what [refresh_ports] found with the first entry selected, the log
    shows the buffer of that port, the input box is empty and the controls
    are at their defaults; the connection is not touched. *)
Theorem on_proto_changed_to_uart (env : Env)
    (comports : option (list ListPortInfo)) (s : CommConsole) :
  currentText (uart_port_combo s) <> [] -> _current_port s <> [] ->
  let s' := snd (_on_proto_changed 0 env comports s) in
  logs_get (_current_port s) s' = [] /\
  (forall k, k <> _current_port s -> logs_get k s' = logs_get k s) /\
  uart_port_combo s' = {| items := listed comports; currentIndex := 0 |} /\
  synced s' /\ input s' = [] /\ default_controls s' /\
  _serial s' = _serial s /\ trace s' = trace s.
Proof.
  intros Htext Hcur s'. unfold s', _on_proto_changed. cbn [fst snd].
  change (0 =? 0) with true. cbn [negb].
  set (s2 := set_input [] (set_log [] s)).
  (* clearing the combo fires the slot, which stores the empty log *)
  set (sA := uart_port_combo_clear s2).
  assert (HA : synced sA /\ logs_get (_current_port s) sA = [] /\
               (forall k, k <> _current_port s -> logs_get k sA = logs_get k s) /\
               _serial sA = _serial s /\ trace sA = trace s /\ input sA = []).
  { unfold sA, uart_port_combo_clear.
    destruct (port_combo_becomes_frame {| items := []; currentIndex := -1 |} s2)
      as (Hc & Hs & Ht & _ & _ & _ & _ & Hfire).
    destruct (port_combo_becomes_controls {| items := []; currentIndex := -1 |} s2)
      as (_ & Hin).
    cbv zeta in *.
    destruct Hfire as (F1 & F2 & F3).
    { cbn. intros E. apply Htext. symmetry. exact E. }
    cbn [_current_port log _port_logs set_input set_log s2] in F3.
    assert (T : truthy (_current_port s) = true)
      by (destruct (_current_port s); [congruence | reflexivity]).
    rewrite T in F3.
    split; [unfold synced; rewrite Hc, F1; split; [reflexivity | exact F2]|].
    split; [unfold logs_get; rewrite F3, lookup_insert_eq; reflexivity|].
    split; [intros k Hk; unfold logs_get; rewrite F3, lookup_insert_ne by congruence;
            reflexivity|].
    split; [rewrite Hs; reflexivity|]. split; [rewrite Ht; reflexivity|].
    rewrite Hin. reflexivity. }
  destruct HA as (SA & GA & OA & SerA & TrA & InA).
  set (s3 := _reset_uart_controls true s2).
  assert (H3 : synced s3 /\ (forall k, logs_get k s3 = logs_get k sA) /\
               default_controls s3 /\ _serial s3 = _serial sA /\
               trace s3 = trace sA /\ input s3 = input sA).
  { unfold s3, _reset_uart_controls, uart_baud_setCurrentText, default_controls.
    fold sA. cbn. repeat split; apply SA. }
  destruct H3 as (S3 & G3 & D3 & Ser3 & Tr3 & In3).
  pose proof (refresh_ports_synced comports s3 S3) as S4.
  assert (G4 : forall k, logs_get k (refresh_ports comports s3) = logs_get k s3)
    by (intros k; apply refresh_ports_text; exact S3).
  destruct (refresh_ports_combo comports s3) as (C4 & Ser4 & _ & Tr4).
  pose proof (refresh_ports_controls comports s3) as K4.
  set (s4 := refresh_ports comports s3) in *.
  destruct (_on_port_changed_current s4 S4)
    as (S5 & G5 & C5 & Ser5 & Tr5 & _ & In5 & (E1 & E2 & E3 & E4 & E5)).
  cbv zeta in *.
  destruct K4 as ((K1 & K2 & K3 & K4 & K5) & Kin).
  destruct D3 as (D1 & D2 & D3 & D4 & D5).
  split; [rewrite G5, G4, G3; exact GA|].
  split; [intros k Hk; rewrite G5, G4, G3; apply OA; exact Hk|].
  split; [rewrite C5; exact C4|]. split; [exact S5|].
  split; [rewrite In5, Kin, In3; exact InA|].
  split; [unfold default_controls; rewrite E1, E2, E3, E4, E5, K1, K2, K3, K4, K5;
          repeat split; assumption|].
  split; [rewrite Ser5, Ser4, Ser3; exact SerA|].
  rewrite Tr5, Tr4, Tr3. exact TrA.
Qed.

Lemma on_proto_changed_to_uart_witness :
  logs_get (lit "COM9")
    (snd (_on_proto_changed 0 quiet (Some two_adapters)
            (_poll_uart (incoming OK_CRLF) on_COM9))) = [].
Proof.
  refine (proj1 (on_proto_changed_to_uart quiet (Some two_adapters)
                   (_poll_uart (incoming OK_CRLF) on_COM9) _ _));
    vm_compute; discriminate.
Defined.

Example _on_proto_changed_loses_text :
  logs_get (lit "COM9") (_poll_uart (incoming OK_CRLF) on_COM9)
    = lit "OK" ++ [13; 10] /\
  logs_get (lit "COM9")
    (snd (_on_proto_changed 0 quiet (Some two_adapters)
            (snd (_on_proto_changed 1 quiet (Some two_adapters)
                    (_poll_uart (incoming OK_CRLF) on_COM9))))) = [].
Proof. vm_compute. split; reflexivity. Qed.

(** * Decoding with a placeholder, in full *)

Lemma bz_inj (a b : byte) : bz a = bz b -> a = b.
Proof.
  unfold bz. intros H. apply N2Z.inj in H.
  pose proof (Byte.of_to_N a) as Ha. rewrite H, Byte.of_to_N in Ha.
  congruence.
Qed.

Lemma byte_of_Z_bz (b : byte) : byte_of_Z (bz b) = b.
Proof.
  apply bz_inj. apply bz_byte_of_Z. apply bz_range.
Qed.

(** ** From the bytes of the decoder back to the encoder *)

Lemma encode_char_1 (b0 : byte) :
  bz b0 < 128 -> encode_char (bz b0) = Some [b0].
Proof.
  intros H. pose proof (bz_range b0). unfold encode_char. settle_tests.
  rewrite byte_of_Z_bz. reflexivity.
Qed.

Lemma encode_char_2 (b0 b1 : byte) :
  194 <= bz b0 < 224 -> is_continuation (bz b1) = true ->
  encode_char (cp2 (bz b0) (bz b1)) = Some [b0; b1].
Proof.
  intros H0 H1. unfold is_continuation in H1. tests_to_props.
  pose proof (cp2_sum (bz b0) (bz b1)) as Hc.
  set (c := cp2 (bz b0) (bz b1)) in *.
  assert (R : 128 <= c < 2048) by (Z.div_mod_to_equations; lia).
  unfold encode_char. settle_tests. f_equal.
  assert (B0 : bz (byte_of_Z (Z.lor 192 (Z.shiftr c 6))) = 192 + c / 64).
  { rewrite (shiftr_div c 6 64) by (lia || reflexivity).
    apply (lead_byte 192 3 6 64); try (reflexivity || lia);
      Z.div_mod_to_equations; lia. }
  pose proof (trail_byte c) as B1.
  f_equal; [|f_equal]; apply bz_inj.
  - rewrite B0. Z.div_mod_to_equations. lia.
  - rewrite B1. Z.div_mod_to_equations. lia.
Qed.

Lemma encode_char_3 (b0 b1 b2 : byte) :
  224 <= bz b0 < 240 -> second_of_3 (bz b0) (bz b1) = true ->
  is_continuation (bz b2) = true ->
  encode_char (cp3 (bz b0) (bz b1) (bz b2)) = Some [b0; b1; b2].
Proof.
  intros H0 H1 H2. unfold second_of_3, is_continuation in H1, H2.
  pose proof (cp3_sum (bz b0) (bz b1) (bz b2)) as Hc.
  set (c := cp3 (bz b0) (bz b1) (bz b2)) in *.
  assert (R : 2048 <= c < 65536 /\ ~ (55296 <= c <= 57343))
    by (tests_to_props; Z.div_mod_to_equations; lia).
  assert (T : 128 <= bz b1 < 192 /\ 128 <= bz b2 < 192) by (tests_to_props; lia).
  clear H1 H2.
  assert (E : (55296 <=? c) && (c <=? 57343) = false).
  { destruct (Z.lt_ge_cases c 55296); [|destruct (Z.lt_ge_cases 57343 c)];
      settle_tests; try reflexivity; lia. }
  unfold encode_char. rewrite E. settle_tests. f_equal.
  assert (B0 : bz (byte_of_Z (Z.lor 224 (Z.shiftr c 12))) = 224 + c / 4096).
  { rewrite (shiftr_div c 12 4096) by (lia || reflexivity).
    apply (lead_byte 224 14 4 16); try (reflexivity || lia);
      Z.div_mod_to_equations; lia. }
  assert (B1 : bz (byte_of_Z (Z.lor 128 (Z.land (Z.shiftr c 6) 63)))
               = 128 + (c / 64) mod 64).
  { rewrite trail_byte, (shiftr_div c 6 64) by (lia || reflexivity). reflexivity. }
  pose proof (trail_byte c) as B2.
  f_equal; [|f_equal; [|f_equal]]; apply bz_inj.
  - rewrite B0. Z.div_mod_to_equations. lia.
  - rewrite B1. Z.div_mod_to_equations. lia.
  - rewrite B2. Z.div_mod_to_equations. lia.
Qed.

Lemma encode_char_4 (b0 b1 b2 b3 : byte) :
  240 <= bz b0 < 245 -> second_of_4 (bz b0) (bz b1) = true ->
  is_continuation (bz b2) = true -> is_continuation (bz b3) = true ->
  encode_char (cp4 (bz b0) (bz b1) (bz b2) (bz b3)) = Some [b0; b1; b2; b3].
Proof.
  intros H0 H1 H2 H3. unfold second_of_4, is_continuation in H1, H2, H3.
  pose proof (cp4_sum (bz b0) (bz b1) (bz b2) (bz b3)) as Hc.
  set (c := cp4 (bz b0) (bz b1) (bz b2) (bz b3)) in *.
  assert (R : 65536 <= c < 1114112)
    by (tests_to_props; Z.div_mod_to_equations; lia).
  assert (T : 128 <= bz b1 < 192 /\ 128 <= bz b2 < 192 /\ 128 <= bz b3 < 192)
    by (tests_to_props; lia).
  clear H1 H2 H3.
  assert (E : (55296 <=? c) && (c <=? 57343) = false)
    by (apply andb_false_iff; right; apply Z.leb_gt; lia).
  unfold encode_char. rewrite E. settle_tests. f_equal.
  assert (B0 : bz (byte_of_Z (Z.lor 240 (Z.shiftr c 18))) = 240 + c / 262144).
  { rewrite (shiftr_div c 18 262144) by (lia || reflexivity).
    apply (lead_byte 240 30 3 8); try (reflexivity || lia);
      Z.div_mod_to_equations; lia. }
  assert (B1 : bz (byte_of_Z (Z.lor 128 (Z.land (Z.shiftr c 12) 63)))
               = 128 + (c / 4096) mod 64).
  { rewrite trail_byte, (shiftr_div c 12 4096) by (lia || reflexivity). reflexivity. }
  assert (B2 : bz (byte_of_Z (Z.lor 128 (Z.land (Z.shiftr c 6) 63)))
               = 128 + (c / 64) mod 64).
  { rewrite trail_byte, (shiftr_div c 6 64) by (lia || reflexivity). reflexivity. }
  pose proof (trail_byte c) as B3.
  f_equal; [|f_equal; [|f_equal; [|f_equal]]]; apply bz_inj.
  - rewrite B0. Z.div_mod_to_equations. lia.
  - rewrite B1. Z.div_mod_to_equations. lia.
  - rewrite B2. Z.div_mod_to_equations. lia.
  - rewrite B3. Z.div_mod_to_equations. lia.
Qed.

(** ** From the encoder to the tests of the decoder *)

(** A chunk that strictly decodes to one code point is a well-formed
    sequence for it. *)
Lemma decode_strict_one (enc : pybytes) (c : Z) :
  (0 < length enc <= 4)%nat -> decode_strict enc = Some [c] -> well_formed enc c.
Proof.
  intros Hlen H.
  destruct enc as [|b0 [|b1 [|b2 [|b3 [|b4 r]]]]]; simpl in Hlen; try lia;
    clear Hlen; pose proof (bz_range b0); cbn [decode_strict] in H;
    unfold well_formed;
    repeat match goal with
    | H : context [if ?c then _ else _] |- _ => destruct c eqn:?
    | H : None = Some _ |- _ => discriminate H
    | H : context [_ <$> Some _] |- _ =>
        progress cbn [fmap option_fmap option_map] in H
    | H : context [_ <$> None] |- _ =>
        progress cbn [fmap option_fmap option_map] in H
    | H : Some _ = Some _ |- _ => injection H as H
    | H : _ :: _ = [_] |- _ => injection H as H
    | H : _ && _ = true |- _ => apply andb_true_iff in H as [? ?]
    | H : [] = _ :: _ |- _ => discriminate H
    | H : _ :: _ = [] |- _ => discriminate H
    end;
    repeat split; try congruence;
    repeat match goal with
    | H : (_ <? _) = true |- _ => apply Z.ltb_lt in H
    | H : (_ <? _) = false |- _ => apply Z.ltb_ge in H
    end; try lia.
Qed.

Lemma encode_char_length (c : Z) (enc : pybytes) :
  encode_char c = Some enc -> (0 < length enc <= 4)%nat.
Proof.
  unfold encode_char. intros H.
  repeat match goal with
  | H : context [if ?c then _ else _] |- _ => destruct c
  end; try discriminate H; injection H as <-; simpl; lia.
Qed.

Lemma encode_char_inv (c : Z) (enc : pybytes) :
  encode_char c = Some enc -> well_formed enc c.
Proof.
  intros H. apply decode_strict_one; [eapply encode_char_length; exact H|].
  pose proof (decode_strict_encode_char c enc [] H) as Hd.
  rewrite app_nil_r in Hd. exact Hd.
Qed.

Lemma well_formed_encode (enc : pybytes) (c : Z) :
  well_formed enc c -> encode_char c = Some enc.
Proof.
  destruct enc as [|b0 [|b1 [|b2 [|b3 [|b4 r]]]]]; simpl; try tauto.
  - intros [H ->]. apply encode_char_1. exact H.
  - intros (H0 & H1 & ->). apply encode_char_2; assumption.
  - intros (H0 & H1 & H2 & ->). apply encode_char_3; assumption.
  - intros (H0 & H1 & H2 & H3 & ->). apply encode_char_4; assumption.
Qed.

(** ** What starts or begins a character *)

Lemma starts_char_head (b0 : byte) (r0 : pybytes) :
  starts_char (b0 :: r0) ->
  bz b0 < 128 \/
  (194 <= bz b0 < 224 /\
   exists b1 r1, r0 = b1 :: r1 /\ is_continuation (bz b1) = true) \/
  (224 <= bz b0 < 240 /\
   exists b1 b2 r2, r0 = b1 :: b2 :: r2 /\
     second_of_3 (bz b0) (bz b1) = true /\ is_continuation (bz b2) = true) \/
  (240 <= bz b0 < 245 /\
   exists b1 b2 b3 r3, r0 = b1 :: b2 :: b3 :: r3 /\
     second_of_4 (bz b0) (bz b1) = true /\ is_continuation (bz b2) = true /\
     is_continuation (bz b3) = true).
Proof.
  intros (c & enc & rest & Henc & Hd). apply encode_char_inv in Henc.
  destruct enc as [|e0 [|e1 [|e2 [|e3 [|e4 r]]]]]; simpl in Henc; try tauto;
    simplify_eq/=.
  - left. tauto.
  - right. left. destruct Henc as (? & ? & _). eauto 10.
  - right. right. left. destruct Henc as (? & ? & ? & _). eauto 10.
  - right. right. right. destruct Henc as (? & ? & ? & ? & _). eauto 12.
Qed.

Lemma begins_char_prefix (bs bs' : pybytes) :
  bs `prefix_of` bs' -> begins_char bs' -> begins_char bs.
Proof.
  intros Hp (c & enc & Henc & Hp'). exists c, enc. split; [exact Henc|].
  etrans; eassumption.
Qed.

Lemma begins_char_2 (b0 b1 : byte) :
  begins_char [b0; b1] ->
  (194 <= bz b0 < 224 /\ is_continuation (bz b1) = true) \/
  (224 <= bz b0 < 240 /\ second_of_3 (bz b0) (bz b1) = true) \/
  (240 <= bz b0 < 245 /\ second_of_4 (bz b0) (bz b1) = true).
Proof.
  intros (c & enc & Henc & [k Hk]). apply encode_char_inv in Henc.
  destruct enc as [|e0 [|e1 [|e2 [|e3 [|e4 r]]]]]; simpl in Henc; try tauto;
    simplify_eq/=; tauto.
Qed.

Lemma begins_char_3 (b0 b1 b2 : byte) :
  begins_char [b0; b1; b2] -> is_continuation (bz b2) = true.
Proof.
  intros (c & enc & Henc & [k Hk]). apply encode_char_inv in Henc.
  destruct enc as [|e0 [|e1 [|e2 [|e3 [|e4 r]]]]]; simpl in Henc; try tauto;
    simplify_eq/=; tauto.
Qed.

Lemma begins_char_4 (b0 b1 b2 b3 : byte) :
  begins_char [b0; b1; b2; b3] -> is_continuation (bz b3) = true.
Proof.
  intros (c & enc & Henc & [k Hk]). apply encode_char_inv in Henc.
  destruct enc as [|e0 [|e1 [|e2 [|e3 [|e4 r]]]]]; simpl in Henc; try tauto;
    simplify_eq/=; tauto.
Qed.

(** Sequences cut short still begin a character. *)
Lemma begins_char_3_2 (b0 b1 : byte) :
  224 <= bz b0 < 240 -> second_of_3 (bz b0) (bz b1) = true ->
  begins_char [b0; b1].
Proof.
  intros H0 H1. exists (cp3 (bz b0) (bz b1) (bz x80)), [b0; b1; x80].
  split; [apply encode_char_3; (assumption || reflexivity)|].
  exists [x80]. reflexivity.
Qed.

Lemma begins_char_4_2 (b0 b1 : byte) :
  240 <= bz b0 < 245 -> second_of_4 (bz b0) (bz b1) = true ->
  begins_char [b0; b1].
Proof.
  intros H0 H1.
  exists (cp4 (bz b0) (bz b1) (bz x80) (bz x80)), [b0; b1; x80; x80].
  split; [apply encode_char_4; (assumption || reflexivity)|].
  exists [x80; x80]. reflexivity.
Qed.

Lemma begins_char_4_3 (b0 b1 b2 : byte) :
  240 <= bz b0 < 245 -> second_of_4 (bz b0) (bz b1) = true ->
  is_continuation (bz b2) = true -> begins_char [b0; b1; b2].
Proof.
  intros H0 H1 H2.
  exists (cp4 (bz b0) (bz b1) (bz b2) (bz x80)), [b0; b1; b2; x80].
  split; [apply encode_char_4; (assumption || reflexivity)|].
  exists [x80]. reflexivity.
Qed.

(** ** One step of the decoder *)

(** Settles a goal whose hypotheses contradict the tests the decoder
    made. *)
Ltac clash :=
  repeat match goal with
  | H : _ \/ _ |- _ => destruct H
  | H : _ /\ _ |- _ => destruct H
  | H : exists _, _ |- _ => destruct H
  end; simplify_eq; first [lia | congruence].

(** One byte that begins no character with what follows it. *)
Ltac lone_byte b0 r0 :=
  right; exists [b0], r0; split; [reflexivity|];
  split; [|split; [simpl; lia | reflexivity]];
  split; [discriminate|];
  split; [intros Hs; apply starts_char_head in Hs; clash|];
  split; [left; reflexivity|];
  intros b rest' Hr Hb; simplify_eq; apply begins_char_2 in Hb; clash.

(** The decoder either takes the UTF-8 form of a character off the data
    and gives that character, or takes bytes that cannot be decoded and
    gives the placeholder. *)
Lemma decode_replace_step (b0 : byte) (r0 : pybytes) :
  (exists c enc rest, b0 :: r0 = enc ++ rest /\ encode_char c = Some enc /\
     (length rest <= length r0)%nat /\
     decode_replace (b0 :: r0) = c :: decode_replace rest) \/
  (exists bad rest, b0 :: r0 = bad ++ rest /\ undecodable bad rest /\
     (length rest <= length r0)%nat /\
     decode_replace (b0 :: r0) = REPLACEMENT :: decode_replace rest).
Proof.
  pose proof (bz_range b0) as R0. cbn [decode_replace].
  destruct (bz b0 <? 128) eqn:E0.
  { left. exists (bz b0), [b0], r0. tests_to_props.
    split; [reflexivity|]. split; [apply encode_char_1; exact E0|].
    split; [lia | reflexivity]. }
  destruct (bz b0 <? 194) eqn:E1; [tests_to_props; lone_byte b0 r0|].
  destruct (bz b0 <? 224) eqn:E2.
  { tests_to_props. destruct r0 as [|b1 r1]; [lone_byte b0 (@nil byte)|].
    destruct (is_continuation (bz b1)) eqn:C1; [|lone_byte b0 (b1 :: r1)].
    left. exists (cp2 (bz b0) (bz b1)), [b0; b1], r1.
    split; [reflexivity|]. split; [apply encode_char_2; [lia | exact C1]|].
    split; [simpl; lia | reflexivity]. }
  destruct (bz b0 <? 240) eqn:E3.
  { tests_to_props. destruct r0 as [|b1 r1]; [lone_byte b0 (@nil byte)|].
    destruct (second_of_3 (bz b0) (bz b1)) eqn:C1; [|lone_byte b0 (b1 :: r1)].
    assert (Hb : begins_char [b0; b1]) by (apply begins_char_3_2; [lia | exact C1]).
    destruct r1 as [|b2 r2].
    { right. exists [b0; b1], []. split; [reflexivity|].
      split; [|split; [simpl; lia | reflexivity]].
      split; [discriminate|].
      split; [intros Hs; apply starts_char_head in Hs; clash|].
      split; [right; exact Hb|]. intros b rest' Hr. discriminate Hr. }
    destruct (is_continuation (bz b2)) eqn:C2.
    { left. exists (cp3 (bz b0) (bz b1) (bz b2)), [b0; b1; b2], r2.
      split; [reflexivity|].
      split; [apply encode_char_3; [lia | exact C1 | exact C2]|].
      split; [simpl; lia | reflexivity]. }
    right. exists [b0; b1], (b2 :: r2). split; [reflexivity|].
    split; [|split; [simpl; lia | reflexivity]].
    split; [discriminate|].
    split; [intros Hs; apply starts_char_head in Hs; clash|].
    split; [right; exact Hb|].
    intros b rest' Hr Hb3. simplify_eq. apply begins_char_3 in Hb3. congruence. }
  destruct (bz b0 <? 245) eqn:E4; [|tests_to_props; lone_byte b0 r0].
  tests_to_props. destruct r0 as [|b1 r1]; [lone_byte b0 (@nil byte)|].
  destruct (second_of_4 (bz b0) (bz b1)) eqn:C1; [|lone_byte b0 (b1 :: r1)].
  assert (Hb : begins_char [b0; b1]) by (apply begins_char_4_2; [lia | exact C1]).
  destruct r1 as [|b2 r2].
  { right. exists [b0; b1], []. split; [reflexivity|].
    split; [|split; [simpl; lia | reflexivity]].
    split; [discriminate|].
    split; [intros Hs; apply starts_char_head in Hs; clash|].
    split; [right; exact Hb|]. intros b rest' Hr. discriminate Hr. }
  destruct (is_continuation (bz b2)) eqn:C2.
  2:{ right. exists [b0; b1], (b2 :: r2). split; [reflexivity|].
      split; [|split; [simpl; lia | reflexivity]].
      split; [discriminate|].
      split; [intros Hs; apply starts_char_head in Hs; clash|].
      split; [right; exact Hb|].
      intros b rest' Hr Hb3. simplify_eq. apply begins_char_3 in Hb3. congruence. }
  assert (Hb' : begins_char [b0; b1; b2])
    by (apply begins_char_4_3; [lia | exact C1 | exact C2]).
  destruct r2 as [|b3 r3].
  { right. exists [b0; b1; b2], []. split; [reflexivity|].
    split; [|split; [simpl; lia | reflexivity]].
    split; [discriminate|].
    split; [intros Hs; apply starts_char_head in Hs; clash|].
    split; [right; exact Hb'|]. intros b rest' Hr. discriminate Hr. }
  destruct (is_continuation (bz b3)) eqn:C3.
  { left. exists (cp4 (bz b0) (bz b1) (bz b2) (bz b3)), [b0; b1; b2; b3], r3.
    split; [reflexivity|].
    split; [apply encode_char_4; [lia | exact C1 | exact C2 | exact C3]|].
    split; [simpl; lia | reflexivity]. }
  right. exists [b0; b1; b2], (b3 :: r3). split; [reflexivity|].
  split; [|split; [simpl; lia | reflexivity]].
  split; [discriminate|].
  split; [intros Hs; apply starts_char_head in Hs; clash|].
  split; [right; exact Hb'|].
  intros b rest' Hr Hb4. simplify_eq. apply begins_char_4 in Hb4. congruence.
Qed.

(** ** The decoder does what the specification says *)

Lemma decode_replace_replaced (n : nat) :
  forall data, (length data <= n)%nat -> replaced data (decode_replace data).
Proof.
  induction n as [|n IH]; intros data Hlen.
  - destruct data; [constructor | simpl in Hlen; lia].
  - destruct data as [|b0 r0]; [constructor|]. simpl in Hlen.
    destruct (decode_replace_step b0 r0)
      as [(c & enc & rest & -> & Henc & Hl & ->)
         | (bad & rest & -> & Hbad & Hl & ->)].
    + apply replaced_char; [exact Henc | apply IH; lia].
    + apply replaced_bad; [exact Hbad | apply IH; lia].
Qed.

(** The bytes that cannot be decoded at the head of the data are the same
    however they are cut off. *)
Lemma undecodable_unique (bad rest bad' rest' : pybytes) :
  undecodable bad rest -> undecodable bad' rest' ->
  bad ++ rest = bad' ++ rest' -> bad = bad' /\ rest = rest'.
Proof.
  assert (Hone : forall b1 r1 b2 r2 k,
            undecodable b1 r1 -> undecodable b2 r2 ->
            b2 = b1 ++ k -> r1 = k ++ r2 -> k = []).
  { intros b1 r1 b2 r2 k (Hne1 & _ & _ & Hmax1) (_ & _ & Hb2 & _) -> ->.
    destruct k as [|b k]; [reflexivity|]. exfalso.
    apply (Hmax1 b (k ++ r2) eq_refl).
    destruct Hb2 as [Hlen | Hb2].
    - destruct b1; [congruence|]. rewrite length_app in Hlen. simpl in Hlen. lia.
    - apply (begins_char_prefix _ (b1 ++ b :: k)); [|exact Hb2].
      exists k. rewrite <- app_assoc. reflexivity. }
  intros H1 H2 Heq.
  apply app_eq_inv in Heq as [(k & -> & ->) | (k & -> & ->)].
  - rewrite (Hone bad' (k ++ rest) (bad' ++ k) rest k H2 H1 eq_refl eq_refl).
    rewrite app_nil_r. split; reflexivity.
  - rewrite (Hone bad (k ++ rest') (bad ++ k) rest' k H1 H2 eq_refl eq_refl).
    rewrite app_nil_r. split; reflexivity.
Qed.

(** ... and nothing else does: the text the specification describes is the
    one the decoder gives. *)
Lemma replaced_unique (data : pybytes) (t : pystr) :
  replaced data t -> t = decode_replace data.
Proof.
  induction 1 as [|c enc rest t Henc _ IH | bad rest t Hbad _ IH].
  - reflexivity.
  - pose proof (decode_strict_encode_char c enc [] Henc) as Hd.
    rewrite app_nil_r in Hd.
    rewrite (decode_replace_strict (length enc) enc [c] rest (Nat.le_refl _) Hd).
    rewrite IH. reflexivity.
  - destruct bad as [|b0 bad]; [destruct Hbad as [Hne _]; congruence|].
    destruct (decode_replace_step b0 (bad ++ rest))
      as [(c & enc & rest' & Hd & Henc & _ & _)
         | (bad' & rest' & Hd & Hbad' & _ & Hdec)].
    + exfalso. destruct Hbad as (_ & Hs & _). apply Hs.
      exists c, enc, rest'. split; [exact Henc | exact Hd].
    + change (b0 :: bad ++ rest) with ((b0 :: bad) ++ rest) in Hd, Hdec.
      destruct (undecodable_unique _ _ _ _ Hbad Hbad' Hd) as [_ <-].
      rewrite Hdec, IH. reflexivity.
Qed.

(** Data that is not well-formed throughout gets a placeholder. *)
Lemma decode_replace_marks (n : nat) :
  forall data, (length data <= n)%nat -> decode_strict data = None ->
    REPLACEMENT ∈ decode_replace data.
Proof.
  induction n as [|n IH]; intros data Hlen H.
  - destruct data; [discriminate H | simpl in Hlen; lia].
  - destruct data as [|b0 r0]; [discriminate H|]. simpl in Hlen.
    assert (Hrec : forall r, (length r <= length r0)%nat ->
              decode_strict r = None -> REPLACEMENT ∈ decode_replace r)
      by (intros r Hr; apply IH; lia).
    assert (Hfmap : forall c r, (length r <= length r0)%nat ->
              cons c <$> decode_strict r = None ->
              REPLACEMENT ∈ c :: decode_replace r).
    { intros c r Hr Hn. right. apply Hrec; [exact Hr|].
      destruct (decode_strict r); [discriminate Hn | reflexivity]. }
    cbn [decode_replace decode_strict] in *.
    repeat match goal with
    | |- context [if ?c then _ else _] => destruct c eqn:?
    | |- context [match ?l with [] => _ | _ :: _ => _ end] =>
        destruct l; simpl in Hrec, Hfmap
    | |- REPLACEMENT ∈ REPLACEMENT :: _ => left
    end; cbn [andb] in H; try discriminate H;
    (apply Hfmap; [simpl; lia | exact H]).
Qed.

(** C6: whatever bytes the transport delivers, well-formed or not,
    [_poll_uart] takes no error path: no box is shown and the connection
    and the poll timer stay as they are.  The text appended to the buffer
    of the selected port and to the log is the one the specification
    describes, and the only one: every UTF-8 form of a character in the
    data comes out as that character and all bytes that cannot be decoded
    come out as U+FFFD, in the order of the data.  So data that is not
    well-formed throughout gets a placeholder, and every decodable part
    [b] appears as its text [t], between the texts of what comes before
    and after it. *)
Theorem poll_uart_decodes_with_replacement (env : Env) (s : CommConsole)
    (h : Serial) (n n' : Z) (data : pybytes) :
  _serial s = Some h -> env_in_waiting env = inr n -> n <> 0 ->
  env_in_waiting' env = inr n' -> env_read env = inr data ->
  let p := currentText (uart_port_combo s) in
  let s' := _poll_uart env s in
  exists text,
    replaced data text /\ (forall text', replaced data text' -> text' = text) /\
    logs_get p s' = logs_get p s ++ text /\
    log s' = log s ++ text /\
    (forall k, k <> p -> _port_logs s' !! k = _port_logs s !! k) /\
    trace s' = trace s /\ _serial s' = Some h /\ _poll s' = _poll s /\
    (decode_strict data = None -> REPLACEMENT ∈ text) /\
    (forall a b c t, data = a ++ b ++ c -> b <> [] -> decode_strict b = Some t ->
       exists ta tc, replaced a ta /\ replaced c tc /\ text = ta ++ t ++ tc).
Proof.
  intros Hs Hw Hn Hw' Hr p s'. exists (decode_replace data).
  split; [apply (decode_replace_replaced (length data)); lia|].
  split; [intros text' H'; apply replaced_unique; exact H'|].
  assert (Hpoll : logs_get p s' = logs_get p s ++ decode_replace data /\
                  log s' = log s ++ decode_replace data /\
                  (forall k, k <> p -> _port_logs s' !! k = _port_logs s !! k) /\
                  trace s' = trace s /\ _serial s' = Some h /\ _poll s' = _poll s).
  { destruct data as [|b0 r0].
    - assert (E : s' = s).
      { unfold s', _poll_uart. rewrite Hs, Hw, Hw', Hr.
        destruct (n =? 0); reflexivity. }
      rewrite E. cbn [decode_replace]. rewrite !app_nil_r. repeat split. exact Hs.
    - unfold s'.
      rewrite (_poll_uart_data env s h n n' (b0 :: r0) Hs Hw Hn Hw' Hr)
        by discriminate.
      unfold logs_get. simpl. fold p. rewrite lookup_insert_eq. simpl.
      repeat split; try assumption.
      intros k Hk. apply lookup_insert_ne. congruence. }
  destruct Hpoll as (H1 & H2 & H3 & H4 & H5 & H6).
  repeat (split; [assumption|]). split.
  - apply (decode_replace_marks (length data)). lia.
  - intros a b c t -> Hb Ht. exists (decode_replace a), (decode_replace c).
    split; [apply (decode_replace_replaced (length a)); lia|].
    split; [apply (decode_replace_replaced (length c)); lia|].
    apply decode_replace_keeps_valid; assumption.
Qed.

Lemma poll_uart_decodes_with_replacement_witness :
  _serial on_COM9 = Some serial_COM9 /\
  exists text,
    replaced [xff; xfe; x80; xc0] text /\
    logs_get (lit "COM9") (_poll_uart (incoming [xff; xfe; x80; xc0]) on_COM9)
    = logs_get (lit "COM9") on_COM9 ++ text /\
    trace (_poll_uart (incoming [xff; xfe; x80; xc0]) on_COM9) = trace on_COM9.
Proof.
  assert (H : _serial on_COM9 = Some serial_COM9) by (vm_compute; reflexivity).
  split; [exact H|].
  destruct (poll_uart_decodes_with_replacement
              (incoming [xff; xfe; x80; xc0]) on_COM9 serial_COM9 4 4
              [xff; xfe; x80; xc0] H eq_refl ltac:(discriminate) eq_refl eq_refl)
    as (text & Hrep & _ & Hlog & _ & _ & Htrace & _).
  exists text. split; [exact Hrep|]. split; [exact Hlog | exact Htrace].
Defined.

(** Data with nothing in it that can be decoded: every byte comes out as a
    placeholder, and the poll goes through. *)
Example decode_replace_all_garbage :
  decode_replace [xff; xfe; x80; xc0]
    = [REPLACEMENT; REPLACEMENT; REPLACEMENT; REPLACEMENT] /\
  decode_replace [xff; xc3; x80; xe2] = [REPLACEMENT; 0xC0; REPLACEMENT].
Proof. vm_compute. split; reflexivity. Qed.
